(* ===== verification/_CoqProject ===== *)
-Q . S2P
Prelude.v
PyValue.v
Url.v
Http.v
Prepare.v
Gateway.v
ControlPlane.v
Retry.v
Lifecycle.v
Fuel.v
Protocol.v
Main.v
Script.v
