(* ===== verification/Prelude.v ===== *)
(** * A verification development of yandex-apigateway-proxy

    The repository has two parts.  [src/src/api-gateway-proxy.py] is the
    gateway lifecycle manager: the class [YandexApiGateway] (an
    [HTTPAdapter]) derives a gateway name and an OpenAPI document from a
    base URL, finds or creates a Yandex Cloud API gateway with that name
    through the REST service ([init_gateway]), polls it until it is
    [ACTIVE], rewrites every request it sends to the gateway's public URL
    ([send]) and deletes the gateway on [shutdown_gateway]; [__enter__]
    and [__exit__] make it a context manager.  [src/main.py] configures a
    retrying transport, [CustomHTTPAdapter], mounts it on a session and
    sends one GET; its two other classes are empty stubs.  The two parts
    do not call each other; both reach the network only through
    [requests].

    ** Files

    - [Prelude.v] (this file): the outcome of a run ([Ret], [Exc],
      [OutOfFuel]), the state and exception monad [st] every component is
      written in, with its notations ([gw_scope]), laws and run lemmas,
      the hint databases [gw] and [gw_rw], decidable equality of strings
      and the string lemmas the components share.
    - [PyValue.v], Module [Py]: Python values as the code handles them
      ([None], booleans, integers, strings, lists, dicts as association
      lists), the exceptions the code can raise, truth testing,
      [dict.get], subscripts, iteration, [str()] and [repr()], and the
      [str] methods the code calls ([rstrip], [replace], [in], ...).
    - [Url.v], Module [Url]: CPython 3.12's [urlsplit]/[urlparse] on
      ASCII text, [set_base_url] (lines 56-58), the host and the name of
      [__init__] (lines 42-43), the [OPENAPI_SPEC] template (lines 7-29)
      and the [%] formatting of line 100.
    - [Http.v], Module [Http]: requests and responses, the interface
      [Backend] every model of the network implements (a world answers a
      request and moves on), scripted networks, the observable events of a
      run.
    - [Prepare.v], Module [Prepare]: [requests.Request(...).prepare()]
      as [send] (lines 64-66) calls it, from requests 2.32 and urllib3
      2.x: the method upper-cased; [prepare_url] with urllib3's
      [parse_url] (scheme and authority split, the [MissingSchema] and
      [InvalidURL] checks, the host lower-cased, the port checked, dot
      segments removed, invalid characters percent-encoded), then
      [urlunparse] ([/] for an empty path) and [requote_uri].
    - [Gateway.v], Module [Gateway]: the instance attributes as a record
      [gateway]; a machine holds the instance, the network world and the
      trace of events; each method of the class is a computation of
      [M W := st (machine W) py_exc]: [request] (lines 70-78),
      [get_api_gateways] (80-86), [find_gateway] (the [for] loop, 91-95),
      [poll] (the [while True] loop, 106-112), [create_gateway] (97-114),
      [init_gateway] (88-114), [shutdown_gateway] (116-121), [send]
      (60-68) and [with_gateway] ([__enter__]/[__exit__], 48-54).  The
      theorems are stated for any [Backend] and for scripted answers.
    - [ControlPlane.v], Module [ControlPlane]: not code of the repository
      but its environment: a simulation of the API Gateway REST service of
      the specification (authentication by token, listing by folder,
      creation answering an operation whose gateway becomes [ACTIVE] after
      a number of reads, deletion) as a [Backend] instance, so that the
      manager's end-to-end behaviour is stated against a service with
      state.
    - [Lifecycle.v], Module [Lifecycle]: a manager's whole life as a step
      relation [mstep] (a call of [init_gateway], [shutdown_gateway],
      [send], [request] or [get_api_gateways], or the network changed by
      other clients) and the machines [reachable] from the constructor; the
      properties each method keeps ([keeps R]), proved once per method by
      the [keeps] hint database from the way the methods are composed,
      and the invariants over reachable machines by rule induction.
    - [Fuel.v], Module [Fuel]: the order [<<=] on runs (out of fuel below
      everything, a finished run only below itself), its compatibility
      with bind and [try], and the monotonicity of [poll],
      [init_gateway] and [with_gateway] in their fuel: the adequacy of
      the fuel encoding.
    - [Protocol.v], Module [Protocol]: the shape of the trace
      [init_gateway] leaves for any network ([open_trace]), from the
      shapes of its parts ([poll_shape], [create_gateway_shape],
      [find_gateway_frame]), and the requests of a close that follows a
      failed open.
    - [Retry.v], Module [Retry]: [src/main.py]: the constants of lines
      8-15 and the constructor of [CustomHTTPAdapter] (lines 18-38) with
      every attribute it sets.  The urllib3 [Retry] policy the adapter
      hands to its pool is library code, modelled from the specification
      (§4.1); [base_retry] is [HTTPAdapter]'s default policy, the one
      [YandexApiGateway]'s [send] runs under (line 34).
    - [Main.v], Module [Main]: the script of [src/main.py]: the session's
      adapter table ([Session.mount], [Session.get_adapter] of requests,
      lines 41-44), the GET of line 46, and the two stub classes of lines 50-57,
      whose constructors set no attribute.
    - [Script.v], Module [Script]: running the modules.  The import
      statements of lines 1-5 of both files against a table of installed
      modules ([run_imports]: [ModuleNotFoundError] for a missing package,
      parents first, [ImportError] for a missing name), and the body of
      [src/main.py] as one computation [main_py] over the transport's
      state and standard output: imports, GET (line 46), [print(r.text)]
      (line 47).  Responses carry their text ([rs_text]); the test
      networks' JSON answers have the text [json.dumps] gives
      ([PyValue.v]).

    ** Theorems

    - Lifecycle ([Gateway.v], [ControlPlane.v]): [init_gateway] creates
      exactly one gateway and returns once it is active
      ([init_gateway_creates], [open_creates_one_gateway]); it adopts a
      listed gateway of its name without polling and without setting
      [gateway_is_active] ([init_gateway_adopts_existing],
      [reopen_adopts_without_creation]); the gateway name is not injective
      and a manager adopts a gateway that proxies another host
      for any hosts [x-y] and [x.y] ([name_collision_adopts_foreign_gateway]); the context manager
      leaves the service with the gateways it had
      ([with_gateway_no_leak]).
    - Invariants ([Lifecycle.v]): in every reachable machine the
      configuration is the constructor's and [gateway_url] is [None] or
      an [https://] URL ([reachable_config]); [gateway_is_active] never
      goes back to [False] ([active_forever]); yet, for any network, a
      second [init_gateway] whose creation is refused forgets the id of
      the gateway held before, so the close deletes nothing
      ([reopen_forgets_gateway]).
    - Types ([PyValue.v], [Gateway.v], [ControlPlane.v]): JSON values
      are checked against the shapes of the REST contract ([jtype],
      [has_type]); on items of the gateway shape the lookup of
      [init_gateway] never raises and returns the first item of the
      name or [None] ([find_gateway_well_typed]), nor does the poll once
      the instance has an id ([poll_well_typed]).
    - Errors and non-termination: the poll never returns on answers that
      are not [ACTIVE] ([poll_never_returns]), in particular with a token
      the service refuses ([bad_token_hangs]); a failed listing reads as an
      empty folder ([failed_listing_creates]); a refused creation ends in
      an [AttributeError] ([failed_creation_raises]); [send] before the
      gateway is known raises [MissingSchema]
      ([send_before_open_raises]); [shutdown_gateway] is a no-op before
      [init_gateway] and deletes twice when called twice.
    - Ordering ([Protocol.v]): whatever the network answers and however
      it ends, [init_gateway] sends the listing, then at most one
      creation, then whole poll iterations, each a sleep before the
      request for the id the creation answered, the folder listing when
      that id is falsy ([init_gateway_protocol]); when the first poll of
      a created gateway raises, [init_gateway] raises with the id kept
      and the close that follows sends the DELETE, where §8 of the specification expects a no-op
      ([failed_open_close_deletes]).
    - Management calls: [request] always sends the bearer token and
      keeps the caller's other headers ([request_sets_bearer]) and reads
      every status of 400 or more as [{}] ([request_error_is_empty]).
    - Request rewriting ([Gateway.v], [Prepare.v]): [send] keeps
      headers and body, upper-cases the method and sends any URL with a
      host to what requests prepares from the gateway URL plus the path
      alone (query, fragment and parameters dropped): the host
      lower-cased, dot segments removed, the path percent-encoded, [/]
      for an empty path ([send_rewrites_url]).
    - Naming and payload ([Url.v], [Gateway.v]): the name is the same for a
      host with or without scheme and trailing slashes
      ([new_gateway_name_normalised]); [set_base_url] is idempotent
      exactly when its result keeps ["://"] and does not end with a
      slash ([set_base_url_idempotent]); the [%] formatting of the OpenAPI
      template never fails and places the base URL and host
      ([openapi_spec_fill]).
    - Retrying transport ([Retry.v]): every exchange finishes and makes at
      most [total + 1] attempts ([retry_send_terminates]); it refines
      the policy of §4.1 stated as a relation on the network's answers
      ([retry_send_refines]); absorbed
      failures followed by a final answer return it
      ([retry_send_recovers]); a failure that exhausts a counter surfaces
      ([retry_send_gives_up]); with the defaults, four refused connections
      surface the error ([default_refused_connections]) and an exchange
      sleeps at most 15.5 seconds ([default_sleep_bound]).
      [HTTPAdapter]'s default policy is one attempt (the lemma
      [base_retry_single_attempt]), which is why [Gateway.send] is
      written with a single network call.
    - Session ([Main.v]): the session routes both schemes, in any letter
      case, to the adapter ([main_session_routes]).
    - Running [main.py] ([Script.v]): where its imports succeed and the
      network answers each attempt, its GET makes at most six attempts through
      the custom adapter, and it prints the response's text or raises the
      transport's exception with no output ([main_py_output]); where
      [fake_useragent], imported and never used, is missing, it raises
      [ModuleNotFoundError] before any request
      ([main_py_without_fake_useragent]).

    ** Fuel

    The [while True] poll is the one loop of the manager without a bound;
    [poll] and [init_gateway] take fuel, one unit per iteration, and a run
    out of fuel has the outcome [OutOfFuel].  The liveness theorems assume
    more fuel than the answers the service gives before [ACTIVE] (the
    service's provisioning delay); the non-termination theorems hold for
    every fuel.  The fuel is only a bound: a run that finishes with some
    fuel finishes identically with any larger fuel (the lemma
    [init_gateway_fuel_irrelevant] of [Fuel.v], from its monotonicity
    lemmas), so the fuel a liveness theorem names is a lower bound and
    not a parameter of the behaviour.  The retry loop is bounded by its counters: [retry_send]
    gives it [total + 1] units, and [retry_send_terminates] shows that this
    is never exhausted.

    ** Not modelled

    Floats in JSON, non-ASCII text in URLs, IPv6 literals and the IDNA
    encoding of hosts in [prepare_url]; sockets, TLS and timeouts of the
    transport: a [Backend] answers every request or raises, so a server
    that never answers (line 46 of [src/main.py] sends its GET without a
    timeout) is outside the model; the in-place update of the caller's
    [headers] dict by [request] (line 71), which no caller shares; urllib3's redirect and
    [Retry-After] handling and [backoff_max]; the contents of the
    imported modules beyond the names the files import, and the fallback
    of [from m import x] to a submodule [m.x] (no file relies on it).
    What is left of the two files is blank lines. *)

From stdpp Require Import base list.
From Stdlib Require Import ZArith String Ascii Lia.

(** ** Outcomes of a run

    Python code either returns a value, raises an exception, or (for the
    unbounded [while True] loop of the gateway poll) may never return.  A
    model executed with fuel therefore has three outcomes; [OutOfFuel] is the
    observable of a run that has not finished within the fuel given. *)

Inductive outcome (E A : Type) : Type :=
| Ret (a : A)
| Exc (e : E)
| OutOfFuel.
Arguments Ret {E A} a.
Arguments Exc {E A} e.
Arguments OutOfFuel {E A}.

(** The state and exception monad the components are written in: the
    state is threaded through every call, and an exception leaves the
    state as it was when it was raised (Python keeps attribute
    assignments made before a [raise]). *)
Definition st (S E A : Type) : Type := S -> S * outcome E A.

Section StMonad.
Context {S E : Type}.

Definition st_ret {A} (a : A) : st S E A := fun s => (s, Ret a).

Definition st_bind {A B} (m : st S E A) (k : A -> st S E B) : st S E B :=
  fun s =>
    match m s with
    | (s', Ret a) => k a s'
    | (s', Exc e) => (s', Exc e)
    | (s', OutOfFuel) => (s', OutOfFuel)
    end.

Definition st_raise {A} (e : E) : st S E A := fun s => (s, Exc e).
Definition st_diverge {A} : st S E A := fun s => (s, OutOfFuel).
Definition st_get : st S E S := fun s => (s, Ret s).
Definition st_put (s' : S) : st S E unit := fun _ => (s', Ret tt).
Definition st_modify (f : S -> S) : st S E unit := fun s => (f s, Ret tt).

(** Lift a pure computation that may raise (a [sum], error on the left). *)
Definition st_lift {A} (r : E + A) : st S E A :=
  match r with inl e => st_raise e | inr a => st_ret a end.

(** [try ... except]: run [m] and hand its finished outcome to [k];
    a run out of fuel stays out of fuel (the handler never runs). *)
Definition st_try {A B} (m : st S E A) (k : E + A -> st S E B) : st S E B :=
  fun s =>
    match m s with
    | (s', Ret a) => k (inr a) s'
    | (s', Exc e) => k (inl e) s'
    | (s', OutOfFuel) => (s', OutOfFuel)
    end.
End StMonad.

(** [sum] as the result of a pure computation that may raise. *)
Definition sum_map {E A B} (f : A -> B) (r : E + A) : E + B :=
  match r with inl e => inl e | inr a => inr (f a) end.

Definition sum_bind {E A B} (r : E + A) (f : A -> E + B) : E + B :=
  match r with inl e => inl e | inr a => f a end.

Declare Scope gw_scope.
Delimit Scope gw_scope with gw.
Notation "x <- m ;; k" := (st_bind m (fun x => k))
  (at level 100, m at next level, right associativity) : gw_scope.
Notation "m ;;; k" := (st_bind m (fun _ => k))
  (at level 100, right associativity) : gw_scope.

(** ** Monad laws and run equations *)

Section StLaws.
Context {S E : Type}.

Lemma st_bind_ret_l {A B} (a : A) (k : A -> st S E B) s :
  st_bind (st_ret a) k s = k a s.
Proof. reflexivity. Qed.

Lemma st_bind_ret_r {A} (m : st S E A) s : st_bind m st_ret s = m s.
Proof. unfold st_bind. by destruct (m s) as [? []]. Qed.

Lemma st_bind_assoc {A B C} (m : st S E A) (k : A -> st S E B)
      (h : B -> st S E C) s :
  st_bind (st_bind m k) h s = st_bind m (fun a => st_bind (k a) h) s.
Proof. unfold st_bind. by destruct (m s) as [? []]. Qed.

(** The step every run lemma takes: a bind continues with the outcome
    of its first computation. *)
Lemma st_bind_step {A B} (m : st S E A) (k : A -> st S E B) s s' o :
  m s = (s', o) ->
  st_bind m k s = match o with
                  | Ret a => k a s'
                  | Exc e => (s', Exc e)
                  | OutOfFuel => (s', OutOfFuel)
                  end.
Proof. unfold st_bind. by intros ->. Qed.

Lemma st_bind_run {A B} (m : st S E A) (k : A -> st S E B) s s' a :
  m s = (s', Ret a) -> st_bind m k s = k a s'.
Proof. unfold st_bind. by intros ->. Qed.

Lemma st_bind_exc {A B} (m : st S E A) (k : A -> st S E B) s s' e :
  m s = (s', Exc e) -> st_bind m k s = (s', Exc e).
Proof. unfold st_bind. by intros ->. Qed.

Lemma st_bind_oof {A B} (m : st S E A) (k : A -> st S E B) s s' :
  m s = (s', OutOfFuel) -> st_bind m k s = (s', OutOfFuel).
Proof. unfold st_bind. by intros ->. Qed.

(** A lifted error stops the run where it is; a lifted value goes on. *)
Lemma st_bind_lift_inl {A B} e (k : A -> st S E B) s :
  st_bind (st_lift (inl e)) k s = (s, Exc e).
Proof. reflexivity. Qed.

Lemma st_bind_lift_inr {A B} (a : A) (k : A -> st S E B) s :
  st_bind (st_lift (inr a)) k s = k a s.
Proof. reflexivity. Qed.
End StLaws.

Create HintDb gw discriminated.
Create Rewrite HintDb gw_rw.
#[export] Hint Rewrite @st_bind_ret_l @st_bind_assoc @st_bind_lift_inl @st_bind_lift_inr : gw_rw.

(** ** Strings

    Python's [str] is modelled as [string] (ASCII); these lemmas are the
    ones every component uses about concatenation. *)

Open Scope string_scope.

(** stdpp's [strings] module makes [String.append] opaque to [simpl]; the
    development does not load it and declares the decision instance here. *)
#[export] Instance string_eq_dec : EqDecision string := string_dec.

Lemma str_app_assoc (a b c : string) : (a ++ b) ++ c = a ++ (b ++ c).
Proof. induction a as [|x a IH]; simpl; [done | f_equal; exact IH]. Qed.

Lemma str_app_nil_r (a : string) : a ++ "" = a.
Proof. induction a as [|x a IH]; simpl; [done | f_equal; exact IH]. Qed.

Lemma str_app_inv_l (p a b : string) : p ++ a = p ++ b -> a = b.
Proof. induction p as [|x p IH]; simpl; [done | intros H; injection H as H; auto]. Qed.

Lemma str_length_app (a b : string) :
  String.length (a ++ b) = String.length a + String.length b.
Proof. induction a as [|x a IH]; simpl; [done | f_equal; exact IH]. Qed.

#[export] Hint Rewrite str_app_assoc str_app_nil_r : gw_rw.

(** [simpl_run] unfolds the monad's combinators and simplifies: the step
    every run lemma of the components starts with.  The combinators are
    unfolded outright because a bind on a call that is not yet rewritten
    is stuck, and [cbn] would fold it back. *)
Ltac simpl_run :=
  unfold st_bind, st_ret, st_get, st_put, st_modify, st_raise, st_lift, st_try,
    st_diverge in *; simpl in *.
