(* ===== verification/PyValue.v ===== *)
(** * Python values and the builtins the sources call

    [src/src/api-gateway-proxy.py] handles the JSON bodies of the control
    plane as Python values ([response.json()]), reads them with
    [dict.get], subscripts ([gateway["name"]]), iteration ([for gateway in
    gateway_list]), comparison with a [str], truth tests ([if
    api_gateway_id:]) and [str()] inside f-strings.  This file models those
    values and operations, including the exceptions they raise on values of
    the wrong type, and the [str] methods the sources call ([rstrip],
    [lstrip], [replace], [in], [find], [lower], [startswith]). *)

From stdpp Require Import base list.
From Stdlib Require Import ZArith String Ascii DecimalString Lia.
From S2P Require Import Prelude.

Open Scope string_scope.

Module Py.

#[local] Set Warnings "-register-all".

(** ** Values

    The values [json.loads] produces, floats apart (no field the sources
    read is a number).  A [dict] keeps its items in insertion order, as
    Python's does; the keys of a decoded JSON object are strings. *)
Inductive pyval : Type :=
| PyNone
| PyBool (b : bool)
| PyInt (z : Z)
| PyStr (s : string)
| PyList (xs : list pyval)
| PyDict (kvs : list (string * pyval)).

(** The exceptions the modelled code can raise. *)
Inductive py_exc : Type :=
| KeyError (key : string)
| TypeError (msg : string)
| AttributeError (msg : string)
| ValueError (msg : string)
| JSONDecodeError
| ConnectionError
| ReadTimeout
| InvalidSchema (url : string)
| MissingSchema (url : string)
| InvalidURL (url : string)
| ModuleNotFoundError (name : string)
| ImportError (name module : string).

Definition type_name (v : pyval) : string :=
  match v with
  | PyNone => "NoneType"
  | PyBool _ => "bool"
  | PyInt _ => "int"
  | PyStr _ => "str"
  | PyList _ => "list"
  | PyDict _ => "dict"
  end.

(** [bool(v)]: the truth test of [if v:] and [not v]. *)
Definition truthy (v : pyval) : bool :=
  match v with
  | PyNone => false
  | PyBool b => b
  | PyInt z => negb (Z.eqb z 0)
  | PyStr s => negb (String.eqb s "")
  | PyList xs => negb (bool_decide (xs = []))
  | PyDict kvs => negb (bool_decide (kvs = []))
  end.

(** [v == s] for a [str] literal [s]: only a [str] with the same
    characters compares equal. *)
Definition eq_str (v : pyval) (s : string) : bool :=
  match v with PyStr t => String.eqb t s | _ => false end.

Fixpoint assoc_lookup (k : string) (kvs : list (string * pyval)) : option pyval :=
  match kvs with
  | [] => None
  | (k', v) :: r => if String.eqb k k' then Some v else assoc_lookup k r
  end.

(** [v.get(k, default)]: only a [dict] has [get]. *)
Definition get (v : pyval) (k : string) (default : pyval) : py_exc + pyval :=
  match v with
  | PyDict kvs =>
      match assoc_lookup k kvs with Some x => inr x | None => inr default end
  | _ => inl (AttributeError ("'" ++ type_name v ++ "' object has no attribute 'get'"))
  end.

(** [v[k]] for a [str] key [k]. *)
Definition getitem (v : pyval) (k : string) : py_exc + pyval :=
  match v with
  | PyDict kvs =>
      match assoc_lookup k kvs with Some x => inr x | None => inl (KeyError k) end
  | PyStr _ => inl (TypeError "string indices must be integers, not 'str'")
  | PyList _ => inl (TypeError "list indices must be integers or slices, not str")
  | _ => inl (TypeError ("'" ++ type_name v ++ "' object is not subscriptable"))
  end.

Fixpoint chars (s : string) : list pyval :=
  match s with
  | EmptyString => []
  | String c r => PyStr (String c EmptyString) :: chars r
  end.

(** [for x in v]: a list yields its items, a dict its keys, a str its
    characters. *)
Definition iter (v : pyval) : py_exc + list pyval :=
  match v with
  | PyList xs => inr xs
  | PyDict kvs => inr (map (fun kv => PyStr kv.1) kvs)
  | PyStr s => inr (chars s)
  | _ => inl (TypeError ("'" ++ type_name v ++ "' object is not iterable"))
  end.

(** ** JSON schemas

    The shape of a decoded JSON value, as a REST contract states it: a
    [JObj] lists the keys a dict must have and the shape of their values
    (other keys may be present). *)
Inductive jtype : Type :=
| JAny
| JNull
| JBool
| JInt
| JStr
| JList (t : jtype)
| JObj (fields : list (string * jtype)).

Fixpoint has_type (v : pyval) (t : jtype) {struct t} : bool :=
  match t with
  | JAny => true
  | JNull => match v with PyNone => true | _ => false end
  | JBool => match v with PyBool _ => true | _ => false end
  | JInt => match v with PyInt _ => true | _ => false end
  | JStr => match v with PyStr _ => true | _ => false end
  | JList t' => match v with PyList xs => forallb (fun x => has_type x t') xs | _ => false end
  | JObj fs =>
      match v with
      | PyDict kvs =>
          (fix fields (fs : list (string * jtype)) : bool :=
             match fs with
             | [] => true
             | (k, t') :: r =>
                 match assoc_lookup k kvs with
                 | Some x => has_type x t' && fields r
                 | None => false
                 end
             end) fs
      | _ => false
      end
  end.

(** ** [str()] and [repr()] *)

Definition int_str (z : Z) : string := NilZero.string_of_int (Z.to_int z).

Definition hex_digit (n : nat) : ascii :=
  ascii_of_nat (if Nat.ltb n 10 then 48 + n else 87 + n)%nat.

(** [\xNN] with two lowercase hexadecimal digits. *)
Definition hex_escape (c : ascii) : string :=
  let n := nat_of_ascii c in
  String "\" (String "x" (String (hex_digit (Nat.div n 16))
                                  (String (hex_digit (Nat.modulo n 16)) EmptyString))).

Definition dq : ascii := "034".
Definition sq : ascii := "'".

(** Python's [str.isprintable] on the code points [0..255]. *)
Definition printable (c : ascii) : bool :=
  let n := nat_of_ascii c in
  negb (Nat.ltb n 32 || Nat.eqb n 127 || (Nat.leb 128 n && Nat.leb n 160) || Nat.eqb n 173).

Fixpoint has_char (c : ascii) (s : string) : bool :=
  match s with
  | EmptyString => false
  | String d r => Ascii.eqb c d || has_char c r
  end.

Fixpoint repr_body (q : ascii) (s : string) : string :=
  match s with
  | EmptyString => EmptyString
  | String c r =>
      let e :=
        if Ascii.eqb c q || Ascii.eqb c "\" then String "\" (String c EmptyString)
        else if Ascii.eqb c "009" then "\t"
        else if Ascii.eqb c "010" then "\n"
        else if Ascii.eqb c "013" then "\r"
        else if printable c then String c EmptyString
        else hex_escape c in
      e ++ repr_body q r
  end.

(** [repr(s)] for a [str]: single quotes unless the text has a single
    quote and no double quote. *)
Definition str_repr (s : string) : string :=
  let q := if has_char sq s && negb (has_char dq s) then dq else sq in
  String q (repr_body q s ++ String q EmptyString).

Definition join (sep : string) (xs : list string) : string :=
  match xs with
  | [] => ""
  | x :: r => fold_left (fun acc y => acc ++ sep ++ y) r x
  end.

Fixpoint repr (v : pyval) : string :=
  match v with
  | PyNone => "None"
  | PyBool b => if b then "True" else "False"
  | PyInt z => int_str z
  | PyStr s => str_repr s
  | PyList xs => "[" ++ join ", " (map repr xs) ++ "]"
  | PyDict kvs =>
      "{" ++ join ", " (map (fun kv => str_repr kv.1 ++ ": " ++ repr kv.2) kvs) ++ "}"
  end.

(** [json.dumps(v)] with its defaults ([ensure_ascii=True], separators
    [", "] and [": "]): every character outside [' '..'~'] is escaped,
    with a short escape where JSON has one and [\u00XX] otherwise.  Used
    to give the test networks' JSON answers the text a server sends. *)
Definition json_escape (c : ascii) : string :=
  let n := nat_of_ascii c in
  if Ascii.eqb c dq then String "\" (String dq EmptyString)
  else if Ascii.eqb c "\" then "\\"
  else if Ascii.eqb c "010" then "\n"
  else if Ascii.eqb c "013" then "\r"
  else if Ascii.eqb c "009" then "\t"
  else if Ascii.eqb c "008" then "\b"
  else if Ascii.eqb c "012" then "\f"
  else if Nat.leb 32 n && Nat.leb n 126 then String c EmptyString
  else "\u00" ++ String (hex_digit (Nat.div n 16)) (String (hex_digit (Nat.modulo n 16)) EmptyString).

Fixpoint json_str_body (s : string) : string :=
  match s with
  | EmptyString => EmptyString
  | String c r => json_escape c ++ json_str_body r
  end.

Definition json_str (s : string) : string := String dq (json_str_body s ++ String dq EmptyString).

Fixpoint json_dumps (v : pyval) : string :=
  match v with
  | PyNone => "null"
  | PyBool b => if b then "true" else "false"
  | PyInt z => int_str z
  | PyStr s => json_str s
  | PyList xs => "[" ++ join ", " (map json_dumps xs) ++ "]"
  | PyDict kvs =>
      "{" ++ join ", " (map (fun kv => json_str kv.1 ++ ": " ++ json_dumps kv.2) kvs) ++ "}"
  end.

(** [str(v)], which an f-string applies to each replacement field. *)
Definition str (v : pyval) : string :=
  match v with PyStr s => s | _ => repr v end.

(** ** [str] methods *)

(** [s.rstrip(chars)] for a one-character [chars]. *)
Fixpoint rstrip (c : ascii) (s : string) : string :=
  match s with
  | EmptyString => EmptyString
  | String d r =>
      let r' := rstrip c r in
      if Ascii.eqb d c && String.eqb r' "" then EmptyString else String d r'
  end.

(** [s.lstrip(chars)] for the character class [p]. *)
Fixpoint lstrip (p : ascii -> bool) (s : string) : string :=
  match s with
  | EmptyString => EmptyString
  | String d r => if p d then lstrip p r else s
  end.

(** [s.replace(a, b)] for one-character [a] and [b]. *)
Fixpoint replace (a b : ascii) (s : string) : string :=
  match s with
  | EmptyString => EmptyString
  | String d r => String (if Ascii.eqb d a then b else d) (replace a b r)
  end.

(** [s.replace(a, "")] for a one-character [a]. *)
Fixpoint remove_char (a : ascii) (s : string) : string :=
  match s with
  | EmptyString => EmptyString
  | String d r => if Ascii.eqb d a then remove_char a r else String d (remove_char a r)
  end.

(** [t in s] for [str] operands. *)
Fixpoint contains (t s : string) : bool :=
  String.prefix t s ||
  match s with EmptyString => false | String _ r => contains t r end.

(** [all(p(c) for c in s)]. *)
Fixpoint forall_chars (p : ascii -> bool) (s : string) : bool :=
  match s with EmptyString => true | String c r => p c && forall_chars p r end.

(** [s[-1:]] as an option. *)
Fixpoint last_char (s : string) : option ascii :=
  match s with
  | EmptyString => None
  | String c EmptyString => Some c
  | String _ r => last_char r
  end.

(** [s.startswith(t)]. *)
Definition startswith (s t : string) : bool := String.prefix t s.

(** [s.find(c, start)] for a one-character [c]: the index, or [None] for
    Python's [-1]. *)
Fixpoint find_from (c : ascii) (s : string) (start : nat) : option nat :=
  match s with
  | EmptyString => None
  | String d r =>
      match start with
      | 0 => if Ascii.eqb d c then Some 0 else S <$> find_from c r 0
      | S k => S <$> find_from c r k
      end
  end.

Definition lower_char (c : ascii) : ascii :=
  let n := nat_of_ascii c in
  if Nat.leb 65 n && Nat.leb n 90 then ascii_of_nat (n + 32)%nat else c.

(** [s.lower()] on ASCII text. *)
Fixpoint lower (s : string) : string :=
  match s with
  | EmptyString => EmptyString
  | String d r => String (lower_char d) (lower r)
  end.

Lemma truthy_PyStr s : s <> "" -> truthy (PyStr s) = true.
Proof. intros Hs. cbn. destruct (String.eqb_spec s ""); done. Qed.

(** ** Lemmas on the [str] methods *)

(** [k] slashes, as a trailing run of a URL. *)
Fixpoint slashes (k : nat) : string :=
  match k with O => EmptyString | S k' => String "/" (slashes k') end.

Lemma forall_chars_app p a b :
  forall_chars p (a ++ b) = forall_chars p a && forall_chars p b.
Proof. induction a as [|c a IH]; simpl; [done|]. by rewrite IH, andb_assoc. Qed.

Lemma forall_chars_impl (p q : ascii -> bool) s :
  (forall c, p c = true -> q c = true) -> forall_chars p s = true -> forall_chars q s = true.
Proof.
  intros Hpq. induction s as [|c s IH]; simpl; [done|].
  intros [Hc Hs]%andb_prop. by rewrite Hpq, IH.
Qed.

Lemma has_char_forall x s :
  forall_chars (fun c => negb (Ascii.eqb x c)) s = true -> has_char x s = false.
Proof.
  induction s as [|c s IH]; cbn [has_char forall_chars]; [done|].
  intros [Hc Hs]%andb_prop. apply negb_true_iff in Hc. by rewrite Hc, IH.
Qed.

Lemma remove_char_id a s : has_char a s = false -> remove_char a s = s.
Proof.
  induction s as [|c s IH]; cbn [has_char remove_char]; [done|].
  intros [Hc Hs]%orb_false_elim. rewrite Ascii.eqb_sym, Hc, IH; done.
Qed.

Lemma rstrip_slashes k : rstrip "/" (slashes k) = "".
Proof. induction k as [|k IH]; simpl; [done|]. by rewrite IH. Qed.

(** Trailing slashes go, and nothing else, from text without a slash. *)
Lemma rstrip_no_slash h k :
  forall_chars (fun c => negb (Ascii.eqb "/" c)) h = true ->
  rstrip "/" (h ++ slashes k) = h.
Proof.
  induction h as [|d h IH]; cbn [forall_chars String.append rstrip];
    [intros; apply rstrip_slashes|].
  intros [Hd Hh]%andb_prop. rewrite IH by done.
  apply negb_true_iff in Hd. rewrite Ascii.eqb_sym, Hd. done.
Qed.

Lemma rstrip_app_nonempty c a b :
  rstrip c b <> "" -> rstrip c (a ++ b) = a ++ rstrip c b.
Proof.
  intros Hb. induction a as [|d a IH]; cbn [String.append rstrip]; [done|].
  rewrite IH. destruct (Ascii.eqb d c); cbn [andb]; [|done].
  destruct a as [|e a]; cbn [String.append].
  - by destruct (rstrip c b).
  - done.
Qed.

Lemma prefix_app t x : String.prefix t (t ++ x) = true.
Proof.
  induction t as [|c t IH]; cbn [String.append String.prefix]; [by destruct x|].
  destruct (ascii_dec c c); done.
Qed.

Lemma contains_app_r t a b : contains t b = true -> contains t (a ++ b) = true.
Proof.
  intros Hb. induction a as [|d a IH]; simpl; [done|]. by rewrite IH, orb_true_r.
Qed.

Lemma contains_slashes k : contains "://" (slashes k) = false.
Proof. induction k as [|k IH]; simpl; [done|]. exact IH. Qed.

Lemma last_char_snoc p c : last_char (p ++ String c EmptyString) = Some c.
Proof.
  induction p as [|d p IH]; [done|]. cbn [String.append last_char].
  destruct (p ++ String c EmptyString) eqn:E; [by destruct p|exact IH].
Qed.

(** A host with no slash that does not end with a colon, followed by
    slashes, has no ["://"]. *)
Lemma contains_sep_host h k :
  forall_chars (fun c => negb (Ascii.eqb "/" c)) h = true ->
  (forall p, h <> p ++ ":") ->
  contains "://" (h ++ slashes k) = false.
Proof.
  induction h as [|d h IH]; cbn [forall_chars String.append contains];
    [intros; apply contains_slashes|].
  intros [Hd Hh]%andb_prop Hend.
  rewrite IH; [| done |].
  2:{ intros p ->. apply (Hend (String d p)). done. }
  rewrite orb_false_r.
  destruct (ascii_dec d ":") as [->|Hne]; cbn [String.prefix].
  2:{ destruct (ascii_dec ":" d); [congruence|done]. }
  destruct (ascii_dec ":" ":") as [_|]; [|done].
  destruct h as [|e h].
  - exfalso. by apply (Hend "").
  - cbn [forall_chars String.append String.prefix] in Hh |- *.
    apply andb_prop in Hh as [He _].
    destruct (ascii_dec "/" e) as [<-|]; [discriminate|done].
Qed.

Lemma rstrip_idem c s : rstrip c (rstrip c s) = rstrip c s.
Proof.
  induction s as [|d r IH]; [done|]. cbn [rstrip].
  destruct (Ascii.eqb d c && String.eqb (rstrip c r) "") eqn:E; [done|].
  cbn [rstrip]. by rewrite IH, E.
Qed.

Lemma rstrip_length c s : String.length (rstrip c s) <= String.length s.
Proof.
  induction s as [|d r IH]; [done|]. cbn [rstrip].
  destruct (_ && _); cbn [String.length]; lia.
Qed.

(** What [rstrip] removes ends the text. *)
Lemma rstrip_empty c s : rstrip c s = "" -> s = "" \/ last_char s = Some c.
Proof.
  induction s as [|d r IH]; [by left|]. cbn [rstrip]. right.
  destruct (Ascii.eqb d c && String.eqb (rstrip c r) "") eqn:E; [|done].
  apply andb_prop in E as [->%Ascii.eqb_eq Hr%String.eqb_eq].
  destruct (IH Hr) as [->|Hl]; [done|]. destruct r; [done|exact Hl].
Qed.

(** [s.rstrip(c)] is [s] exactly when [s] does not end with [c]. *)
Lemma rstrip_id_iff c s : rstrip c s = s <-> last_char s <> Some c.
Proof.
  induction s as [|d r IH]; [done|]. cbn [rstrip].
  destruct (Ascii.eqb d c && String.eqb (rstrip c r) "") eqn:E.
  - apply andb_prop in E as [->%Ascii.eqb_eq Hr%String.eqb_eq].
    split; [discriminate|]. destruct (rstrip_empty c r Hr) as [->|Hl]; [done|].
    destruct r; [done|]. by intros [].
  - split.
    + intros [= Hr]. apply IH in Hr. destruct r as [|e r]; [|exact Hr].
      cbn. rewrite String.eqb_refl, andb_true_r in E. intros [= ->].
      by rewrite Ascii.eqb_refl in E.
    + intros Hl. f_equal. apply IH. destruct r as [|e r]; [done|exact Hl].
Qed.

Lemma contains_self_app t x : t <> "" -> contains t (t ++ x) = true.
Proof.
  destruct t as [|a t]; [done|]. intros _.
  change (contains (String a t) (String a t ++ x))
    with (String.prefix (String a t) (String a t ++ x) || contains (String a t) (t ++ x)).
  by rewrite prefix_app.
Qed.

(** A key a schema requires can be read, and its value has its shape. *)
Lemma has_type_getitem v fs k t :
  has_type v (JObj fs) = true -> In (k, t) fs ->
  exists x, getitem v k = inr x /\ has_type x t = true.
Proof.
  destruct v as [| | | | |kvs]; try discriminate. cbn [has_type getitem].
  induction fs as [|[k' t'] fs IH]; [done|]. intros Hfs [[= -> ->]|Hin].
  - destruct (assoc_lookup k kvs) as [x|]; [|done]. apply andb_prop in Hfs as [Hx _]. eauto.
  - destruct (assoc_lookup k' kvs); [|done]. apply andb_prop in Hfs as [_ Hr]. auto.
Qed.

Lemma get_of_getitem v k x d : getitem v k = inr x -> get v k d = inr x.
Proof.
  destruct v as [| | | | |kvs]; try discriminate. cbn.
  by destruct (assoc_lookup k kvs); intros [= ->].
Qed.

End Py.
