(* ===== verification/Url.v ===== *)
(** * URLs, the gateway name and the OpenAPI document

    The pure part of [YandexApiGateway.__init__] and [init_gateway] in
    [src/src/api-gateway-proxy.py]: the normalisation of the base URL
    ([set_base_url], lines 56-58), the host ([urlparse(...).netloc], line
    42), the gateway name (line 43), the path [send] keeps (line 61) and the
    OpenAPI document POSTed on creation ([OPENAPI_SPEC % (base_url, host)],
    lines 7-29 and 100).  [urlparse] is CPython 3.12's [urllib.parse]
    (3.12 because line 94 nests double quotes in an f-string, which older
    versions reject). *)

From stdpp Require Import base list.
From Stdlib Require Import ZArith String Ascii Lia.
From S2P Require Import Prelude PyValue.

Open Scope string_scope.

Module Url.
Import Py.

(** ** Splitting helpers *)

(** [(s[:i], s[i:])] where [i] is the first index whose character
    satisfies [p] ([len(s)] if none does). *)
Fixpoint break_at (p : ascii -> bool) (s : string) : string * string :=
  match s with
  | EmptyString => (EmptyString, EmptyString)
  | String c r =>
      if p c then (EmptyString, s)
      else let '(a, b) := break_at p r in (String c a, b)
  end.

Definition tail (s : string) : string :=
  match s with EmptyString => EmptyString | String _ r => r end.

(** [s.split(c, 1)] when [c in s] holds, and [(s, "")] otherwise: the
    pattern [if c in url: url, x = url.split(c, 1)] of [urlsplit]. *)
Definition split_once (c : ascii) (s : string) : string * string :=
  let '(a, b) := break_at (Ascii.eqb c) s in (a, tail b).

(** Split at the last occurrence of [c] (the second part starts with it). *)
Fixpoint split_last (c : ascii) (s : string) : option (string * string) :=
  match s with
  | EmptyString => None
  | String d r =>
      match split_last c r with
      | Some (a, b) => Some (String d a, b)
      | None => if Ascii.eqb d c then Some (EmptyString, s) else None
      end
  end.

Definition is_alpha (c : ascii) : bool :=
  let n := nat_of_ascii c in
  (Nat.leb 65 n && Nat.leb n 90) || (Nat.leb 97 n && Nat.leb n 122).
Definition is_digit (c : ascii) : bool :=
  let n := nat_of_ascii c in Nat.leb 48 n && Nat.leb n 57.

(** [urllib.parse.scheme_chars]: letters, digits and [+-.]. *)
Definition scheme_char (c : ascii) : bool :=
  is_alpha c || is_digit c || Ascii.eqb c "+" || Ascii.eqb c "-" || Ascii.eqb c ".".

(** [_WHATWG_C0_CONTROL_OR_SPACE]: the code points 0 to 32. *)
Definition c0_or_space (c : ascii) : bool := Nat.leb (nat_of_ascii c) 32.

Definition netloc_delim (c : ascii) : bool :=
  Ascii.eqb c "/" || Ascii.eqb c "?" || Ascii.eqb c "#".

(** ** [urlsplit] and [urlparse] *)

Record split_result := mk_split {
  sp_scheme : string; sp_netloc : string; sp_path : string;
  sp_query : string; sp_fragment : string }.

Record parse_result := mk_parse {
  pr_scheme : string; pr_netloc : string; pr_path : string;
  pr_params : string; pr_query : string; pr_fragment : string }.

(** The scheme prefix: [url[:i].lower()] when [i = url.find(':') > 0],
    [url[0]] is an ASCII letter and every character before [i] is a
    scheme character. *)
Definition split_scheme (url : string) : string * string :=
  let '(pre, rest) := break_at (Ascii.eqb ":") url in
  match pre, rest with
  | String c0 _, String _ after =>
      if is_alpha c0 && forall_chars scheme_char pre then (lower pre, after)
      else ("", url)
  | _, _ => ("", url)
  end.

(** [urlsplit(url)] (scheme [''], fragments allowed).  The validation of a
    bracketed IPv6 literal ([_check_bracketed_netloc]) is not modelled: a
    netloc with both brackets is accepted as it is. *)
Definition urlsplit (url0 : string) : py_exc + split_result :=
  let url1 := lstrip c0_or_space url0 in
  let url2 := remove_char "010" (remove_char "013" (remove_char "009" url1)) in
  let '(scheme, url3) := split_scheme url2 in
  let '(netloc, url4) :=
    if String.prefix "//" url3 then break_at netloc_delim (substring 2 (String.length url3) url3)
    else ("", url3) in
  let lb := has_char "[" netloc in
  let rb := has_char "]" netloc in
  if (lb && negb rb) || (rb && negb lb) then inl (ValueError "Invalid IPv6 URL")
  else
    let '(url5, fragment) := split_once "#" url4 in
    let '(path, query) := split_once "?" url5 in
    inr (mk_split scheme netloc path query fragment).

(** [urllib.parse.uses_params]. *)
Definition uses_params : list string :=
  [""; "ftp"; "hdl"; "prospero"; "http"; "imap"; "https"; "shttp"; "rtsp";
   "rtsps"; "rtspu"; "sip"; "sips"; "mms"; "sftp"; "tel"].

(** [_splitparams]: the parameters of the last path segment. *)
Definition splitparams (url : string) : string * string :=
  if has_char "/" url then
    match split_last "/" url with
    | Some (a, b) =>
        let '(b1, b2) := break_at (Ascii.eqb ";") b in
        match b2 with EmptyString => (url, "") | String _ p => (a ++ b1, p) end
    | None => (url, "")
    end
  else split_once ";" url.

Definition urlparse (url : string) : py_exc + parse_result :=
  match urlsplit url with
  | inl e => inl e
  | inr sp =>
      let '(path, params) :=
        if bool_decide (sp_scheme sp ∈ uses_params) && has_char ";" (sp_path sp)
        then splitparams (sp_path sp) else (sp_path sp, "") in
      inr (mk_parse (sp_scheme sp) (sp_netloc sp) path params (sp_query sp) (sp_fragment sp))
  end.

(** ** The gateway's names *)

(** [set_base_url] (lines 56-58). *)
Definition set_base_url (base_url : string) : string :=
  if contains "://" base_url then rstrip "/" base_url
  else "https://" ++ rstrip "/" base_url.

(** [self.host = urlparse(self.base_url).netloc] (line 42). *)
Definition host_of (base_url : string) : py_exc + string :=
  sum_map pr_netloc (urlparse base_url).

(** [self.gateway_name = self.host.replace(".", "-") + "-proxy"] (line 43). *)
Definition gateway_name_of (host : string) : string :=
  replace "." "-" host ++ "-proxy".

(** ** The OpenAPI document *)

Definition nl : string := String "010" EmptyString.

Definition openapi_lines : list string := [
  "openapi: 3.0.0";
  "info:";
  "  title: Sample API";
  "  version: 1.0.0";
  "paths:";
  "  /{path+}:";
  "    get:";
  "      x-yc-apigateway-integration:";
  "        type: http";
  "        url: %s/{path}";
  "        headers:";
  "          Accept: '*/*'";
  "          Accept-Encoding: " ++ String dq ("gzip, deflate" ++ String dq "");
  "          Host: %s";
  "          Connection: 'keep-alive'";
  "      parameters:";
  "      - name: path";
  "        in: path";
  "        required: false";
  "        schema:";
  "          type: string"].

(** [OPENAPI_SPEC] (lines 7-29): the triple-quoted literal starts and ends
    with a newline. *)
Definition OPENAPI_SPEC : string :=
  nl ++ foldr (fun l acc => l ++ nl ++ acc) "" openapi_lines.

(** [template % tuple(args)] for [str] arguments: [%s] takes the next
    argument, [%%] is a percent sign, any other conversion is refused, and
    the number of arguments must match. *)
Fixpoint percent_format (t : string) (args : list string) : py_exc + string :=
  match t with
  | EmptyString =>
      match args with
      | [] => inr ""
      | _ => inl (TypeError "not all arguments converted during string formatting")
      end
  | String c r =>
      if Ascii.eqb c "%" then
        match r with
        | EmptyString => inl (ValueError "incomplete format")
        | String d r' =>
            if Ascii.eqb d "s" then
              match args with
              | a :: rest => sum_map (fun x => a ++ x) (percent_format r' rest)
              | [] => inl (TypeError "not enough arguments for format string")
              end
            else if Ascii.eqb d "%" then sum_map (String "%") (percent_format r' args)
            else inl (ValueError "unsupported format character")
        end
      else sum_map (String c) (percent_format r args)
  end.

(** [OPENAPI_SPEC % (self.base_url, self.host)] (line 100). *)
Definition openapi_spec (base_url host : string) : py_exc + string :=
  percent_format OPENAPI_SPEC [base_url; host].

(** ** Hosts and schemes as a caller writes them *)

(** A character of a host: nothing that ends the netloc ([/?#]), that
    [urlsplit] removes (tab, CR, LF) or that opens an IPv6 literal. *)
Definition host_char (c : ascii) : bool :=
  negb (netloc_delim c || Ascii.eqb c "009" || Ascii.eqb c "010" ||
        Ascii.eqb c "013" || Ascii.eqb c "[" || Ascii.eqb c "]").

(** A host such as [api.example.com] or [localhost:8080]: non-empty, of
    host characters, not ending with a colon. *)
Definition hostlike (h : string) : Prop :=
  h <> "" /\ forall_chars host_char h = true /\ last_char h <> Some ":"%char.

(** A scheme such as [https]: a letter, then scheme characters. *)
Definition schemelike (sc : string) : Prop :=
  exists c r, sc = String c r /\ is_alpha c = true /\ forall_chars scheme_char sc = true.

(** A template cut at its [%s] placeholders, and the text [%] fills it
    with: the reading of [template % args] the theorems state. *)
Fixpoint split_template (t : string) : list string :=
  match t with
  | EmptyString => [EmptyString]
  | String "%" (String "s" r) => EmptyString :: split_template r
  | String c r =>
      match split_template r with
      | p :: ps => String c p :: ps
      | [] => [String c EmptyString]
      end
  end.

Fixpoint join_template (pieces : list string) : string :=
  match pieces with
  | [] => ""
  | [p] => p
  | p :: r => p ++ "%s" ++ join_template r
  end.

Fixpoint fill (pieces args : list string) : string :=
  match pieces, args with
  | p :: r, a :: args' => p ++ a ++ fill r args'
  | p :: _, [] => p
  | [], _ => ""
  end.

(** The three pieces of [OPENAPI_SPEC] around its two placeholders. *)
Definition openapi_parts : list string := split_template OPENAPI_SPEC.

(** ** Lemmas on the splitting helpers *)

Lemma break_at_none p s :
  forall_chars (fun c => negb (p c)) s = true -> break_at p s = (s, "").
Proof.
  induction s as [|c s IH]; cbn [forall_chars break_at]; [done|].
  intros [Hc Hs]%andb_prop. apply negb_true_iff in Hc. by rewrite Hc, IH.
Qed.

Lemma break_at_absent c s :
  has_char c s = false -> break_at (Ascii.eqb c) s = (s, "").
Proof.
  intros Hs. apply break_at_none. induction s as [|d s IH]; [done|].
  cbn in Hs |- *. apply orb_false_elim in Hs as [Hd Hs]. by rewrite Hd, IH.
Qed.

Lemma break_at_app p a b :
  forall_chars (fun c => negb (p c)) a = true ->
  break_at p (a ++ b) = (a ++ (break_at p b).1, (break_at p b).2).
Proof.
  induction a as [|c a IH]; cbn [forall_chars break_at String.append];
    [by destruct (break_at p b)|].
  intros [Hc Ha]%andb_prop. apply negb_true_iff in Hc. by rewrite Hc, IH.
Qed.

Lemma substring_0_all s m : String.length s <= m -> substring 0 m s = s.
Proof.
  revert m. induction s as [|c s IH]; intros [|m] Hm; cbn in *; try done; [lia|].
  rewrite IH; [done | lia].
Qed.

Lemma char_neq_forall (p : ascii -> bool) x s :
  p x = false -> forall_chars p s = true ->
  forall_chars (fun c => negb (Ascii.eqb x c)) s = true.
Proof.
  intros Hx. apply forall_chars_impl. intros c Hc.
  destruct (Ascii.eqb_spec x c) as [<-|]; [congruence|done].
Qed.

Lemma alpha_not_c0 c : is_alpha c = true -> c0_or_space c = false.
Proof.
  unfold is_alpha, c0_or_space. intros H.
  apply Nat.leb_gt. apply orb_prop in H as [H|H];
    apply andb_prop in H as [H _]; apply Nat.leb_le in H; lia.
Qed.

Lemma scheme_char_not (x : ascii) c :
  scheme_char x = false -> scheme_char c = true -> Ascii.eqb x c = false.
Proof. intros Hx Hc. destruct (Ascii.eqb_spec x c) as [<-|]; congruence. Qed.

(** Tab, CR and LF occur neither in a scheme, in ["://"], nor in a host. *)
Lemma no_ctl_url sc h x :
  scheme_char x = false -> host_char x = false ->
  forall_chars scheme_char sc = true -> forall_chars host_char h = true ->
  x <> ":"%char -> x <> "/"%char ->
  has_char x (sc ++ "://" ++ h) = false.
Proof.
  intros Hs Hh Hsc Hhc Hc Hsl. apply has_char_forall.
  rewrite !forall_chars_app. apply andb_true_intro; split.
  - by apply (char_neq_forall scheme_char).
  - apply andb_true_intro; split; [|by apply (char_neq_forall host_char)].
    cbn [forall_chars].
    destruct (Ascii.eqb_spec x ":"), (Ascii.eqb_spec x "/"); done.
Qed.

Lemma lstrip_scheme sc t :
  schemelike sc -> lstrip c0_or_space (sc ++ t) = sc ++ t.
Proof.
  intros (c & r & -> & Ha & _). cbn [String.append lstrip].
  by rewrite alpha_not_c0.
Qed.

Lemma split_scheme_authority sc h :
  schemelike sc -> split_scheme (sc ++ "://" ++ h) = (lower sc, "//" ++ h).
Proof.
  intros Hsc. pose proof Hsc as (c & r & Hcr & Ha & Hs).
  unfold split_scheme. rewrite break_at_app.
  2:{ eapply forall_chars_impl; [|exact Hs]. intros x Hx.
      by rewrite (scheme_char_not ":"). }
  cbn [break_at fst snd String.append]. rewrite str_app_nil_r.
  rewrite Hcr in Hs |- *. cbn [String.append]. by rewrite Ha, Hs.
Qed.

(** [urlsplit("<scheme>://<host>")]: the scheme lowered, the host as the
    netloc, and an empty path, query and fragment. *)
Lemma urlsplit_authority sc h :
  schemelike sc -> forall_chars host_char h = true ->
  urlsplit (sc ++ "://" ++ h) = inr (mk_split (lower sc) h "" "" "").
Proof.
  intros Hsc Hh. pose proof Hsc as (c & r & _ & _ & Hs).
  unfold urlsplit. rewrite lstrip_scheme by done.
  rewrite (remove_char_id "009"), (remove_char_id "013"), (remove_char_id "010")
    by (apply no_ctl_url; done).
  rewrite split_scheme_authority by done.
  cbn [String.prefix String.append String.length substring].
  rewrite substring_0_all by lia.
  rewrite break_at_none.
  2:{ eapply forall_chars_impl; [|exact Hh]. unfold host_char.
      intros x Hx. by destruct (netloc_delim x). }
  destruct (ascii_dec "/" "/") as [_|]; [|done].
  replace (String.prefix "" h) with true by (by destruct h).
  cbn beta iota zeta.
  rewrite !(has_char_forall _ h) by (by apply (char_neq_forall host_char)).
  done.
Qed.

Lemma host_of_authority sc h :
  schemelike sc -> forall_chars host_char h = true ->
  host_of (sc ++ "://" ++ h) = inr h.
Proof.
  intros Hsc Hh. unfold host_of, urlparse. rewrite urlsplit_authority by done.
  cbn. by rewrite andb_false_r.
Qed.

(** ** The base URL and the host *)

Lemma host_no_slash h :
  forall_chars host_char h = true ->
  forall_chars (fun c => negb (Ascii.eqb "/" c)) h = true.
Proof. apply (char_neq_forall host_char). done. Qed.

Lemma set_base_url_bare h k :
  hostlike h -> set_base_url (h ++ slashes k) = "https://" ++ h.
Proof.
  intros (_ & Hh & Hend). unfold set_base_url.
  rewrite contains_sep_host; [| auto using host_no_slash |].
  2:{ intros p ->. apply Hend, last_char_snoc. }
  by rewrite rstrip_no_slash by (auto using host_no_slash).
Qed.

Lemma set_base_url_scheme sc h k :
  hostlike h ->
  set_base_url (sc ++ "://" ++ h ++ slashes k) = sc ++ "://" ++ h.
Proof.
  intros (Hne & Hh & _). unfold set_base_url.
  rewrite contains_app_r by (destruct (h ++ slashes k); reflexivity).
  assert (Hr : rstrip "/" (h ++ slashes k) = h) by (auto using rstrip_no_slash, host_no_slash).
  rewrite rstrip_app_nonempty; rewrite (rstrip_app_nonempty "/" "://"); rewrite ?Hr; try done.
Qed.

(** ** The OpenAPI document *)

Lemma percent_format_plain c r args :
  Ascii.eqb c "%" = false ->
  percent_format (String c r) args = sum_map (String c) (percent_format r args).
Proof. intros Hc. cbn [percent_format]. by rewrite Hc. Qed.

Lemma sum_map_compose {E A B C} (f : B -> C) (g : A -> B) (r : E + A) :
  sum_map f (sum_map g r) = sum_map (fun x => f (g x)) r.
Proof. by destruct r. Qed.

Lemma percent_format_text p t args :
  has_char "%" p = false ->
  percent_format (p ++ t) args = sum_map (fun x => p ++ x) (percent_format t args).
Proof.
  induction p as [|c p IH]; cbn [String.append has_char].
  - by destruct (percent_format t args).
  - intros [Hc Hp]%orb_false_elim. rewrite percent_format_plain
      by (by rewrite Ascii.eqb_sym). rewrite IH by done.
    by rewrite sum_map_compose.
Qed.

(** [template % args] replaces the placeholders of a template without
    other percent signs by the arguments, whatever characters these
    contain, when there is exactly one argument per placeholder. *)
Lemma percent_format_fill pieces args :
  Forall (fun p => has_char "%" p = false) pieces ->
  List.length pieces = S (List.length args) ->
  percent_format (join_template pieces) args = inr (fill pieces args).
Proof.
  revert pieces. induction args as [|a args IH]; intros pieces Hp Hlen.
  - destruct pieces as [|p [|q r]]; try discriminate. inversion Hp; subst.
    cbn [join_template fill]. rewrite <- (str_app_nil_r p) at 1.
    rewrite percent_format_text by done. cbn. by rewrite str_app_nil_r.
  - destruct pieces as [|p [|q r]]; try discriminate. inversion Hp; subst.
    change (join_template (p :: q :: r)) with (p ++ "%s" ++ join_template (q :: r)).
    change (fill (p :: q :: r) (a :: args)) with (p ++ a ++ fill (q :: r) args).
    rewrite percent_format_text by done.
    cbn [String.append percent_format Ascii.eqb Bool.eqb andb].
    rewrite IH by (done || (cbn in Hlen |- *; lia)). done.
Qed.

Lemma OPENAPI_SPEC_parts : join_template openapi_parts = OPENAPI_SPEC.
Proof. vm_compute. reflexivity. Qed.

(** The [%] formatting of [OPENAPI_SPEC] as a fill of its parts. *)
Lemma openapi_spec_formats b h :
  openapi_spec b h = inr (fill openapi_parts [b; h]).
Proof.
  unfold openapi_spec. rewrite <- OPENAPI_SPEC_parts.
  apply percent_format_fill; [|reflexivity].
  vm_compute. repeat constructor.
Qed.

(** C27: the document POSTed on creation is [OPENAPI_SPEC] with the base
    URL in the integration's [url] and the host in its [Host] header,
    for every base URL and host: the formatting never raises. *)
Theorem openapi_spec_fill b h :
  openapi_spec b h = inr (fill openapi_parts [b; h]).
Proof. exact (openapi_spec_formats b h). Qed.

(** C26. [set_base_url] is idempotent exactly on the inputs whose result
    still holds ["://"] and does not end with a slash: normalising twice
    changes ["x://"] (to ["x:"], then ["https://x:"]) and [""] (to
    ["https://"], then ["https:"]), and every other result is a fixed
    point. *)
Theorem set_base_url_idempotent b :
  set_base_url (set_base_url b) = set_base_url b <->
  contains "://" (set_base_url b) = true /\ last_char (set_base_url b) <> Some "/"%char.
Proof.
  set (r := set_base_url b). clearbody r. unfold set_base_url.
  destruct (contains "://" r) eqn:C.
  - rewrite rstrip_id_iff. tauto.
  - split; [|by intros []]. intros E. rewrite <- E in C.
    change ("https://" ++ rstrip "/" r) with ("https" ++ ("://" ++ rstrip "/" r)) in C.
    by rewrite contains_app_r in C by (by apply contains_self_app).
Qed.

End Url.
