(* ===== verification/Http.v ===== *)
(** * The HTTP boundary

    Both components talk to the network only through [requests]: the
    gateway manager through [requests.request] (management calls, line 73
    of [src/src/api-gateway-proxy.py]) and [HTTPAdapter.send] (data-plane
    calls, line 68).  This file fixes what a request and a response are,
    the interface [Backend] every model of the network implements (the
    simulated control plane of [ControlPlane.v] is one), the observable
    events of a run (HTTP calls and sleeps, in order), and the shape of
    the paths [urlparse] returns after a host, which [Prepare.v] uses. *)

From stdpp Require Import base list sets.
From Stdlib Require Import ZArith String Ascii Lia.
From S2P Require Import Prelude PyValue Url.

Open Scope string_scope.

Module Http.
Import Py Url.

(** A request body: none, [json=payload] or [data=bytes]. *)
Inductive body : Type :=
| NoBody
| JsonBody (v : pyval)
| DataBody (s : string).

Record request := mk_request {
  rq_method : string;
  rq_url : string;
  rq_headers : list (string * string);
  rq_body : body }.

(** A response: its status, the decoded value when the body is JSON
    ([None]: [response.json()] raises), and the body as text
    ([response.text]). *)
Record response := mk_response {
  rs_status : Z;
  rs_json : option pyval;
  rs_text : string }.

(** The network, as seen from the client: a world answers a request with a
    response or a transport exception ([requests.ConnectionError],
    timeouts), and moves to a new world. *)
Class Backend (W : Type) := backend_call : W -> request -> W * (py_exc + response).

(** A scripted network: the answers in the order the requests come; once
    they run out, every request fails to connect. *)
#[export] Instance script_backend : Backend (list (py_exc + response)) :=
  fun w _ => match w with [] => ([], inl ConnectionError) | a :: rest => (rest, a) end.

(** A network that gives the same answer to every request. *)
Definition always (a : py_exc + response) : Backend unit := fun _ _ => (tt, a).

(** A [200 OK] answer with a JSON body, the text [json.dumps] gives. *)
Definition ok_json (v : pyval) : py_exc + response := inr (mk_response 200 (Some v) (json_dumps v)).

(** What a run does that an observer sees, in order. *)
Inductive event : Type :=
| EvHttp (r : request)
| EvSleep (ms : nat).

(** [d[k] = v] on a [dict] keyed by strings: an existing key keeps its place. *)
Fixpoint dict_set {A} (k : string) (v : A) (d : list (string * A)) : list (string * A) :=
  match d with
  | [] => [(k, v)]
  | (k', v') :: r => if String.eqb k k' then (k, v) :: r else (k', v') :: dict_set k v r
  end.

(** [d.get(k)] on a [dict] keyed by strings. *)
Fixpoint dict_lookup {A} (k : string) (d : list (string * A)) : option A :=
  match d with
  | [] => None
  | (k', v) :: r => if String.eqb k k' then Some v else dict_lookup k r
  end.

(** A gateway domain as the control plane reports it: letters, digits,
    dots and hyphens. *)
Definition domain_char (c : ascii) : bool :=
  is_alpha c || is_digit c || Ascii.eqb c "." || Ascii.eqb c "-".

Definition domainlike (d : string) : Prop :=
  d <> "" /\ forall_chars domain_char d = true /\ startswith d "." = false.

(** A path as [urlparse] returns it after a netloc: empty or absolute. *)
Definition path_start (p : string) : bool :=
  match p with EmptyString => true | String c _ => Ascii.eqb c "/" end.

Lemma split_last_none c s : has_char c s = false -> split_last c s = None.
Proof.
  induction s as [|d s IH]; cbn [has_char split_last]; [done|].
  intros [Hc Hs]%orb_false_elim. rewrite IH by done. by rewrite Ascii.eqb_sym, Hc.
Qed.

Lemma domain_char_not x c :
  domain_char x = false -> domain_char c = true -> Ascii.eqb c x = false.
Proof. intros Hx Hc. destruct (Ascii.eqb_spec c x) as [<-|]; congruence. Qed.

Lemma break_at_path p q :
  path_start p = true -> (forall c, q c = true -> Ascii.eqb c "/" = true \/ q c = true) ->
  q "/"%char = true -> break_at q p = ("", p).
Proof.
  intros Hp _ Hq. destruct p as [|c p]; [done|]. cbn in Hp.
  apply Ascii.eqb_eq in Hp as ->. cbn [break_at]. by rewrite Hq.
Qed.

(** What follows a [break_at] is empty or starts with a stop character. *)
Lemma break_at_rest p s :
  (break_at p s).2 = "" \/ exists c r, (break_at p s).2 = String c r /\ p c = true.
Proof.
  induction s as [|c s IH]; cbn [break_at]; [by left|].
  destruct (p c) eqn:E; [right; by exists c, s|]. by destruct (break_at p s).
Qed.

(** The path of [urlsplit] after a netloc: the rest of the URL, up to the
    query and the fragment, is empty or starts with a slash. *)
Lemma split_path_start s :
  (s = "" \/ exists c r, s = String c r /\ netloc_delim c = true) ->
  path_start (split_once "?" (split_once "#" s).1).1 = true.
Proof.
  intros [->|(c & r & -> & Hc)]; [done|]. unfold netloc_delim in Hc.
  destruct (Ascii.eqb_spec c "/") as [->|]; [|destruct (Ascii.eqb_spec c "?") as [->|]];
    [| |destruct (Ascii.eqb_spec c "#") as [->|]; [|by rewrite !orb_false_r in Hc]];
    unfold split_once; cbn [break_at Ascii.eqb]; cbn.
  - destruct (break_at _ r); cbn. by destruct (break_at _ _).
  - destruct (break_at _ r); reflexivity.
  - reflexivity.
Qed.

Lemma split_last_slash s a b :
  split_last "/" s = Some (a, b) -> s = a ++ b /\ exists r, b = String "/" r.
Proof.
  revert a b. induction s as [|d s IH]; intros a b; cbn [split_last]; [done|].
  destruct (split_last "/" s) as [[a' b']|] eqn:E.
  - intros [= <- <-]. destruct (IH a' b' eq_refl) as [Hs Hb]. split; [by rewrite Hs | exact Hb].
  - destruct (Ascii.eqb_spec d "/") as [->|]; [|done]. intros [= <- <-]. split; [done|]. by exists s.
Qed.

Lemma splitparams_path_start p : path_start p = true -> path_start (splitparams p).1 = true.
Proof.
  intros Hp. unfold splitparams. destruct (has_char "/" p); cbn.
  - destruct (split_last "/" p) as [[a b]|] eqn:E; [|done].
    destruct (split_last_slash _ _ _ E) as [-> [b' ->]].
    cbn [break_at Ascii.eqb]. cbn.
    destruct (break_at _ b') as [b1 b2]. destruct b2; cbn; [exact Hp|].
    destruct a; [done|exact Hp].
  - unfold split_once. destruct p as [|c p]; [done|]. cbn in Hp.
    apply Ascii.eqb_eq in Hp as ->. cbn. by destruct (break_at _ p).
Qed.

(** A URL with a netloc has an empty or absolute path. *)
Lemma urlparse_path_start u pr :
  urlparse u = inr pr -> pr_netloc pr <> "" -> path_start (pr_path pr) = true.
Proof.
  unfold urlparse, urlsplit.
  destruct (split_scheme _) as [scheme url3].
  destruct (String.prefix "//" url3) eqn:P.
  2:{ destruct (_ || _); [done|]. destruct (split_once "#" url3), (split_once "?" _).
      destruct (_ && _); [destruct (splitparams _)|]; by intros [= <-]. }
  pose proof (break_at_rest netloc_delim (substring 2 (String.length url3) url3)) as Hr.
  destruct (break_at _ _) as [netloc url4]. cbn in Hr.
  destruct (_ || _); [done|].
  pose proof (split_path_start url4 Hr) as Hs.
  destruct (split_once "#" url4) as [url5 frag].
  destruct (split_once "?" url5) as [path q] eqn:Q.
  assert (Hpath : path_start path = true) by (change path with (path, q).1; rewrite <- Q; exact Hs).
  clear Hs.
  destruct (_ && _); [pose proof (splitparams_path_start path Hpath) as Hp; destruct (splitparams _)|];
    intros [= <-]; done.
Qed.

(** What comes before a [break_at] keeps the properties of the whole
    string, and holds no stop character. *)
Lemma break_at_fst_forall q p s :
  forall_chars q s = true -> forall_chars q (break_at p s).1 = true.
Proof.
  induction s as [|c s IH]; cbn [break_at forall_chars]; [done|].
  intros [Hc Hs]%andb_prop. specialize (IH Hs). destruct (p c); [done|].
  destruct (break_at p s) as [a b]. cbn in *. by rewrite Hc, IH.
Qed.

Lemma break_at_fst_stop p s : forall_chars (fun c => negb (p c)) (break_at p s).1 = true.
Proof.
  induction s as [|c s IH]; cbn [break_at]; [done|].
  destruct (p c) eqn:Pc; [done|]. destruct (break_at p s) as [a b]. cbn in IH |- *. by rewrite Pc, IH.
Qed.

Lemma forall_chars_and p q s :
  forall_chars p s = true -> forall_chars q s = true -> forall_chars (fun c => p c && q c) s = true.
Proof.
  induction s as [|c s IH]; cbn; [done|]. intros [Hp Hs]%andb_prop [Hq Ht]%andb_prop.
  by rewrite Hp, Hq, IH.
Qed.

Lemma splitparams_forall q p : forall_chars q p = true -> forall_chars q (splitparams p).1 = true.
Proof.
  intros Hp. unfold splitparams. destruct (has_char "/" p).
  - destruct (split_last "/" p) as [[a b]|] eqn:E; [|done].
    destruct (split_last_slash _ _ _ E) as [-> _]. rewrite forall_chars_app in Hp.
    apply andb_prop in Hp as [Ha Hb]. pose proof (break_at_fst_forall q (Ascii.eqb ";") b Hb) as Hb1.
    destruct (break_at _ b) as [b1 b2]. cbn in Hb1.
    destruct b2; cbn [fst]; rewrite forall_chars_app, Ha; [exact Hb|exact Hb1].
  - unfold split_once. pose proof (break_at_fst_forall q (Ascii.eqb ";") p Hp) as H1.
    by destruct (break_at _ p).
Qed.

(** The path [urlparse] returns holds no [?] and no [#]. *)
Lemma urlparse_path_plain u pr :
  urlparse u = inr pr ->
  forall_chars (fun c => negb (Ascii.eqb c "?" || Ascii.eqb c "#")) (pr_path pr) = true.
Proof.
  unfold urlparse, urlsplit.
  destruct (split_scheme _) as [scheme url3]. destruct (if String.prefix "//" url3 then _ else _) as [netloc url4].
  destruct (_ || _); [done|].
  pose proof (break_at_fst_stop (Ascii.eqb "#") url4) as H5.
  unfold split_once at 1. destruct (break_at (Ascii.eqb "#") url4) as [url5 f] eqn:E5. cbn [fst] in H5.
  pose proof (break_at_fst_stop (Ascii.eqb "?") url5) as Hq.
  pose proof (break_at_fst_forall _ (Ascii.eqb "?") url5 H5) as Hh.
  unfold split_once. destruct (break_at (Ascii.eqb "?") url5) as [path q]. cbn [fst] in Hq, Hh.
  assert (Hpath : forall_chars (fun c => negb (Ascii.eqb c "?" || Ascii.eqb c "#")) path = true).
  { eapply forall_chars_impl; [|exact (forall_chars_and _ _ _ Hq Hh)]. intros c Hc.
    apply andb_prop in Hc as [H1 H2]. apply negb_true_iff in H1, H2.
    rewrite (Ascii.eqb_sym c "?"), (Ascii.eqb_sym c "#"), H1, H2. reflexivity. }
  cbn [sp_scheme sp_path sp_netloc sp_query sp_fragment].
  destruct (_ && _); [pose proof (splitparams_forall _ _ Hpath) as Hs; destruct (splitparams path)|];
    intros [= <-]; done.
Qed.

Lemma dict_lookup_set_eq {A} k (v : A) d : dict_lookup k (dict_set k v d) = Some v.
Proof.
  induction d as [|[k' v'] d IH]; cbn; [by rewrite String.eqb_refl|].
  destruct (String.eqb_spec k k'); cbn; [by rewrite String.eqb_refl|].
  by destruct (String.eqb_spec k k').
Qed.

Lemma dict_lookup_set_ne {A} k k' (v : A) d :
  k' <> k -> dict_lookup k' (dict_set k v d) = dict_lookup k' d.
Proof.
  intros Hne. induction d as [|[k'' v'] d IH]; cbn.
  - by destruct (String.eqb_spec k' k).
  - destruct (String.eqb_spec k k'') as [<-|]; cbn.
    + by destruct (String.eqb_spec k' k).
    + by rewrite IH.
Qed.

Lemma dict_set_keys {A} k (v : A) d :
  map fst (dict_set k v d) = if bool_decide (k ∈ map fst d) then map fst d else (map fst d ++ [k])%list.
Proof.
  induction d as [|[k' v'] d IH]; [done|]. cbn [dict_set].
  destruct (String.eqb_spec k k') as [<-|Hne]; cbn.
  - by rewrite bool_decide_true by set_solver.
  - rewrite IH, (bool_decide_ext (k ∈ k' :: map fst d) (k ∈ map fst d))
      by (rewrite elem_of_cons; split; [intros [?|?]; [contradiction|done] | by right]).
    by destruct (bool_decide _).
Qed.

Lemma dict_set_nodup {A} k (v : A) d : NoDup (map fst d) -> NoDup (map fst (dict_set k v d)).
Proof.
  intros Hd. rewrite dict_set_keys. case_bool_decide as Hk; [done|].
  apply NoDup_app. split; [done|]. split; [|apply NoDup_singleton].
  intros x Hx ->%list_elem_of_singleton. contradiction.
Qed.

End Http.
