(* ===== verification/Prepare.v ===== *)
(** * Preparing a request: requests' [prepare_url] and urllib3's [parse_url]

    [YandexApiGateway.send] (line 66 of [src/src/api-gateway-proxy.py])
    and [session.get] (line 46 of [src/main.py]) call
    [requests.Request(...).prepare()], which upper-cases the method and
    rewrites the URL with [PreparedRequest.prepare_url] (requests 2.32):
    after [lstrip()], a URL with a colon that does not start with ["http"]
    is kept as it is; any other goes through urllib3 2.x's [parse_url],
    which lower-cases the scheme and, for [http], [https] and no scheme,
    the host, removes the dot segments of the path and percent-encodes the
    characters each component does not allow; requests then requires a
    scheme ([MissingSchema]) and a host ([InvalidURL]), rebuilds the URL
    with [urlunparse] (an empty path becomes ["/"]) and re-quotes it with
    [requote_uri].  Text is ASCII with the code points 128-255 read as
    Latin-1; IPv6 literals and the IDNA encoding of non-ASCII hosts are
    not modelled (a bracketed host is refused, a non-ASCII one kept). *)

From stdpp Require Import base list.
From Stdlib Require Import ZArith String Ascii Lia.
From S2P Require Import Prelude PyValue Url Http.

Open Scope string_scope.

Module Prepare.
Import Py Url Http.

(** ** Character classes *)

Definition in_chars (c : ascii) (s : string) : bool := has_char c s.

Definition is_hex (c : ascii) : bool := is_digit c || in_chars c "abcdefABCDEF".

Definition isalnum (c : ascii) : bool := is_alpha c || is_digit c.

(** [_UNRESERVED_CHARS], [_SUB_DELIM_CHARS] and the sets built on them. *)
Definition unreserved (c : ascii) : bool := isalnum c || in_chars c "._-~".
Definition sub_delim (c : ascii) : bool := in_chars c "!$&'()*+,;=".
Definition userinfo_char (c : ascii) : bool := unreserved c || sub_delim c || Ascii.eqb c ":".
Definition path_char (c : ascii) : bool := userinfo_char c || Ascii.eqb c "@" || Ascii.eqb c "/".
Definition query_char (c : ascii) : bool := path_char c || Ascii.eqb c "?".

(** [str.isspace] on the code points 0-255. *)
Definition is_space (c : ascii) : bool :=
  let n := nat_of_ascii c in
  Nat.eqb n 32 || (Nat.leb 9 n && Nat.leb n 13) || (Nat.leb 28 n && Nat.leb n 31)
  || Nat.eqb n 133 || Nat.eqb n 160.

Definition upper_char (c : ascii) : ascii :=
  let n := nat_of_ascii c in
  if Nat.leb 97 n && Nat.leb n 122 then ascii_of_nat (n - 32) else c.

(** [s.upper()] on ASCII letters. *)
Fixpoint upper (s : string) : string :=
  match s with EmptyString => EmptyString | String c r => String (upper_char c) (upper r) end.

Definition hex_val (c : ascii) : nat :=
  let n := nat_of_ascii c in
  if is_digit c then n - 48 else if Nat.leb 97 n then n - 87 else n - 55.

Definition hex_upper (n : nat) : ascii :=
  ascii_of_nat (if Nat.ltb n 10 then 48 + n else 55 + n).

(** [%XX] for one byte, upper-case digits. *)
Definition pct_byte (n : nat) : string :=
  String "%" (String (hex_upper (n / 16)) (String (hex_upper (n mod 16)) EmptyString)).

(** The UTF-8 encoding of a code point below 256, percent-encoded. *)
Definition pct_char (c : ascii) : string :=
  let n := nat_of_ascii c in
  if Nat.ltb n 128 then pct_byte n else pct_byte (192 + n / 64) ++ pct_byte (128 + n mod 64).

(** ** urllib3's [_encode_invalid_chars] *)

(** [_PERCENT_RE.subn(upper, s)]: every [%XX] with hexadecimal digits,
    upper-cased, and how many there are. *)
Fixpoint upper_percents (s : string) : string * nat :=
  match s with
  | EmptyString => (EmptyString, 0)
  | String c r =>
      let keep := let '(t, k) := upper_percents r in (String c t, k) in
      if Ascii.eqb c "%" then
        match r with
        | String a (String b r') =>
            if is_hex a && is_hex b then
              let '(t, k) := upper_percents r' in
              (String c (String (upper_char a) (String (upper_char b) t)), S k)
            else keep
        | _ => keep
        end
      else keep
  end.

Fixpoint count_char (c : ascii) (s : string) : nat :=
  match s with
  | EmptyString => 0
  | String d r => (if Ascii.eqb c d then 1 else 0) + count_char c r
  end.

(** Each byte kept when it is an allowed ASCII character, or a [%] when
    every [%] of the component starts an escape; encoded otherwise. *)
Fixpoint encode_bytes (pct_ok : bool) (allowed : ascii -> bool) (s : string) : string :=
  match s with
  | EmptyString => EmptyString
  | String c r =>
      (if (pct_ok && Ascii.eqb c "%") || (Nat.ltb (nat_of_ascii c) 128 && allowed c)
       then String c EmptyString else pct_char c) ++ encode_bytes pct_ok allowed r
  end.

Definition encode_invalid_chars (allowed : ascii -> bool) (s : string) : string :=
  let '(t, k) := upper_percents s in
  encode_bytes (Nat.eqb k (count_char "%" t)) allowed t.

(** ** urllib3's [_remove_path_dot_segments] *)

(** [s.split(c)]. *)
Fixpoint split_on (c : ascii) (s : string) : list string :=
  match s with
  | EmptyString => [EmptyString]
  | String d r =>
      if Ascii.eqb d c then EmptyString :: split_on c r
      else match split_on c r with
           | [] => [String d EmptyString]
           | x :: xs => String d x :: xs
           end
  end.

(** [s.endswith(t)]. *)
Definition endswith (s t : string) : bool :=
  let n := String.length s in let m := String.length t in
  Nat.leb m n && String.eqb (substring (n - m) m s) t.

(** One segment of the loop, on the output kept in reverse. *)
Definition dot_step (out : list string) (seg : string) : list string :=
  if String.eqb seg "." then out
  else if negb (String.eqb seg "..") then seg :: out
  else match out with [] => [] | _ :: o => o end.

Definition remove_path_dot_segments (path : string) : string :=
  let out := rev (fold_left dot_step (split_on "/" path) []) in
  let out := if startswith path "/" && match out with [] => true | x :: _ => negb (String.eqb x "") end
             then EmptyString :: out else out in
  let out := if endswith path "/." || endswith path "/.." then (out ++ [EmptyString])%list else out in
  join "/" out.

(** ** urllib3's [parse_url] *)

Record url3 := mk_url3 {
  u_scheme : option string;
  u_auth : option string;
  u_host : option string;
  u_port : option Z;
  u_path : option string;
  u_query : option string;
  u_fragment : option string }.

Definition nonempty (s : string) : option string := if String.eqb s "" then None else Some s.

(** [_SCHEME_RE = ^(?:[a-zA-Z][a-zA-Z0-9+-]*:|/)]. *)
Definition scheme_re (u : string) : bool :=
  match u with
  | String c _ =>
      Ascii.eqb c "/" ||
      let '(pre, rest) := break_at (Ascii.eqb ":") u in
      match pre, rest with
      | String c0 _, String _ _ =>
          is_alpha c0 && forall_chars (fun c => isalnum c || Ascii.eqb c "+" || Ascii.eqb c "-") pre
      | _, _ => false
      end
  | EmptyString => false
  end.

(** The scheme group of [_URI_RE]: a letter, then letters, digits and
    [+.-], then a colon. *)
Definition uri_scheme (u : string) : option string * string :=
  let '(pre, rest) := break_at (Ascii.eqb ":") u in
  match pre, rest with
  | String c0 _, String _ after =>
      if is_alpha c0 && forall_chars (fun c => isalnum c || in_chars c "+.-") pre
      then (Some pre, after) else (None, u)
  | _, _ => (None, u)
  end.

(** The authority group: after [//], up to a backslash, [/], [?] or [#]. *)
Definition auth_delim (c : ascii) : bool := in_chars c "\/?#".

Definition uri_authority (s : string) : option string * string :=
  match s with
  | String "/" (String "/" r) => let '(a, rest) := break_at auth_delim r in (Some a, rest)
  | _ => (None, s)
  end.

(** The query group (after [?], up to [#]) and the fragment group (after
    [#], to the end). *)
Definition uri_query_fragment (s : string) : option string * option string :=
  match s with
  | String "?" r => let '(q, f) := break_at (Ascii.eqb "#") r in (Some q, option_map tail (nonempty f))
  | String "#" r => (None, Some r)
  | _ => (None, None)
  end.

(** [REG_NAME_PAT = (?:[^\[\]%:/?#]|%[a-fA-F0-9]{2})*]. *)
Fixpoint reg_name (h : string) : bool :=
  match h with
  | EmptyString => true
  | String c r =>
      if Ascii.eqb c "%" then
        match r with
        | String a (String b r') => is_hex a && is_hex b && reg_name r'
        | _ => false
        end
      else negb (in_chars c "[]:/?#") && reg_name r
  end.

Fixpoint strip_zeros (s : string) : string :=
  match s with String "0" r => strip_zeros r | _ => s end.

Fixpoint drop_last_nl (s : string) : string :=
  match s with
  | EmptyString => EmptyString
  | String c EmptyString => if Ascii.eqb c "010" then EmptyString else s
  | String c r => String c (drop_last_nl r)
  end.

Fixpoint digits_val (s : string) (acc : Z) : Z :=
  match s with
  | EmptyString => acc
  | String c r => digits_val r (10 * acc + Z.of_nat (nat_of_ascii c - 48))
  end.

(** The port group [:0*?(|0|[1-9][0-9]{0,4})] before [$] (which also
    matches before a final newline): [None] for no match, [Some None]
    for an empty port. *)
Definition port_group (p : string) : option (option string) :=
  let p := drop_last_nl p in
  if negb (forall_chars is_digit p) then None
  else if String.eqb p "" then Some None
  else let q := strip_zeros p in
       if String.eqb q "" then Some (Some "0")
       else if Nat.leb (String.length q) 5 then Some (Some q) else None.

(** [_HOST_PORT_RE.match(host_port).groups()]. *)
Definition host_port (hp : string) : option (string * option string) :=
  let '(h, rest) := break_at (Ascii.eqb ":") hp in
  if negb (reg_name h) then None
  else match rest with
       | EmptyString => Some (h, None)
       | String _ p => option_map (fun port => (h, port)) (port_group p)
       end.

(** [authority.rpartition("@")]. *)
Definition rpartition_at (a : string) : string * string :=
  match split_last "@" a with Some (x, y) => (x, tail y) | None => ("", a) end.

Definition parse_url (url : string) : py_exc + url3 :=
  if String.eqb url "" then inr (mk_url3 None None None None None None None) else
  let u := if scheme_re url then url else "//" ++ url in
  let '(scheme, r1) := uri_scheme u in
  let '(authority, r2) := uri_authority r1 in
  let '(path, r3) := break_at (fun c => Ascii.eqb c "?" || Ascii.eqb c "#") r2 in
  let '(query, fragment) := uri_query_fragment r3 in
  let normalize := match scheme with
                   | None => true
                   | Some s => String.eqb (lower s) "http" || String.eqb (lower s) "https"
                   end in
  let scheme := option_map lower scheme in
  let ahp := match authority with
             | Some a =>
                 if String.eqb a "" then Some (None, None, None) else
                 let '(auth, hp) := rpartition_at a in
                 option_map (fun '(h, port) => (nonempty auth, Some h, port)) (host_port hp)
             | None => Some (None, None, None)
             end in
  match ahp with
  | None => inl (InvalidURL url)
  | Some (auth, host, port) =>
      let port := option_map (fun p => digits_val p 0) port in
      if match port with Some z => Z.ltb 65535 z | None => false end then inl (InvalidURL url) else
      let enc := fun allowed (o : option string) =>
                   match o with
                   | Some s => if normalize && negb (String.eqb s "") then Some (encode_invalid_chars allowed s) else o
                   | None => None
                   end in
      let host := match host with
                  | Some h => if normalize && negb (String.eqb h "") then Some (lower h) else host
                  | None => None
                  end in
      let path := if normalize && negb (String.eqb path "")
                  then encode_invalid_chars path_char (remove_path_dot_segments path) else path in
      let path := if String.eqb path "" then
                    match query, fragment with None, None => None | _, _ => Some "" end
                  else Some path in
      inr (mk_url3 scheme (enc userinfo_char auth) host port path
                   (enc query_char query) (enc query_char fragment))
  end.

(** ** requests' [requote_uri] *)

(** [unquote_unreserved]: [%XX] of an unreserved character decoded, any
    other escape kept; a pair of letters or digits that is not
    hexadecimal raises [InvalidURL]. *)
Fixpoint unquote_unreserved (s : string) : py_exc + string :=
  match s with
  | EmptyString => inr EmptyString
  | String c r =>
      let keep := sum_map (String c) (unquote_unreserved r) in
      if Ascii.eqb c "%" then
        match r with
        | String a (String b r') =>
            if isalnum a && isalnum b then
              if is_hex a && is_hex b then
                let ch := ascii_of_nat (16 * hex_val a + hex_val b) in
                if unreserved ch then sum_map (String ch) (unquote_unreserved r')
                else sum_map (fun t => String c (String a (String b t))) (unquote_unreserved r')
              else inl (InvalidURL ("Invalid percent-escape sequence: '" ++ String a (String b "'")))
            else keep
        | _ => keep
        end
      else keep
  end.

(** [urllib.parse.quote(s, safe)]. *)
Fixpoint quote (safe : string) (s : string) : string :=
  match s with
  | EmptyString => EmptyString
  | String c r =>
      (if isalnum c || in_chars c "_.-~" || in_chars c safe then String c EmptyString else pct_char c)
      ++ quote safe r
  end.

Definition safe_with_percent : string := "!#$%&'()*+,/:;=?@[]~".
Definition safe_without_percent : string := "!#$&'()*+,/:;=?@[]~".

Definition requote_uri (uri : string) : string :=
  match unquote_unreserved uri with
  | inr u => quote safe_with_percent u
  | inl _ => quote safe_without_percent uri
  end.

(** ** requests' [prepare_url] and [prepare] *)

(** [urlunparse([scheme, netloc, path, None, query, fragment])] with a
    netloc, as [prepare_url] always has one. *)
Definition urlunsplit_netloc (scheme netloc path : string) (query fragment : option string) : string :=
  let path := if String.eqb path "" || startswith path "/" then path else String "/" path in
  let url := scheme ++ ":" ++ "//" ++ netloc ++ path in
  let url := match query with Some (String _ _ as q) => url ++ "?" ++ q | _ => url end in
  match fragment with Some (String _ _ as f) => url ++ "#" ++ f | _ => url end.

Definition prepare_url (url : string) : py_exc + string :=
  let u := lstrip is_space url in
  if has_char ":" u && negb (startswith (lower u) "http") then inr u else
  sum_bind (parse_url u) (fun p =>
    match u_scheme p with
    | None => inl (MissingSchema u)
    | Some scheme =>
        match u_host p with
        | None | Some EmptyString => inl (InvalidURL u)
        | Some host =>
            if startswith host "*" || startswith host "." then inl (InvalidURL u) else
            let netloc := match u_auth p with Some a => a ++ "@" | None => "" end ++ host ++
                          match u_port p with
                          | Some z => if Z.eqb z 0 then "" else ":" ++ int_str z
                          | None => ""
                          end in
            let path := match u_path p with Some (String _ _ as s) => s | _ => "/" end in
            inr (requote_uri (urlunsplit_netloc scheme netloc path (u_query p) (u_fragment p)))
        end
    end).

(** [Request(...).prepare()]: the method upper-cased, the URL prepared;
    headers and body as given. *)
Definition prepare (r : request) : py_exc + request :=
  sum_map (fun u => mk_request (upper (rq_method r)) u (rq_headers r) (rq_body r)) (prepare_url (rq_url r)).

(** ** Lemmas *)

(** The URL [send] builds keeps the path of the original URL: this is the
    path requests sends for it. *)
Definition prepared_path (p : string) : string :=
  let q := if String.eqb p "" then p else encode_invalid_chars path_char (remove_path_dot_segments p) in
  if String.eqb q "" then "/" else if startswith q "/" then q else String "/" q.

(** Characters [quote] keeps under either safe set and that are no [%]. *)
Definition quote_kept (c : ascii) : bool :=
  negb (Ascii.eqb c "%") && (isalnum c || in_chars c "_.-~" || in_chars c safe_without_percent).

Lemma in_chars_excl (p : ascii -> bool) c s :
  forall_chars (fun x => negb (p x)) s = true -> p c = true -> in_chars c s = false.
Proof.
  unfold in_chars. induction s as [|x s IH]; cbn [forall_chars has_char]; [done|].
  intros [Hx Hs]%andb_prop Hc. rewrite IH by done. destruct (Ascii.eqb_spec c x) as [->|]; [|done].
  by rewrite Hc in Hx.
Qed.

Lemma break_at_domain (q : ascii -> bool) d :
  (forall c, domain_char c = true -> q c = false) -> forall_chars domain_char d = true ->
  break_at q d = (d, "").
Proof.
  intros Hq Hd. apply break_at_none. eapply forall_chars_impl; [|exact Hd].
  intros c Hc. by rewrite Hq.
Qed.

Lemma reg_name_domain d : forall_chars domain_char d = true -> reg_name d = true.
Proof.
  induction d as [|c d IH]; cbn [forall_chars reg_name]; [done|].
  intros [Hc Hd]%andb_prop.
  rewrite (domain_char_not "%" c), IH by done. cbn [andb].
  rewrite (in_chars_excl domain_char); [done|reflexivity|exact Hc].
Qed.

(** [lower] keeps the characters of a domain, case apart (checked on the
    256 characters). *)
Lemma domain_char_lower c : domain_char c = true -> domain_char (lower_char c) = true.
Proof. destruct c as [[] [] [] [] [] [] [] []]; vm_compute; intros H; (reflexivity || discriminate H). Qed.

Lemma lower_domain d : forall_chars domain_char d = true -> forall_chars domain_char (lower d) = true.
Proof.
  induction d as [|c d IH]; cbn [forall_chars lower]; [done|].
  intros [Hc Hd]%andb_prop. by rewrite domain_char_lower, IH.
Qed.

Lemma lower_nonempty d : d <> "" -> lower d <> "".
Proof. by destruct d. Qed.

Lemma lower_char_dot c : lower_char c = "."%char -> c = "."%char.
Proof. destruct c as [[] [] [] [] [] [] [] []]; vm_compute; intros H; (reflexivity || discriminate H). Qed.

Lemma startswith_lower_dot d : startswith d "." = false -> startswith (lower d) "." = false.
Proof.
  destruct d as [|c d]; [done|]. unfold startswith. cbn [lower String.prefix].
  intros H. destruct (ascii_dec "." (lower_char c)) as [E|]; [|reflexivity].
  rewrite (lower_char_dot c (eq_sym E)) in H. destruct (ascii_dec "." "."); [|done].
  by destruct d.
Qed.

Lemma startswith_lower_star d : forall_chars domain_char d = true -> startswith (lower d) "*" = false.
Proof.
  intros Hd. pose proof (lower_domain d Hd) as Hl. destruct (lower d) as [|c r]; [done|].
  cbn [forall_chars] in Hl. unfold startswith. cbn [String.prefix]. apply andb_prop in Hl as [Hc _].
  destruct (ascii_dec "*" c) as [<-|]; [discriminate Hc|reflexivity].
Qed.

Lemma uri_authority_domain d p :
  forall_chars domain_char d = true -> path_start p = true ->
  uri_authority ("//" ++ d ++ p) = (Some d, p).
Proof.
  intros Hd Hp. cbn [uri_authority String.append].
  rewrite break_at_app.
  2:{ eapply forall_chars_impl; [|exact Hd]. intros c Hc. apply negb_true_iff.
      unfold auth_delim. apply (in_chars_excl domain_char); [reflexivity|exact Hc]. }
  destruct p as [|c p]; [by rewrite str_app_nil_r|]. cbn in Hp. apply Ascii.eqb_eq in Hp as ->.
  cbn. by rewrite str_app_nil_r.
Qed.

Lemma host_port_domain d : forall_chars domain_char d = true -> host_port d = Some (d, None).
Proof.
  intros Hd. unfold host_port.
  rewrite (break_at_domain _ d) by (done || (intros c Hc; rewrite Ascii.eqb_sym; by apply domain_char_not)).
  by rewrite reg_name_domain.
Qed.

Lemma rpartition_domain d : forall_chars domain_char d = true -> rpartition_at d = ("", d).
Proof.
  intros Hd. unfold rpartition_at. rewrite split_last_none; [done|].
  apply has_char_forall, (char_neq_forall domain_char); done.
Qed.

(** urllib3 on the URL [send] builds from an active gateway: the host
    lower-cased, the path normalised, no query and no fragment. *)
Lemma parse_url_https d p :
  domainlike d -> path_start p = true ->
  forall_chars (fun c => negb (Ascii.eqb c "?" || Ascii.eqb c "#")) p = true ->
  parse_url ("https://" ++ d ++ p) = inr (mk_url3 (Some "https") None (Some (lower d)) None
     (nonempty (if String.eqb p "" then p else encode_invalid_chars path_char (remove_path_dot_segments p)))
     None None).
Proof.
  intros (Hne & Hd & Hdot) Hp Hq. unfold parse_url.
  replace (String.eqb ("https://" ++ d ++ p) "") with false by reflexivity.
  replace (scheme_re ("https://" ++ d ++ p)) with true by reflexivity.
  replace (uri_scheme ("https://" ++ d ++ p)) with (Some "https", "//" ++ d ++ p) by reflexivity.
  rewrite uri_authority_domain, break_at_none by done.
  cbn [uri_query_fragment]. rewrite rpartition_domain, host_port_domain by done.
  destruct (String.eqb_spec d "") as [|_]; [done|]. cbn.
  destruct (String.eqb_spec d "") as [|_]; [done|]. cbn.
  destruct (String.eqb_spec p "") as [->|Hp0]; [done|]. cbn.
  unfold nonempty. by destruct (String.eqb _ "").
Qed.

Lemma quote_kept_with c :
  quote_kept c = true -> isalnum c || in_chars c "_.-~" || in_chars c safe_with_percent = true.
Proof. destruct c as [[] [] [] [] [] [] [] []]; vm_compute; intros H; (reflexivity || discriminate H). Qed.

Lemma quote_kept_without c :
  quote_kept c = true -> isalnum c || in_chars c "_.-~" || in_chars c safe_without_percent = true.
Proof. destruct c as [[] [] [] [] [] [] [] []]; vm_compute; intros H; (reflexivity || discriminate H). Qed.

Lemma quote_kept_domain c : domain_char c = true -> quote_kept c = true.
Proof. destruct c as [[] [] [] [] [] [] [] []]; vm_compute; intros H; (reflexivity || discriminate H). Qed.

Lemma unquote_app x y :
  forall_chars quote_kept x = true ->
  unquote_unreserved (x ++ y) = sum_map (String.append x) (unquote_unreserved y).
Proof.
  induction x as [|c x IH]; cbn [forall_chars String.append]; [by destruct (unquote_unreserved y)|].
  intros [Hc Hx]%andb_prop. apply andb_prop in Hc as [Hc _]. apply negb_true_iff in Hc.
  cbn [unquote_unreserved]. rewrite Hc, IH, sum_map_compose by done. by destruct (unquote_unreserved y).
Qed.

Lemma quote_app safe x y :
  forall_chars (fun c => isalnum c || in_chars c "_.-~" || in_chars c safe) x = true ->
  quote safe (x ++ y) = x ++ quote safe y.
Proof.
  induction x as [|c x IH]; cbn [forall_chars String.append quote]; [done|].
  intros [Hc Hx]%andb_prop. by rewrite Hc, IH.
Qed.

(** [requote_uri] leaves a prefix of kept characters alone. *)
Lemma requote_app x y :
  forall_chars quote_kept x = true -> requote_uri (x ++ y) = x ++ requote_uri y.
Proof.
  intros Hx. unfold requote_uri. rewrite unquote_app by done.
  destruct (unquote_unreserved y); cbn [sum_map]; apply quote_app;
    eapply forall_chars_impl; (apply quote_kept_with || apply quote_kept_without || idtac); exact Hx.
Qed.

Lemma urlunsplit_https n path :
  urlunsplit_netloc "https" n path None None =
    ("https://" ++ n) ++ (if String.eqb path "" || startswith path "/" then path else String "/" path).
Proof. reflexivity. Qed.

(** The URL [send] builds from an active gateway, as requests prepares it:
    the gateway's host lower-cased, followed by the prepared path. *)
Lemma prepare_url_https d p :
  domainlike d -> path_start p = true ->
  forall_chars (fun c => negb (Ascii.eqb c "?" || Ascii.eqb c "#")) p = true ->
  prepare_url ("https://" ++ d ++ p) = inr ("https://" ++ lower d ++ requote_uri (prepared_path p)).
Proof.
  intros Hd Hp Hq. pose proof Hd as (Hne & Hdc & Hdot). unfold prepare_url.
  replace (lstrip is_space ("https://" ++ d ++ p)) with ("https://" ++ d ++ p) by reflexivity.
  replace (has_char ":" ("https://" ++ d ++ p) && negb (startswith (lower ("https://" ++ d ++ p)) "http"))
    with false by reflexivity.
  cbv iota beta. rewrite parse_url_https by done.
  cbn [sum_bind u_scheme u_host u_auth u_port u_path u_query u_fragment].
  pose proof (startswith_lower_star d Hdc) as Hs. pose proof (startswith_lower_dot d Hdot) as Ht.
  pose proof (lower_domain d Hdc) as Hl. pose proof (lower_nonempty d Hne) as Hn.
  destruct (lower d) as [|c r]; [done|]. rewrite Hs, Ht. cbn [orb].
  f_equal. rewrite !str_app_nil_r, urlunsplit_https, requote_app.
  2:{ rewrite forall_chars_app. apply andb_true_intro. split; [reflexivity|].
      eapply forall_chars_impl; [apply quote_kept_domain|exact Hl]. }
  rewrite str_app_assoc. do 2 f_equal. unfold prepared_path, nonempty.
  generalize (if String.eqb p "" then p else encode_invalid_chars path_char (remove_path_dot_segments p)).
  intros [|c0 q0]; [reflexivity|]. cbn [String.eqb orb]. by destruct (startswith (String c0 q0) "/").
Qed.

Lemma scheme_re_nocolon c r :
  has_char ":" (String c r) = false -> Ascii.eqb c "/" = false -> scheme_re (String c r) = false.
Proof. intros Hc Hs. unfold scheme_re. by rewrite break_at_absent, Hs. Qed.

Lemma uri_scheme_nocolon s : has_char ":" s = false -> uri_scheme s = (None, s).
Proof. intros Hc. unfold uri_scheme. rewrite break_at_absent by done. by destruct s. Qed.

(** A URL with a host-like first segment, no colon and no scheme: urllib3
    parses it as an authority without a scheme. *)
Lemma parse_url_no_scheme d p :
  domainlike d -> path_start p = true -> has_char ":" (d ++ p) = false ->
  exists r, parse_url (d ++ p) = inr r /\ u_scheme r = None.
Proof.
  intros (Hne & Hd & _) Hp Hc. unfold parse_url.
  destruct d as [|c d']; [done|]. cbn [String.append String.eqb].
  rewrite scheme_re_nocolon by (done || (cbn in Hd; apply andb_prop in Hd as [Hd _];
                                          rewrite Ascii.eqb_sym; by apply (domain_char_not "/"))).
  cbv beta iota. rewrite uri_scheme_nocolon by exact Hc.
  change (String "/" (String "/" (String c (d' ++ p)))) with ("//" ++ String c d' ++ p).
  rewrite uri_authority_domain by done.
  destruct (break_at _ p) as [path r3]. destruct (uri_query_fragment r3) as [q f].
  cbn [String.eqb]. rewrite rpartition_domain, host_port_domain by done. cbn.
  eexists. split; [reflexivity|done].
Qed.

(** [str(None)] followed by a path with no colon has no scheme:
    requests raises [MissingSchema]. *)
Lemma prepare_url_none p :
  path_start p = true -> has_char ":" p = false ->
  prepare_url ("None" ++ p) = inl (MissingSchema ("None" ++ p)).
Proof.
  intros Hp Hc. unfold prepare_url.
  replace (lstrip is_space ("None" ++ p)) with ("None" ++ p) by reflexivity.
  replace (has_char ":" ("None" ++ p)) with (has_char ":" p) by reflexivity. rewrite Hc. cbn [andb].
  destruct (parse_url_no_scheme "None" p) as (r & -> & Hs);
    [split; [discriminate|split; reflexivity] | done | exact Hc|].
  cbn [sum_bind]. by rewrite Hs.
Qed.

End Prepare.
