(* ===== verification/Gateway.v ===== *)
(** * The gateway lifecycle manager: [YandexApiGateway]

    The class of [src/src/api-gateway-proxy.py] (lines 32-121), method by
    method.  Its instance attributes are the record [gateway]; a run
    threads a [machine]: the instance, the world of the network (any
    [Backend]) and the trace of events.  Each method is a computation of
    the state and exception monad of [Prelude.v]; the unbounded [while
    True] poll of [init_gateway] takes fuel and runs out of it when the
    gateway never becomes active.  The theorems are proved against the
    [Backend] interface: they hold for every network whose answers satisfy
    their hypotheses. *)

From stdpp Require Import base list.
From Stdlib Require Import ZArith String Ascii Lia.
From S2P Require Import Prelude PyValue Url Http Prepare.

Open Scope string_scope.

Module Gateway.
Import Py Url Http Prepare.

(** [self.service_url] (lines 36-38). *)
Definition SERVICE_URL : string :=
  "https://serverless-apigateway.api.cloud.yandex.net/apigateways/v1/apigateways".

(** The instance attributes set by [__init__] (lines 33-46). *)
Record gateway := mk_gateway {
  service_url : string;
  iam_token : string;
  folder_id : string;
  base_url : string;
  host : string;
  gateway_name : string;
  gateway_id : pyval;
  gateway_url : pyval;
  gateway_is_active : bool }.

Definition set_gateway_id (v : pyval) (g : gateway) : gateway :=
  mk_gateway (service_url g) (iam_token g) (folder_id g) (base_url g) (host g)
    (gateway_name g) v (gateway_url g) (gateway_is_active g).
Definition set_gateway_url (v : pyval) (g : gateway) : gateway :=
  mk_gateway (service_url g) (iam_token g) (folder_id g) (base_url g) (host g)
    (gateway_name g) (gateway_id g) v (gateway_is_active g).
Definition set_gateway_is_active (b : bool) (g : gateway) : gateway :=
  mk_gateway (service_url g) (iam_token g) (folder_id g) (base_url g) (host g)
    (gateway_name g) (gateway_id g) (gateway_url g) b.

(** [YandexApiGateway.__init__] (lines 33-46); [urlparse] may raise. *)
Definition new_gateway (iam_token folder_id base_url : string) : py_exc + gateway :=
  let b := set_base_url base_url in
  sum_map (fun h => mk_gateway SERVICE_URL iam_token folder_id b h (gateway_name_of h)
                               PyNone PyNone false)
          (host_of b).

Record machine (W : Type) := mk_machine {
  m_gw : gateway;
  m_world : W;
  m_trace : list event }.
Arguments mk_machine {W}.
Arguments m_gw {W}.
Arguments m_world {W}.
Arguments m_trace {W}.

Definition M (W A : Type) : Type := st (machine W) py_exc A.

Local Open Scope gw_scope.

Section Methods.
Context {W : Type} `{Backend W}.

Definition get_gw : M W gateway := fun m => (m, Ret (m_gw m)).

Definition update_gw (f : gateway -> gateway) : M W unit :=
  fun m => (mk_machine (f (m_gw m)) (m_world m) (m_trace m), Ret tt).

(** One call on the network, recorded in the trace. *)
Definition http_call (r : Http.request) : M W response :=
  fun m =>
    let '(w', res) := backend_call (m_world m) r in
    (mk_machine (m_gw m) w' (m_trace m ++ [EvHttp r]),
     match res with inl e => Exc e | inr x => Ret x end).

(** [sleep(0.5)] (line 107), in milliseconds. *)
Definition sleep (ms : nat) : M W unit :=
  fun m => (mk_machine (m_gw m) (m_world m) (m_trace m ++ [EvSleep ms]), Ret tt).

(** The tail of [request] (lines 75-78): a status of 400 or more gives
    [{}], any other the decoded body ([response.json()] raises on a body
    that is not JSON). *)
Definition response_value (resp : response) : py_exc + pyval :=
  if Z.leb 400 (rs_status resp) then inr (PyDict [])
  else match rs_json resp with
       | Some v => inr v
       | None => inl JSONDecodeError
       end.

(** [request] (lines 70-78): the caller's [headers] ([{}] when absent)
    get [Authorization: Bearer <token>], then the call is made and its
    response read by [response_value]. *)
Definition request (method url : string) (headers : list (string * string))
           (b : body) : M W pyval :=
  g <- get_gw ;;
  let hdrs := dict_set "Authorization" ("Bearer " ++ iam_token g) headers in
  resp <- http_call (mk_request method url hdrs b) ;;
  st_lift (response_value resp).

(** [get_api_gateways] (lines 80-86). *)
Definition get_api_gateways (api_gateway_id : pyval) : M W pyval :=
  g <- get_gw ;;
  if truthy api_gateway_id then
    request "GET" (service_url g ++ "/" ++ str api_gateway_id) [] NoBody
  else
    r <- request "GET" (service_url g ++ "?folderId=" ++ folder_id g) [] NoBody ;;
    st_lift (get r "apiGateways" (PyDict [])).

(** The [for] loop of [init_gateway] (lines 91-95). *)
Fixpoint find_gateway (gws : list pyval) : M W (option pyval) :=
  match gws with
  | [] => st_ret None
  | gw :: rest =>
      g <- get_gw ;;
      nm <- st_lift (getitem gw "name") ;;
      if eq_str nm (gateway_name g) then
        id <- st_lift (getitem gw "id") ;;
        update_gw (set_gateway_id id) ;;;
        dom <- st_lift (getitem gw "domain") ;;
        update_gw (set_gateway_url (PyStr ("https://" ++ str dom))) ;;;
        st_ret (Some gw)
      else find_gateway rest
  end.

(** The [while True] loop of [init_gateway] (lines 106-112), with fuel:
    one unit per iteration. *)
Fixpoint poll (fuel : nat) : M W pyval :=
  match fuel with
  | O => st_diverge
  | S fuel' =>
      sleep 500 ;;;
      g <- get_gw ;;
      response <- get_api_gateways (gateway_id g) ;;
      status <- st_lift (get response "status" PyNone) ;;
      if eq_str status "ACTIVE" then
        update_gw (set_gateway_is_active true) ;;;
        dom <- st_lift (getitem response "domain") ;;
        update_gw (set_gateway_url (PyStr ("https://" ++ str dom))) ;;;
        st_ret response
      else poll fuel'
  end.

(** The creation payload (lines 97-101). *)
Definition payload (g : gateway) (spec : string) : pyval :=
  PyDict [("folderId", PyStr (folder_id g)); ("name", PyStr (gateway_name g));
          ("openapiSpec", PyStr spec)].

(** The creation branch of [init_gateway] (lines 97-114), reached
    when no listed gateway has the name. *)
Definition create_gateway (fuel : nat) : M W pyval :=
  g <- get_gw ;;
  spec <- st_lift (openapi_spec (base_url g) (host g)) ;;
  response <- request "POST" (service_url g) [] (JsonBody (payload g spec)) ;;
  md <- st_lift (get response "metadata" (PyDict [])) ;;
  gid <- st_lift (get md "apiGatewayId" PyNone) ;;
  update_gw (set_gateway_id gid) ;;;
  poll fuel.

(** [init_gateway] (lines 88-114). *)
Definition init_gateway (fuel : nat) : M W pyval :=
  gateway_list <- get_api_gateways PyNone ;;
  gws <- st_lift (iter gateway_list) ;;
  found <- find_gateway gws ;;
  match found with
  | Some gw => st_ret gw
  | None => create_gateway fuel
  end.

(** [shutdown_gateway] (lines 116-121). *)
Definition shutdown_gateway : M W pyval :=
  g <- get_gw ;;
  if negb (truthy (gateway_id g)) then st_ret (PyDict [])
  else request "DELETE" (service_url g ++ "/" ++ str (gateway_id g)) [] NoBody.

(** [send] (lines 60-68): the path of the request's URL appended to
    [str(self.gateway_url)], the method, headers and body kept, and the
    new request prepared and sent by [HTTPAdapter.send], which returns
    the response whatever its status. *)
Definition send (r : Http.request) : M W response :=
  g <- get_gw ;;
  parsed <- st_lift (urlparse (rq_url r)) ;;
  let new_url := str (gateway_url g) ++ pr_path parsed in
  new_request <- st_lift (prepare (mk_request (rq_method r) new_url (rq_headers r) (rq_body r))) ;;
  http_call new_request.

(** [with YandexApiGateway(...) as gw: body] ([__enter__] and
    [__exit__], lines 48-54): [__exit__] runs when the body returns or
    raises, and returns [None], so the body's exception propagates; it
    does not run when [__enter__] raises. *)
Definition with_gateway {A} (fuel : nat) (body : M W A) : M W A :=
  init_gateway fuel ;;;
  st_try body (fun r =>
    shutdown_gateway ;;;
    match r with inl e => st_raise e | inr a => st_ret a end).
End Methods.

(** ** The requests the manager sends

    The management requests of lines 82, 85, 103 and 120 as [request]
    builds them (no caller headers, so the only header is the bearer
    token), and the pure readers of their answers. *)

Definition auth_headers (g : gateway) : list (string * string) :=
  dict_set "Authorization" ("Bearer " ++ iam_token g) [].

Definition mgmt_request (g : gateway) (method url : string) (b : body) : Http.request :=
  mk_request method url (auth_headers g) b.

Definition list_request (g : gateway) : Http.request :=
  mgmt_request g "GET" (service_url g ++ "?folderId=" ++ folder_id g) NoBody.

Definition get_request (g : gateway) (id : pyval) : Http.request :=
  mgmt_request g "GET" (service_url g ++ "/" ++ str id) NoBody.

Definition create_request (g : gateway) (spec : string) : Http.request :=
  mgmt_request g "POST" (service_url g) (JsonBody (payload g spec)).

Definition delete_request (g : gateway) : Http.request :=
  mgmt_request g "DELETE" (service_url g ++ "/" ++ str (gateway_id g)) NoBody.

Definition of_sum {E A} (r : E + A) : outcome E A :=
  match r with inl e => Exc e | inr a => Ret a end.

(** The request [get_api_gateways(id)] sends: by id when [id] is truthy,
    otherwise the folder listing. *)
Definition api_request (g : gateway) (id : pyval) : Http.request :=
  if truthy id then get_request g id else list_request g.

(** What [get_api_gateways()] returns for an answer to the listing. *)
Definition listing_value (r : py_exc + response) : py_exc + pyval :=
  sum_bind (sum_bind r response_value) (fun v => get v "apiGateways" (PyDict [])).

(** What [get_api_gateways(id)] returns for an answer [r]. *)
Definition api_value (id : pyval) (r : py_exc + response) : py_exc + pyval :=
  if truthy id then sum_bind r response_value else listing_value r.

(** One iteration of the poll asks [get_api_gateways(self.gateway_id)]. *)
Definition poll_request (g : gateway) : Http.request := api_request g (gateway_id g).
Definition poll_value (g : gateway) : py_exc + response -> py_exc + pyval :=
  api_value (gateway_id g).

(** An answer on which the poll loops again: [response.get("status")]
    succeeds and is not ["ACTIVE"]. *)
Definition pending_answer (g : gateway) (r : py_exc + response) : Prop :=
  exists v status, poll_value g r = inr v /\ get v "status" PyNone = inr status /\
                   eq_str status "ACTIVE" = false.

(** An answer on which the poll stops: the status is ["ACTIVE"]. *)
Definition active_answer (g : gateway) (r : py_exc + response) (v : pyval) : Prop :=
  exists status, poll_value g r = inr v /\ get v "status" PyNone = inr status /\
                 eq_str status "ACTIVE" = true.

(** A gateway as the control plane's REST contract describes it
    (spec, section 6): [id], [name], [status] and [domain], strings. *)
Definition gateway_schema : jtype :=
  JObj [("id", JStr); ("name", JStr); ("status", JStr); ("domain", JStr)].

(** An answer as the REST contract allows it: an error status, or a
    JSON body of the gateway's shape. *)
Definition typed_answer (r : py_exc + response) : Prop :=
  exists resp, r = inr resp /\
    ((400 <= rs_status resp)%Z \/
     (rs_status resp < 400)%Z /\ exists v, rs_json resp = Some v /\ has_type v gateway_schema = true).

(** The trace of [n] iterations of the poll. *)
Definition poll_trace (g : gateway) (n : nat) : list event :=
  List.concat (replicate n [EvSleep 500; EvHttp (poll_request g)]).

(** The gateway once the poll has seen it active with domain [dom]. *)
Definition activated (g : gateway) (dom : pyval) : gateway :=
  set_gateway_url (PyStr ("https://" ++ str dom)) (set_gateway_is_active true g).

(** The gateway once the listing matched [gw], with id [id] and domain
    [dom] (lines 93-94). *)
Definition found_gw (g : gateway) (id dom : pyval) : gateway :=
  set_gateway_url (PyStr ("https://" ++ str dom)) (set_gateway_id id g).

(** A listed gateway whose name is read and differs from ours. *)
Definition name_differs (g : gateway) (gw : pyval) : Prop :=
  exists nm, getitem gw "name" = inr nm /\ eq_str nm (gateway_name g) = false.

(** A listed gateway with our name, its id and its domain. *)
Definition name_matches (g : gateway) (gw id dom : pyval) : Prop :=
  exists nm, getitem gw "name" = inr nm /\ eq_str nm (gateway_name g) = true /\
             getitem gw "id" = inr id /\ getitem gw "domain" = inr dom.

(** [gateway['name'] == self.gateway_name] as a test on a listed item. *)
Definition has_name (g : gateway) (gw : pyval) : bool :=
  match getitem gw "name" with inr nm => eq_str nm (gateway_name g) | inl _ => false end.

(** The OpenAPI document of the creation request. *)
Definition spec_of (g : gateway) : string := fill openapi_parts [base_url g; host g].

(** What [response.get("metadata", {}).get("apiGatewayId")] reads from
    the answer to the creation request (line 104). *)
Definition creation_id (r : py_exc + response) : py_exc + pyval :=
  sum_bind (sum_bind r response_value) (fun resp =>
    sum_bind (get resp "metadata" (PyDict [])) (fun md => get md "apiGatewayId" PyNone)).

Section Answers.
Context {W : Type} `{Backend W}.

(** [polls g k w w' v dom]: from world [w], the poll of [g] gets [k]
    answers on which it loops, then an ["ACTIVE"] body [v] with domain
    [dom], ending in world [w']. *)
Inductive polls (g : gateway) : nat -> W -> W -> pyval -> pyval -> Prop :=
| polls_active w w' r v dom :
    backend_call w (poll_request g) = (w', r) -> active_answer g r v ->
    getitem v "domain" = inr dom -> polls g 0 w w' v dom
| polls_pending k w w1 w' r v dom :
    backend_call w (poll_request g) = (w1, r) -> pending_answer g r ->
    polls g k w1 w' v dom -> polls g (S k) w w' v dom.
End Answers.

(** An instance as [__init__] leaves it for [https://api.example.com],
    used by the concrete runs below. *)
Definition demo_gw : gateway :=
  mk_gateway SERVICE_URL "t0ken" "b1gfolder" "https://api.example.com" "api.example.com"
    "api-example-com-proxy" PyNone PyNone false.

(** A listed gateway as the control plane describes it. *)
Definition gw_json (id name status domain : string) : pyval :=
  PyDict [("id", PyStr id); ("name", PyStr name); ("status", PyStr status);
          ("domain", PyStr domain)].

Definition other_gw : pyval := gw_json "d5d1" "other-proxy" "ACTIVE" "d5d1.apigw.example".
Definition created_answer : py_exc + response :=
  ok_json (PyDict [("metadata", PyDict [("apiGatewayId", PyStr "d5d2")])]).
Definition creating_answer : py_exc + response :=
  ok_json (gw_json "d5d2" "api-example-com-proxy" "CREATING" "d5d2.apigw.example").
Definition creating_json : pyval :=
  gw_json "d5d2" "api-example-com-proxy" "CREATING" "d5d2.apigw.example".
Definition active_json : pyval :=
  gw_json "d5d2" "api-example-com-proxy" "ACTIVE" "d5d2.apigw.example".

Definition demo_script : list (py_exc + response) :=
  [ok_json (PyDict [("apiGateways", PyList [other_gw])]); created_answer;
   creating_answer; ok_json active_json].

Definition not_found : py_exc + response := inr (mk_response 404 None "").

(** The demo instance once the poll has seen it active. *)
Definition active_gw : gateway :=
  activated (set_gateway_id (PyStr "d5d2") demo_gw) (PyStr "d5d2.apigw.example").

(** A request as a [requests.Session] prepares it, with a query and a
    fragment. *)
Definition demo_request : Http.request :=
  mk_request "GET" "http://api.example.com/foo/bar?page=2#top" [("Accept", "*/*")] NoBody.

(** ** Run lemmas

    One lemma per method: what it does to the machine when the network
    answers its request with [r].  The theorems below are built from
    them. *)

Section Runs.
Context {W : Type} `{Backend W}.
Implicit Types (m : machine W) (w : W).

(** [request] with the caller's headers [h]. *)
Lemma request_run_h m method url h b w' r :
  let rq := mk_request method url (dict_set "Authorization" ("Bearer " ++ iam_token (m_gw m)) h) b in
  backend_call (m_world m) rq = (w', r) ->
  request method url h b m =
    (mk_machine (m_gw m) w' (m_trace m ++ [EvHttp rq]), of_sum (sum_bind r response_value)).
Proof.
  intros rq Hc. unfold request, http_call, get_gw, st_bind. cbn [m_gw m_world m_trace].
  fold rq. rewrite Hc. destruct r as [e|resp]; [done|].
  cbn. by destruct (response_value resp).
Qed.

Lemma request_run m method url b w' r :
  backend_call (m_world m) (mgmt_request (m_gw m) method url b) = (w', r) ->
  request method url [] b m =
    (mk_machine (m_gw m) w' (m_trace m ++ [EvHttp (mgmt_request (m_gw m) method url b)]),
     of_sum (sum_bind r response_value)).
Proof. apply request_run_h. Qed.

Lemma get_api_gateways_run m id w' r :
  backend_call (m_world m) (api_request (m_gw m) id) = (w', r) ->
  get_api_gateways id m =
    (mk_machine (m_gw m) w' (m_trace m ++ [EvHttp (api_request (m_gw m) id)]),
     of_sum (api_value id r)).
Proof.
  unfold api_request, api_value, listing_value, get_request, list_request.
  intros Hc. unfold get_api_gateways, get_gw. simpl_run.
  destruct (truthy id).
  - by rewrite (request_run _ _ _ _ w' r).
  - rewrite (request_run _ _ _ _ w' r) by done. simpl_run.
    destruct r as [e|resp]; simpl; [done|].
    destruct (response_value resp) as [e|v]; simpl; [done|].
    by destruct (get v "apiGateways" (PyDict [])).
Qed.

Lemma poll_step g w tr w' r f :
  backend_call w (poll_request g) = (w', r) ->
  poll (S f) (mk_machine g w tr) =
    st_bind (st_lift (poll_value g r)) (fun response =>
      st_bind (st_lift (get response "status" PyNone)) (fun status =>
        if eq_str status "ACTIVE" then
          update_gw (set_gateway_is_active true) ;;;
          dom <- st_lift (getitem response "domain") ;;
          update_gw (set_gateway_url (PyStr ("https://" ++ str dom))) ;;;
          st_ret response
        else poll f)%gw)
      (mk_machine g w' (tr ++ [EvSleep 500; EvHttp (poll_request g)])).
Proof.
  intros Hc. cbn [poll]. unfold sleep, get_gw. simpl_run.
  rewrite (get_api_gateways_run (mk_machine g w (tr ++ [EvSleep 500])) (gateway_id g) w' r)
    by exact Hc.
  cbn [m_gw m_trace]. rewrite <- app_assoc. unfold poll_value.
  by destruct (api_value (gateway_id g) r).
Qed.

Lemma poll_step_pending g w tr w' r f :
  backend_call w (poll_request g) = (w', r) -> pending_answer g r ->
  poll (S f) (mk_machine g w tr) =
    poll f (mk_machine g w' (tr ++ [EvSleep 500; EvHttp (poll_request g)])).
Proof.
  intros Hc (v & status & Hv & Hs & Hne). rewrite (poll_step _ _ _ _ _ _ Hc), Hv.
  unfold st_bind, st_lift, st_ret. rewrite Hs. cbv beta iota. by rewrite Hne.
Qed.

Lemma poll_step_active g w tr w' r f v dom :
  backend_call w (poll_request g) = (w', r) -> active_answer g r v ->
  getitem v "domain" = inr dom ->
  poll (S f) (mk_machine g w tr) =
    (mk_machine (activated g dom) w' (tr ++ [EvSleep 500; EvHttp (poll_request g)]), Ret v).
Proof.
  intros Hc (status & Hv & Hs & Heq) Hd. rewrite (poll_step _ _ _ _ _ _ Hc), Hv.
  unfold st_bind, st_lift, st_ret. rewrite Hs. cbv beta iota. rewrite Heq.
  unfold update_gw. cbn. by rewrite Hd.
Qed.

Lemma find_gateway_skip g w tr gw rest :
  name_differs g gw ->
  find_gateway (gw :: rest) (mk_machine g w tr) = find_gateway rest (mk_machine g w tr).
Proof.
  intros (nm & Hn & Hne). cbn [find_gateway]. unfold get_gw, st_bind, st_lift, st_ret.
  rewrite Hn. cbv beta iota. cbn [m_gw]. by rewrite Hne.
Qed.

Lemma find_gateway_none g w tr gws :
  Forall (name_differs g) gws ->
  find_gateway gws (mk_machine g w tr) = (mk_machine g w tr, Ret None).
Proof.
  induction 1 as [|gw gws Hgw _ IH]; [done|]. by rewrite find_gateway_skip.
Qed.

Lemma find_gateway_first g w tr pre gw post id dom :
  Forall (name_differs g) pre -> name_matches g gw id dom ->
  find_gateway (pre ++ gw :: post) (mk_machine g w tr) =
    (mk_machine (found_gw g id dom) w tr, Ret (Some gw)).
Proof.
  induction 1 as [|gw' pre Hgw' _ IH]; intros Hm.
  - destruct Hm as (nm & Hn & Heq & Hid & Hdom). cbn [app find_gateway].
    unfold get_gw, update_gw, st_bind, st_lift, st_ret.
    rewrite Hn. cbv beta iota. cbn [m_gw]. rewrite Heq, Hid. cbn. by rewrite Hdom.
  - cbn [app]. rewrite find_gateway_skip by done. by apply IH.
Qed.

Lemma init_gateway_listing fuel g w tr w1 r gws :
  backend_call w (list_request g) = (w1, r) ->
  sum_bind (listing_value r) iter = inr gws ->
  init_gateway fuel (mk_machine g w tr) =
    st_bind (find_gateway gws) (fun found =>
      match found with Some gw => st_ret gw | None => create_gateway fuel end)
      (mk_machine g w1 (tr ++ [EvHttp (list_request g)])).
Proof.
  intros Hc Hg. unfold init_gateway. unfold st_bind at 1 2.
  rewrite (get_api_gateways_run (mk_machine g w tr) PyNone w1 r) by exact Hc.
  unfold api_value, api_request. cbn [truthy].
  destruct (listing_value r) as [e|gl]; [discriminate|]. cbn in Hg |- *.
  by rewrite Hg.
Qed.

Lemma create_gateway_run fuel g w tr w1 r gid :
  backend_call w (create_request g (spec_of g)) = (w1, r) ->
  creation_id r = inr gid ->
  create_gateway fuel (mk_machine g w tr) =
    poll fuel (mk_machine (set_gateway_id gid g) w1 (tr ++ [EvHttp (create_request g (spec_of g))])).
Proof.
  intros Hc Hid. unfold create_gateway, get_gw. unfold st_bind at 1.
  cbn [m_gw]. rewrite openapi_spec_formats. fold (spec_of g).
  unfold st_lift at 1, st_ret at 1. unfold st_bind at 1.
  erewrite st_bind_step by (apply request_run; exact Hc).
  unfold creation_id in Hid. cbn [m_gw m_trace].
  destruct (sum_bind r response_value) as [e|resp]; [discriminate|]. cbn in Hid |- *.
  destruct (get resp "metadata" (PyDict [])) as [e|md]; [discriminate|]. cbn in Hid |- *.
  by rewrite Hid.
Qed.


Lemma poll_completes g k w w' v dom :
  polls g k w w' v dom ->
  forall fuel tr, k < fuel ->
  poll fuel (mk_machine g w tr) =
    (mk_machine (activated g dom) w' (tr ++ poll_trace g (S k)), Ret v).
Proof.
  induction 1 as [w w' r v dom Hc Ha Hd | k w w1 w' r v dom Hc Hp _ IH];
    intros [|fuel] tr Hf; try lia.
  - rewrite (poll_step_active _ _ _ _ _ _ _ _ Hc Ha Hd).
    unfold poll_trace. cbn. by rewrite ?app_nil_r.
  - rewrite (poll_step_pending _ _ _ _ _ _ Hc Hp), IH by lia.
    by rewrite <- app_assoc.
Qed.

Lemma poll_loops g (Inv : W -> Prop) :
  (forall w, Inv w -> exists w' r,
      backend_call w (poll_request g) = (w', r) /\ pending_answer g r /\ Inv w') ->
  forall fuel w tr, Inv w -> (poll fuel (mk_machine g w tr)).2 = OutOfFuel.
Proof.
  intros Hstep fuel. induction fuel as [|fuel IH]; intros w tr Hw; [done|].
  destruct (Hstep w Hw) as (w' & r & Hc & Hp & Hw').
  rewrite (poll_step_pending _ _ _ _ _ _ Hc Hp). by apply IH.
Qed.

Lemma shutdown_gateway_run g w tr w' r :
  truthy (gateway_id g) = true ->
  backend_call w (delete_request g) = (w', r) ->
  shutdown_gateway (mk_machine g w tr) =
    (mk_machine g w' (tr ++ [EvHttp (delete_request g)]), of_sum (sum_bind r response_value)).
Proof.
  intros Ht Hc. unfold shutdown_gateway, get_gw. unfold st_bind at 1. cbn [m_gw].
  rewrite Ht. cbn [negb]. by apply (request_run (mk_machine g w tr)).
Qed.
End Runs.

(** ** The lifecycle of [init_gateway]

    The theorems hold for every network, under hypotheses on the answers
    it gives to the requests the code sends. *)

Section Lifecycle.
Context {W : Type} `{Backend W}.

(** C1. [init_gateway] on a folder with no gateway of our name creates
    exactly one gateway and returns once it is active: after the listing
    and one POST of [spec_of g], the poll sees [k] answers that are not
    ["ACTIVE"] and then an ["ACTIVE"] one; with more than [k] iterations
    of fuel the call returns that answer, the instance holds the new id,
    [gateway_is_active] and the public URL [https://<domain>], and the
    trace is the listing, the POST and [k+1] sleeps each followed by a
    GET. *)
Theorem init_gateway_creates fuel g w tr w1 r1 gws w2 r2 gid k w' v dom :
  backend_call w (list_request g) = (w1, r1) ->
  sum_bind (listing_value r1) iter = inr gws ->
  Forall (name_differs g) gws ->
  backend_call w1 (create_request g (spec_of g)) = (w2, r2) ->
  creation_id r2 = inr gid ->
  polls (set_gateway_id gid g) k w2 w' v dom ->
  k < fuel ->
  init_gateway fuel (mk_machine g w tr) =
    (mk_machine (activated (set_gateway_id gid g) dom) w'
       (tr ++ [EvHttp (list_request g); EvHttp (create_request g (spec_of g))]
           ++ poll_trace (set_gateway_id gid g) (S k)),
     Ret v).
Proof.
  intros Hl Hg Hd Hc Hid Hp Hk.
  rewrite (init_gateway_listing _ _ _ _ _ _ _ Hl Hg).
  erewrite st_bind_step by (apply find_gateway_none; exact Hd). cbv iota beta.
  rewrite (create_gateway_run _ _ _ _ _ _ _ Hc Hid).
  rewrite (poll_completes _ _ _ _ _ _ Hp) by done.
  by rewrite <- !app_assoc.
Qed.

(** C3. The poll has no bound: if every answer to its request is one on
    which it loops (a status of 400 or more, a missing or non-["ACTIVE"]
    status), it never returns, whatever the fuel. *)
Theorem poll_never_returns g (Inv : W -> Prop) w tr :
  (forall w, Inv w -> exists w' r,
      backend_call w (poll_request g) = (w', r) /\ pending_answer g r /\ Inv w') ->
  Inv w ->
  forall fuel, (poll fuel (mk_machine g w tr)).2 = OutOfFuel.
Proof. intros Hstep Hw fuel. by apply (poll_loops g Inv). Qed.

(** C4. A listed gateway with our name is adopted as it is: the first
    one after gateways of other names gives its id and
    [https://<domain>], no creation request, no poll and no sleep is
    made, and [gateway_is_active] is left as it was, even when the
    gateway is still being created. *)
Theorem init_gateway_adopts_existing fuel g w tr w1 r pre gw post id dom :
  backend_call w (list_request g) = (w1, r) ->
  sum_bind (listing_value r) iter = inr (pre ++ gw :: post)%list ->
  Forall (name_differs g) pre ->
  name_matches g gw id dom ->
  init_gateway fuel (mk_machine g w tr) =
    (mk_machine (found_gw g id dom) w1 (tr ++ [EvHttp (list_request g)]), Ret gw) /\
  gateway_is_active (found_gw g id dom) = gateway_is_active g.
Proof.
  intros Hl Hg Hpre Hm. split; [|done].
  rewrite (init_gateway_listing _ _ _ _ _ _ _ Hl Hg).
  by erewrite st_bind_step by (apply find_gateway_first; eauto).
Qed.

(** C10. A failed listing (any status of 400 or more: a bad token, a
    server error) reads as an empty folder: [init_gateway] goes on to
    create a gateway. *)
Theorem failed_listing_creates fuel g w tr w1 resp :
  backend_call w (list_request g) = (w1, inr resp) ->
  (400 <= rs_status resp)%Z ->
  init_gateway fuel (mk_machine g w tr) =
    create_gateway fuel (mk_machine g w1 (tr ++ [EvHttp (list_request g)])).
Proof.
  intros Hl Hs.
  assert (Hv : sum_bind (listing_value (inr resp)) iter = inr []).
  { unfold listing_value, response_value. cbn. by rewrite (proj2 (Z.leb_le _ _) Hs). }
  rewrite (init_gateway_listing _ _ _ _ _ _ _ Hl Hv).
  by erewrite st_bind_step by (apply find_gateway_none; constructor).
Qed.
(** The run of a refused creation, step by step. *)
Lemma failed_creation_run fuel g w tr w1 r1 gws w2 resp w3 r3 xs :
  backend_call w (list_request g) = (w1, r1) ->
  sum_bind (listing_value r1) iter = inr gws ->
  Forall (name_differs g) gws ->
  backend_call w1 (create_request g (spec_of g)) = (w2, inr resp) ->
  (400 <= rs_status resp)%Z ->
  backend_call w2 (list_request g) = (w3, r3) ->
  listing_value r3 = inr (PyList xs) ->
  init_gateway (S fuel) (mk_machine g w tr) =
    (mk_machine (set_gateway_id PyNone g) w3
       (tr ++ [EvHttp (list_request g); EvHttp (create_request g (spec_of g));
               EvSleep 500; EvHttp (list_request g)]),
     Exc (AttributeError "'list' object has no attribute 'get'")).
Proof.
  intros Hl Hg Hd Hc Hs Hl3 Hx.
  rewrite (init_gateway_listing _ _ _ _ _ _ _ Hl Hg).
  erewrite st_bind_step by (apply find_gateway_none; exact Hd). cbv iota beta.
  assert (Hid : creation_id (inr resp) = inr PyNone).
  { unfold creation_id, response_value. cbn. by rewrite (proj2 (Z.leb_le _ _) Hs). }
  rewrite (create_gateway_run _ _ _ _ _ _ _ Hc Hid).
  rewrite (poll_step (set_gateway_id PyNone g) w2 _ w3 r3 fuel Hl3). unfold poll_value, api_value. cbn [gateway_id set_gateway_id truthy].
  rewrite Hx. cbn -[list_request create_request spec_of]. rewrite <- !app_assoc. reflexivity.
Qed.

(** C8. A refused creation (status of 400 or more) is not reported: the
    id read from [{}] is [None], so the poll lists the folder instead of
    fetching a gateway, and when the folder's listing is a list,
    [.get("status")] on it raises [AttributeError] after one sleep. *)
Theorem failed_creation_raises fuel g w tr w1 r1 gws w2 resp w3 r3 xs :
  backend_call w (list_request g) = (w1, r1) ->
  sum_bind (listing_value r1) iter = inr gws ->
  Forall (name_differs g) gws ->
  backend_call w1 (create_request g (spec_of g)) = (w2, inr resp) ->
  (400 <= rs_status resp)%Z ->
  backend_call w2 (list_request g) = (w3, r3) ->
  listing_value r3 = inr (PyList xs) ->
  init_gateway (S fuel) (mk_machine g w tr) =
    (mk_machine (set_gateway_id PyNone g) w3
       (tr ++ [EvHttp (list_request g); EvHttp (create_request g (spec_of g));
               EvSleep 500; EvHttp (list_request g)]),
     Exc (AttributeError "'list' object has no attribute 'get'")).
Proof. apply failed_creation_run. Qed.
End Lifecycle.

(** ** Proxying and closing *)

Section Calls.
Context {W : Type} `{Backend W}.

(** C16. Once active, [send] sends any request whose URL has a host to
    the URL requests prepares from [str(self.gateway_url)] and the path of
    the original URL: the gateway's host lower-cased, then the path with
    its dot segments removed and the characters a path does not allow
    percent-encoded (an empty path becomes ["/"]).  The query, the
    fragment and the [;params] of the original URL are not sent.  The
    method is upper-cased, the headers and the body are kept, and the
    answer is returned whatever its status. *)
Theorem send_rewrites_url g w tr r pr d w' res :
  gateway_url g = PyStr ("https://" ++ d) -> domainlike d ->
  urlparse (rq_url r) = inr pr -> pr_netloc pr <> "" ->
  backend_call w (mk_request (upper (rq_method r))
                   ("https://" ++ lower d ++ requote_uri (prepared_path (pr_path pr)))
                   (rq_headers r) (rq_body r)) = (w', res) ->
  send r (mk_machine g w tr) =
    (mk_machine g w' (tr ++ [EvHttp (mk_request (upper (rq_method r))
                                      ("https://" ++ lower d ++ requote_uri (prepared_path (pr_path pr)))
                                      (rq_headers r) (rq_body r))]),
     of_sum res).
Proof.
  intros Hu Hd Hp Hn Hc. unfold send, get_gw, st_bind, st_lift, st_ret. cbn [m_gw].
  rewrite Hp, Hu. cbn [str]. rewrite str_app_assoc. unfold prepare. cbn [rq_url rq_method].
  rewrite prepare_url_https;
    [| done | by apply (urlparse_path_start (rq_url r)) | by apply (urlparse_path_plain (rq_url r))].
  unfold http_call. cbn in Hc |- *. rewrite Hc. by destruct res.
Qed.

(** C28. Before the gateway is known, [send] builds the URL
    ["None" + path] from [str(None)]; for a request URL with a host (so an
    empty or absolute path) whose path has no colon, urllib3 reads
    ["None"] as a host without a scheme, requests raises [MissingSchema]
    and nothing is sent. *)
Theorem send_before_open_raises g w tr r pr :
  gateway_url g = PyNone ->
  urlparse (rq_url r) = inr pr -> pr_netloc pr <> "" -> has_char ":" (pr_path pr) = false ->
  send r (mk_machine g w tr) = (mk_machine g w tr, Exc (MissingSchema ("None" ++ pr_path pr))).
Proof.
  intros Hu Hp Hn Hc. unfold send, get_gw, st_bind, st_lift, st_ret. cbn [m_gw].
  rewrite Hp, Hu. cbn [str repr]. unfold prepare. cbn [rq_url].
  rewrite prepare_url_none by (done || by apply (urlparse_path_start (rq_url r))). reflexivity.
Qed.

(** C29. [shutdown_gateway] on an instance fresh from [__init__] (no
    [open], or an [open] that failed before an id was set) returns [{}]
    and sends nothing. *)
Theorem shutdown_before_open_noop t f b g w tr :
  new_gateway t f b = inr g ->
  shutdown_gateway (mk_machine g w tr) = (mk_machine g w tr, Ret (PyDict [])).
Proof.
  unfold new_gateway. destruct (host_of (set_base_url b)); [discriminate|].
  intros [= <-]. reflexivity.
Qed.

(** C30. [shutdown_gateway] keeps the id: closing twice sends the DELETE
    twice, where the spec's lifecycle ends in a terminated state. *)
Theorem shutdown_twice_deletes_twice g w tr w1 r1 v1 w2 r2 :
  truthy (gateway_id g) = true ->
  backend_call w (delete_request g) = (w1, r1) -> sum_bind r1 response_value = inr v1 ->
  backend_call w1 (delete_request g) = (w2, r2) ->
  (shutdown_gateway ;;; shutdown_gateway)%gw (mk_machine g w tr) =
    (mk_machine g w2 (tr ++ [EvHttp (delete_request g); EvHttp (delete_request g)]),
     of_sum (sum_bind r2 response_value)).
Proof.
  intros Ht Hc1 Hv1 Hc2.
  erewrite st_bind_step by (apply shutdown_gateway_run; eauto). rewrite Hv1. cbn [of_sum].
  rewrite (shutdown_gateway_run _ _ _ _ _ Ht Hc2). by rewrite <- app_assoc.
Qed.
(** C23. Every management call carries the bearer token: whatever headers
    the caller passes (without duplicate keys), [request] sends exactly
    one request, with the caller's method, URL and body, with
    [Authorization] set to [Bearer <iam_token>] (a caller's own value
    overwritten), every other header of the caller kept, and no header
    duplicated. *)
Theorem request_sets_bearer m method url h b :
  NoDup (map fst h) ->
  exists r, m_trace (request method url h b m).1 = (m_trace m ++ [EvHttp r])%list /\
    rq_method r = method /\ rq_url r = url /\ rq_body r = b /\
    dict_lookup "Authorization" (rq_headers r) = Some ("Bearer " ++ iam_token (m_gw m)) /\
    (forall k, k <> "Authorization" -> dict_lookup k (rq_headers r) = dict_lookup k h) /\
    NoDup (map fst (rq_headers r)).
Proof.
  intros Hh.
  set (rq := mk_request method url (dict_set "Authorization" ("Bearer " ++ iam_token (m_gw m)) h) b).
  destruct (backend_call (m_world m) rq) as [w' r] eqn:Hc.
  rewrite (request_run_h m method url h b w' r Hc). exists rq. cbn.
  split; [done|]. do 3 (split; [done|]). split; [apply dict_lookup_set_eq|].
  split; [intros k Hk; by apply dict_lookup_set_ne | by apply dict_set_nodup].
Qed.

(** C24. Error statuses are indistinguishable: an answer of status 400 or
    more, whatever its body (a 401, a 404, a 500, JSON or not), makes
    [request] return [{}] without raising, the value an empty JSON object
    answered with 200 gives. *)
Theorem request_error_is_empty m method url h b w' resp :
  let rq := mk_request method url (dict_set "Authorization" ("Bearer " ++ iam_token (m_gw m)) h) b in
  backend_call (m_world m) rq = (w', inr resp) ->
  (400 <= rs_status resp)%Z ->
  request method url h b m = (mk_machine (m_gw m) w' (m_trace m ++ [EvHttp rq]), Ret (PyDict [])).
Proof.
  intros rq Hc Hs. rewrite (request_run_h m method url h b w' (inr resp) Hc). cbn.
  unfold response_value. by rewrite (proj2 (Z.leb_le _ _) Hs).
Qed.

(** C14. Type safety of the lookup, and what it finds: when every listed
    item has the shape the REST contract gives a gateway
    ([gateway_schema]), the [for] loop of [init_gateway] (lines 91-95)
    never raises a [KeyError] or a [TypeError]; it returns the first item
    whose name is the instance's, with its id and [https://] domain
    stored, or [None] with the instance unchanged. *)
Theorem find_gateway_well_typed gws g w tr :
  Forall (fun v => has_type v gateway_schema = true) gws ->
  (List.find (has_name g) gws = None /\
   find_gateway gws (mk_machine (W:=W) g w tr) = (mk_machine g w tr, Ret None)) \/
  (exists gw id dom, List.find (has_name g) gws = Some gw /\
     getitem gw "id" = inr id /\ getitem gw "domain" = inr dom /\
     find_gateway gws (mk_machine (W:=W) g w tr) = (mk_machine (found_gw g id dom) w tr, Ret (Some gw))).
Proof.
  induction 1 as [|gw gws Hgw _ IH]; [by left|].
  destruct (has_type_getitem gw _ "name" JStr Hgw) as (nm & Hn & _); [cbn; auto|].
  destruct (has_type_getitem gw _ "id" JStr Hgw) as (id & Hid & _); [cbn; auto|].
  destruct (has_type_getitem gw _ "domain" JStr Hgw) as (dom & Hdom & _); [cbn; auto 6|].
  assert (Hh : has_name g gw = eq_str nm (gateway_name g)) by (unfold has_name; by rewrite Hn).
  cbn [List.find]. rewrite Hh. destruct (eq_str nm (gateway_name g)) eqn:E.
  - right. exists gw, id, dom. do 3 (split; [done|]).
    apply find_gateway_first with (pre := []) (post := gws); [constructor|]. by exists nm.
  - rewrite find_gateway_skip by (exists nm; split; done). exact IH.
Qed.

(** C15. Type safety of the poll: once the instance has an id, if every
    answer to the poll's request is an error status or a gateway of the
    contract's shape, the poll never raises, whatever the fuel: it loops
    on errors and on non-[ACTIVE] statuses and returns on [ACTIVE].  (The
    [AttributeError] of a refused creation comes from polling without an
    id, which lists the folder instead.) *)
Theorem poll_well_typed g (Inv : W -> Prop) w tr :
  truthy (gateway_id g) = true ->
  (forall w, Inv w -> exists w' r,
      backend_call w (poll_request g) = (w', r) /\ typed_answer r /\ Inv w') ->
  Inv w ->
  forall fuel e, (poll fuel (mk_machine g w tr)).2 <> Exc e.
Proof.
  intros Hid Hstep Hw fuel. revert w tr Hw. induction fuel as [|fuel IH]; intros w tr Hw e; [done|].
  destruct (Hstep w Hw) as (w' & r & Hc & (resp & -> & Hr) & Hw').
  assert (Hv : poll_value g (inr resp) = response_value resp)
    by (unfold poll_value, api_value; by rewrite Hid).
  destruct Hr as [Herr | [Hok (v & Hj & Ht)]].
  - rewrite (poll_step_pending _ _ _ _ _ _ Hc); [by apply IH|].
    exists (PyDict []), PyNone. rewrite Hv. unfold response_value.
    by rewrite (proj2 (Z.leb_le _ _) Herr).
  - assert (Hv' : poll_value g (inr resp) = inr v)
      by (rewrite Hv; unfold response_value; by rewrite (proj2 (Z.leb_gt _ _) Hok), Hj).
    destruct (has_type_getitem v _ "status" JStr Ht) as (st & Hs & _); [cbn; auto|].
    destruct (eq_str st "ACTIVE") eqn:Ha.
    + destruct (has_type_getitem v _ "domain" JStr Ht) as (dom & Hd & _); [cbn; auto 6|].
      rewrite (poll_step_active _ _ _ _ _ _ v dom Hc); [done| |done].
      exists st. split; [done|]. split; [by apply get_of_getitem|done].
    + rewrite (poll_step_pending _ _ _ _ _ _ Hc); [by apply IH|].
      exists v, st. split; [done|]. split; [by apply get_of_getitem|done].
Qed.

End Calls.

(** ** The constructor *)

(** C25. The gateway name depends on the host alone: a bare host, the same
    host with any scheme, and either with trailing slashes give the same
    [gateway_name], [host] with its dots turned into hyphens followed by
    [-proxy]. *)
Theorem new_gateway_name_normalised t f sc h k :
  schemelike sc -> hostlike h ->
  sum_map gateway_name (new_gateway t f (h ++ slashes k)) = inr (gateway_name_of h) /\
  sum_map gateway_name (new_gateway t f (sc ++ "://" ++ h ++ slashes k)) = inr (gateway_name_of h).
Proof.
  intros Hsc Hh. pose proof Hh as (_ & Hhc & _). unfold new_gateway.
  rewrite set_base_url_bare, set_base_url_scheme by done.
  change ("https://" ++ h) with ("https" ++ "://" ++ h).
  rewrite !host_of_authority by (done || (exists "h"%char, "ttps"; done)).
  done.
Qed.

(** ** Concrete runs on a scripted network *)

Lemma new_gateway_name_normalised_witness :
  sum_map gateway_name (new_gateway "t0ken" "b1gfolder" ("api.example.com" ++ slashes 2))
    = inr (gateway_name_of "api.example.com") /\
  sum_map gateway_name (new_gateway "t0ken" "b1gfolder" ("http" ++ "://" ++ "api.example.com" ++ slashes 2))
    = inr (gateway_name_of "api.example.com").
Proof.
  apply new_gateway_name_normalised.
  - exists "h"%char, "ttp". done.
  - split; [discriminate | split; [reflexivity | discriminate]].
Defined.

Lemma send_rewrites_url_witness :
  send (mk_request "get" "http://api.example.com/a/./b/../c d;v=1?page=2#top" [("Accept", "*/*")] NoBody)
       (mk_machine active_gw [ok_json (PyDict [])] []) =
    (mk_machine active_gw [] ([] ++ [EvHttp (mk_request "GET" "https://d5d2.apigw.example/a/c%20d"
                                            [("Accept", "*/*")] NoBody)]),
     of_sum (ok_json (PyDict []))).
Proof.
  apply (@send_rewrites_url _ script_backend active_gw [ok_json (PyDict [])] []
           (mk_request "get" "http://api.example.com/a/./b/../c d;v=1?page=2#top" [("Accept", "*/*")] NoBody)
           (mk_parse "http" "api.example.com" "/a/./b/../c d" "v=1" "page=2" "top") "d5d2.apigw.example"
           [] (ok_json (PyDict [])));
    [reflexivity | split; [discriminate | split; reflexivity] | reflexivity | discriminate | reflexivity].
Defined.

Lemma send_before_open_raises_witness :
  send demo_request (mk_machine demo_gw ([] : list (py_exc + response)) []) =
    (mk_machine demo_gw [] [], Exc (MissingSchema ("None" ++ "/foo/bar"))).
Proof.
  apply (send_before_open_raises demo_gw [] [] demo_request
           (mk_parse "http" "api.example.com" "/foo/bar" "" "page=2" "top"));
    (reflexivity || discriminate).
Defined.

Lemma shutdown_before_open_noop_witness :
  let g := match new_gateway "t0ken" "b1gfolder" "api.example.com" with
           | inr g => g | inl _ => demo_gw end in
  new_gateway "t0ken" "b1gfolder" "api.example.com" = inr g /\
  shutdown_gateway (mk_machine g ([] : list (py_exc + response)) []) =
    (mk_machine g [] [], Ret (PyDict [])).
Proof.
  intros g. assert (Hn : new_gateway "t0ken" "b1gfolder" "api.example.com" = inr g) by reflexivity.
  split; [exact Hn|]. apply (shutdown_before_open_noop "t0ken" "b1gfolder" "api.example.com" g _ _ Hn).
Defined.

Lemma shutdown_twice_deletes_twice_witness :
  (shutdown_gateway ;;; shutdown_gateway)%gw
    (mk_machine active_gw [ok_json (PyDict [("done", PyBool true)]); not_found] []) =
    (mk_machine active_gw [] ([] ++ [EvHttp (delete_request active_gw); EvHttp (delete_request active_gw)]),
     of_sum (sum_bind not_found response_value)).
Proof.
  apply (shutdown_twice_deletes_twice active_gw _ [] [not_found]
           (ok_json (PyDict [("done", PyBool true)])) (PyDict [("done", PyBool true)]) [] not_found);
    reflexivity.
Defined.

Lemma failed_creation_raises_witness :
  init_gateway 3 (mk_machine demo_gw
    [ok_json (PyDict [("apiGateways", PyList [other_gw])]); not_found;
     ok_json (PyDict [("apiGateways", PyList [other_gw])])] []) =
    (mk_machine (set_gateway_id PyNone demo_gw) []
       ([] ++ [EvHttp (list_request demo_gw); EvHttp (create_request demo_gw (spec_of demo_gw));
               EvSleep 500; EvHttp (list_request demo_gw)]),
     Exc (AttributeError "'list' object has no attribute 'get'")).
Proof.
  apply (failed_creation_raises 2 demo_gw _ []
           [not_found; ok_json (PyDict [("apiGateways", PyList [other_gw])])]
           (ok_json (PyDict [("apiGateways", PyList [other_gw])])) [other_gw]
           [ok_json (PyDict [("apiGateways", PyList [other_gw])])] (mk_response 404 None "")
           [] (ok_json (PyDict [("apiGateways", PyList [other_gw])])) [other_gw]);
    [reflexivity | reflexivity | | reflexivity | simpl; lia | reflexivity | reflexivity].
  constructor; [|constructor]. eexists. split; reflexivity.
Defined.

Lemma init_gateway_creates_witness :
  init_gateway 5 (mk_machine demo_gw demo_script []) =
    (mk_machine (activated (set_gateway_id (PyStr "d5d2") demo_gw) (PyStr "d5d2.apigw.example")) []
       ([] ++ [EvHttp (list_request demo_gw); EvHttp (create_request demo_gw (spec_of demo_gw))]
           ++ poll_trace (set_gateway_id (PyStr "d5d2") demo_gw) 2),
     Ret active_json).
Proof.
  apply (@init_gateway_creates _ script_backend 5 demo_gw demo_script [] (List.tl demo_script)
           (ok_json (PyDict [("apiGateways", PyList [other_gw])])) [other_gw]
           (List.tl (List.tl demo_script)) created_answer (PyStr "d5d2")
           1 [] active_json (PyStr "d5d2.apigw.example"));
    [reflexivity | reflexivity | | reflexivity | reflexivity | | lia].
  - constructor; [|constructor]. eexists. split; reflexivity.
  - eapply polls_pending; [reflexivity | eexists _, _; split; [|split]; reflexivity |].
    eapply polls_active; [reflexivity | eexists; split; [|split]; reflexivity | reflexivity].
Defined.

Lemma poll_never_returns_witness :
  (@poll unit (always not_found) 1000 (mk_machine demo_gw tt [])).2 = OutOfFuel.
Proof.
  apply (@poll_never_returns unit (always not_found) demo_gw (fun _ => True) tt []); [|done].
  intros w _. exists tt, not_found. split; [reflexivity|]. split; [|done].
  eexists _, _. split; [|split]; reflexivity.
Defined.

Lemma init_gateway_adopts_existing_witness :
  init_gateway 3 (mk_machine demo_gw
    [ok_json (PyDict [("apiGateways", PyList [other_gw; creating_json])])] []) =
    (mk_machine (found_gw demo_gw (PyStr "d5d2") (PyStr "d5d2.apigw.example")) []
       ([] ++ [EvHttp (list_request demo_gw)]), Ret creating_json) /\
  gateway_is_active (found_gw demo_gw (PyStr "d5d2") (PyStr "d5d2.apigw.example")) =
    gateway_is_active demo_gw.
Proof.
  apply (init_gateway_adopts_existing 3 demo_gw _ [] []
           (ok_json (PyDict [("apiGateways", PyList [other_gw; creating_json])]))
           [other_gw] creating_json [] (PyStr "d5d2") (PyStr "d5d2.apigw.example"));
    [reflexivity | reflexivity | |].
  - constructor; [|constructor]. eexists. split; reflexivity.
  - eexists. split; [|split; [|split]]; reflexivity.
Defined.

Lemma failed_listing_creates_witness :
  init_gateway 3 (mk_machine demo_gw [not_found] []) =
    create_gateway 3 (mk_machine demo_gw [] ([] ++ [EvHttp (list_request demo_gw)])).
Proof.
  apply (failed_listing_creates 3 demo_gw [not_found] [] [] (mk_response 404 None ""));
    [reflexivity | simpl; lia].
Defined.

Lemma request_sets_bearer_witness :
  exists r, m_trace (@request _ script_backend "GET" "https://example.net/"
                       [("Authorization", "Basic xyz"); ("Accept", "*/*")] NoBody
                       (mk_machine demo_gw [] [])).1 = ([] ++ [EvHttp r])%list /\
    rq_method r = "GET" /\ rq_url r = "https://example.net/" /\ rq_body r = NoBody /\
    dict_lookup "Authorization" (rq_headers r) = Some ("Bearer " ++ iam_token demo_gw) /\
    (forall k, k <> "Authorization" ->
       dict_lookup k (rq_headers r) = dict_lookup k [("Authorization", "Basic xyz"); ("Accept", "*/*")]) /\
    NoDup (map fst (rq_headers r)).
Proof.
  apply (@request_sets_bearer _ script_backend (mk_machine demo_gw [] [])).
  cbn. apply NoDup_cons_2; [|apply NoDup_singleton]. rewrite list_elem_of_singleton. discriminate.
Defined.

Lemma request_error_is_empty_witness :
  @request _ script_backend "GET" (SERVICE_URL ++ "/d5d1") [] NoBody
    (mk_machine demo_gw [not_found] []) =
  (mk_machine demo_gw [] [EvHttp (get_request demo_gw (PyStr "d5d1"))], Ret (PyDict [])).
Proof.
  apply (@request_error_is_empty _ script_backend (mk_machine demo_gw [not_found] [])
           "GET" (SERVICE_URL ++ "/d5d1") [] NoBody [] (mk_response 404 None ""));
    [reflexivity | cbn; lia].
Defined.

Lemma find_gateway_well_typed_witness :
  (List.find (has_name demo_gw) [other_gw; creating_json] = None /\
   find_gateway [other_gw; creating_json] (mk_machine (W:=list (py_exc + response)) demo_gw [] []) =
     (mk_machine demo_gw [] [], Ret None)) \/
  (exists gw id dom, List.find (has_name demo_gw) [other_gw; creating_json] = Some gw /\
     getitem gw "id" = inr id /\ getitem gw "domain" = inr dom /\
     find_gateway [other_gw; creating_json] (mk_machine (W:=list (py_exc + response)) demo_gw [] []) =
       (mk_machine (found_gw demo_gw id dom) [] [], Ret (Some gw))).
Proof. apply find_gateway_well_typed. repeat constructor. Defined.

Lemma poll_well_typed_witness :
  (@poll _ (always (ok_json creating_json)) 10
     (mk_machine (set_gateway_id (PyStr "d5d2") demo_gw) tt [])).2 <> Exc JSONDecodeError.
Proof.
  apply (@poll_well_typed _ (always (ok_json creating_json)) _ (fun _ => True)); [reflexivity | |done].
  intros w _. exists tt, (ok_json creating_json). split; [reflexivity|]. split; [|done].
  eexists. split; [reflexivity|]. right. split; [cbn; lia|]. eexists. split; reflexivity.
Defined.

End Gateway.
