(* ===== verification/ControlPlane.v ===== *)
(** * A simulated control plane

    The API Gateway service the manager talks to is not code of this
    repository: it is modelled here from its REST contract (spec, section
    6) as an implementation of the [Backend] interface of [Http.v], so
    that the theorems of [Gateway.v], proved against the interface, can be
    instantiated end to end.  The service keeps the gateways of every
    folder; a listing returns those of the folder (the [apiGateways] key is
    left out when there are none, as the service's JSON encoding omits
    empty lists); a creation allocates a fresh id and a gateway that stays
    [CREATING] for [cp_delay] reads before it reports [ACTIVE]; a deletion
    removes it; a request without the right bearer token gets 401. *)

From stdpp Require Import base list.
From Stdlib Require Import ZArith String Ascii Lia.
From S2P Require Import Prelude PyValue Url Http Gateway.

Open Scope string_scope.

Module ControlPlane.
Import Py Url Http Gateway.

Record api_gateway := mk_api_gateway {
  ag_id : string;
  ag_folder : string;
  ag_name : string;
  ag_spec : string;
  ag_pending : nat }.

Record cp_state := mk_cp {
  cp_token : string;
  cp_gateways : list api_gateway;
  cp_next : nat;
  cp_delay : nat }.

Definition domain_of (id : string) : string := id ++ ".apigw.yandexcloud.net".
Definition fresh_id (n : nat) : string := "d5d" ++ int_str (Z.of_nat n).

Definition status_of (a : api_gateway) : string :=
  if Nat.eqb (ag_pending a) 0 then "ACTIVE" else "CREATING".

Definition ag_json (a : api_gateway) : pyval :=
  PyDict [("id", PyStr (ag_id a)); ("folderId", PyStr (ag_folder a));
          ("name", PyStr (ag_name a)); ("status", PyStr (status_of a));
          ("domain", PyStr (domain_of (ag_id a)))].

Fixpoint strip_prefix (p s : string) : option string :=
  match p, s with
  | EmptyString, _ => Some s
  | String c p', String d s' => if Ascii.eqb c d then strip_prefix p' s' else None
  | String _ _, EmptyString => None
  end.

Definition authorized (s : cp_state) (r : Http.request) : bool :=
  bool_decide (dict_lookup "Authorization" (rq_headers r) = Some ("Bearer " ++ cp_token s)).

Definition find_by_id (id : string) (gws : list api_gateway) : option api_gateway :=
  List.find (fun a => String.eqb (ag_id a) id) gws.

(** One read of a gateway brings its provisioning one step closer. *)
Definition tick (id : string) (gws : list api_gateway) : list api_gateway :=
  map (fun a => if String.eqb (ag_id a) id
                then mk_api_gateway (ag_id a) (ag_folder a) (ag_name a) (ag_spec a) (Nat.pred (ag_pending a))
                else a) gws.

Definition with_gateways (s : cp_state) (gws : list api_gateway) : cp_state :=
  mk_cp (cp_token s) gws (cp_next s) (cp_delay s).

Definition answer (status : Z) (v : pyval) : py_exc + response := inr (mk_response status (Some v) (json_dumps v)).

Definition error_answer (status : Z) (msg : string) : py_exc + response :=
  answer status (PyDict [("message", PyStr msg)]).

Definition list_answer (f : string) (gws : list api_gateway) : pyval :=
  match filter (fun a => ag_folder a = f) gws with
  | [] => PyDict []
  | l => PyDict [("apiGateways", PyList (map ag_json l))]
  end.

(** [POST]: the payload must carry the three strings; a name already used
    in the folder is refused with 409. *)
Definition cp_create (s : cp_state) (b : body) : cp_state * (py_exc + response) :=
  match b with
  | JsonBody v =>
      match get v "folderId" PyNone, get v "name" PyNone, get v "openapiSpec" PyNone with
      | inr (PyStr f), inr (PyStr n), inr (PyStr spec) =>
          if existsb (fun a => String.eqb (ag_folder a) f && String.eqb (ag_name a) n) (cp_gateways s)
          then (s, error_answer 409 "ALREADY_EXISTS")
          else
            let id := fresh_id (cp_next s) in
            (mk_cp (cp_token s) (cp_gateways s ++ [mk_api_gateway id f n spec (cp_delay s)])
                   (S (cp_next s)) (cp_delay s),
             answer 200 (PyDict [("metadata", PyDict [("apiGatewayId", PyStr id)])]))
      | _, _, _ => (s, error_answer 400 "INVALID_ARGUMENT")
      end
  | _ => (s, error_answer 400 "INVALID_ARGUMENT")
  end.

Definition cp_handle (s : cp_state) (r : Http.request) : cp_state * (py_exc + response) :=
  if negb (authorized s r) then (s, error_answer 401 "UNAUTHENTICATED")
  else if String.eqb (rq_method r) "GET" then
    match strip_prefix (SERVICE_URL ++ "?folderId=") (rq_url r) with
    | Some f => (s, answer 200 (list_answer f (cp_gateways s)))
    | None =>
        match strip_prefix (SERVICE_URL ++ "/") (rq_url r) with
        | Some id =>
            match find_by_id id (cp_gateways s) with
            | Some a => (with_gateways s (tick id (cp_gateways s)), answer 200 (ag_json a))
            | None => (s, error_answer 404 "NOT_FOUND")
            end
        | None => (s, error_answer 404 "NOT_FOUND")
        end
    end
  else if String.eqb (rq_method r) "POST" then
    if String.eqb (rq_url r) SERVICE_URL then cp_create s (rq_body r)
    else (s, error_answer 404 "NOT_FOUND")
  else if String.eqb (rq_method r) "DELETE" then
    match strip_prefix (SERVICE_URL ++ "/") (rq_url r) with
    | Some id =>
        match find_by_id id (cp_gateways s) with
        | Some _ =>
            (with_gateways s (List.filter (fun a => negb (String.eqb (ag_id a) id)) (cp_gateways s)),
             answer 200 (PyDict [("done", PyBool false)]))
        | None => (s, error_answer 404 "NOT_FOUND")
        end
    | None => (s, error_answer 404 "NOT_FOUND")
    end
  else (s, error_answer 405 "METHOD_NOT_ALLOWED").

#[export] Instance cp_backend : Backend cp_state := cp_handle.

(** A manager aimed at this control plane with the right token. *)
Definition talks_to (g : gateway) (s : cp_state) : Prop :=
  service_url g = SERVICE_URL /\ iam_token g = cp_token s.

Definition tick_state (id : string) (s : cp_state) : cp_state :=
  with_gateways s (tick id (cp_gateways s)).

Definition set_pending (a : api_gateway) (p : nat) : api_gateway :=
  mk_api_gateway (ag_id a) (ag_folder a) (ag_name a) (ag_spec a) p.

(** The gateway a creation by [g] adds. *)
Definition created (g : gateway) (s : cp_state) : api_gateway :=
  mk_api_gateway (fresh_id (cp_next s)) (folder_id g) (gateway_name g) (spec_of g) (cp_delay s).

Definition after_create (g : gateway) (s : cp_state) : cp_state :=
  mk_cp (cp_token s) (cp_gateways s ++ [created g s]) (S (cp_next s)) (cp_delay s).

(** The control plane once [g] has opened: its gateway created and read
    until active. *)
Definition opened (g : gateway) (s : cp_state) : cp_state :=
  Nat.iter (S (cp_delay s)) (tick_state (fresh_id (cp_next s))) (after_create g s).

(** The creation requests of a trace. *)
Definition creations (tr : list event) : nat :=
  List.length (List.filter (fun e => match e with
                                     | EvHttp r => String.eqb (rq_method r) "POST"
                                     | EvSleep _ => false
                                     end) tr).

(** A fresh control plane: no gateway yet, two reads of provisioning. *)
Definition cp_demo : cp_state := mk_cp "t0ken" [] 1 2.

(** Managers for [a-b.com] and [a.b.com], as [__init__] builds them. *)
Definition gw_ab_dash : gateway :=
  mk_gateway SERVICE_URL "t0ken" "b1gfolder" "https://a-b.com" "a-b.com" "a-b-com-proxy"
    PyNone PyNone false.
Definition gw_ab_dot : gateway :=
  mk_gateway SERVICE_URL "t0ken" "b1gfolder" "https://a.b.com" "a.b.com" "a-b-com-proxy"
    PyNone PyNone false.

(** The gateways of [g]'s folder have other names. *)
Definition name_free (g : gateway) (s : cp_state) : Prop :=
  existsb (fun a => String.eqb (ag_folder a) (folder_id g) && String.eqb (ag_name a) (gateway_name g))
          (cp_gateways s) = false.

(** ** Lemmas on the simulated service *)

Lemma strip_prefix_app p x : strip_prefix p (p ++ x) = Some x.
Proof.
  induction p as [|c p IH]; cbn [strip_prefix String.append]; [done|].
  by rewrite Ascii.eqb_refl.
Qed.

Lemma strip_prefix_app_l p a b : strip_prefix (p ++ a) (p ++ b) = strip_prefix a b.
Proof.
  induction p as [|c p IH]; cbn [strip_prefix String.append]; [done|].
  by rewrite Ascii.eqb_refl.
Qed.

Lemma authorized_mgmt g s m u b :
  iam_token g = cp_token s -> authorized s (mgmt_request g m u b) = true.
Proof.
  intros Ht. unfold authorized, mgmt_request, auth_headers. cbn. rewrite Ht.
  by apply bool_decide_eq_true_2.
Qed.

Lemma unauthorized_mgmt g s m u b :
  iam_token g <> cp_token s -> authorized s (mgmt_request g m u b) = false.
Proof.
  intros Ht. unfold authorized, mgmt_request, auth_headers. cbn.
  apply bool_decide_eq_false_2. intros [= Hb]. by apply Ht.
Qed.

Lemma cp_list g s :
  talks_to g s ->
  cp_handle s (list_request g) = (s, answer 200 (list_answer (folder_id g) (cp_gateways s))).
Proof.
  intros [Hu Ht]. unfold cp_handle, list_request. rewrite authorized_mgmt by done. cbn [negb].
  unfold mgmt_request. cbn [rq_method rq_url]. rewrite Hu.
  by rewrite strip_prefix_app_l, strip_prefix_app.
Qed.

Lemma cp_get g s id a :
  talks_to g s -> find_by_id id (cp_gateways s) = Some a ->
  cp_handle s (get_request g (PyStr id)) = (tick_state id s, answer 200 (ag_json a)).
Proof.
  intros [Hu Ht] Hf. unfold cp_handle, get_request. rewrite authorized_mgmt by done. cbn [negb].
  unfold mgmt_request. cbn [rq_method rq_url str]. rewrite Hu.
  rewrite !strip_prefix_app_l. simpl strip_prefix.
  replace ("GET" =? "GET") with true by reflexivity. cbv iota beta.
  by rewrite Hf.
Qed.

Lemma cp_create_request g s :
  talks_to g s -> name_free g s ->
  cp_handle s (create_request g (spec_of g)) =
    (after_create g s,
     answer 200 (PyDict [("metadata", PyDict [("apiGatewayId", PyStr (fresh_id (cp_next s)))])])).
Proof.
  intros [Hu Ht] Hn. unfold cp_handle, create_request. rewrite authorized_mgmt by done.
  cbn [negb]. unfold mgmt_request. cbn [rq_method rq_url rq_body]. rewrite Hu.
  replace ("POST" =? "GET") with false by reflexivity.
  replace ("POST" =? "POST") with true by reflexivity. cbv iota beta.
  rewrite String.eqb_refl. unfold cp_create, payload. cbn [get assoc_lookup String.eqb].
  simpl. unfold name_free in Hn. by rewrite Hn.
Qed.

Lemma cp_delete_request g s id a :
  talks_to g s -> gateway_id g = PyStr id -> find_by_id id (cp_gateways s) = Some a ->
  cp_handle s (delete_request g) =
    (with_gateways s (List.filter (fun a => negb (String.eqb (ag_id a) id)) (cp_gateways s)),
     answer 200 (PyDict [("done", PyBool false)])).
Proof.
  intros [Hu Ht] Hid Hf. unfold cp_handle, delete_request. rewrite authorized_mgmt by done.
  cbn [negb]. unfold mgmt_request. cbn [rq_method rq_url]. rewrite Hu, Hid. cbn [str].
  replace ("DELETE" =? "GET") with false by reflexivity.
  replace ("DELETE" =? "POST") with false by reflexivity.
  replace ("DELETE" =? "DELETE") with true by reflexivity. cbv iota beta.
  rewrite strip_prefix_app_l. simpl strip_prefix. cbv iota beta. by rewrite Hf.
Qed.

Lemma cp_unauthorized g s m u b :
  iam_token g <> cp_token s ->
  cp_handle s (mgmt_request g m u b) = (s, error_answer 401 "UNAUTHENTICATED").
Proof. intros Ht. unfold cp_handle. by rewrite unauthorized_mgmt. Qed.

Lemma set_pending_id a : set_pending a (ag_pending a) = a.
Proof. by destruct a. Qed.

Lemma find_by_id_tick id gws a :
  find_by_id id gws = Some a ->
  find_by_id id (tick id gws) = Some (set_pending a (Nat.pred (ag_pending a))).
Proof.
  unfold find_by_id, tick. induction gws as [|b gws IH]; [done|]. cbn [List.find map].
  destruct (String.eqb (ag_id b) id) eqn:E; cbn [ag_id]; rewrite E; [|exact IH].
  by intros [= <-].
Qed.

Lemma find_by_id_snoc id l a :
  find_by_id id l = None -> ag_id a = id -> find_by_id id (l ++ [a])%list = Some a.
Proof.
  unfold find_by_id. intros Hl Ha. induction l as [|b l IH]; cbn in Hl |- *.
  - by rewrite Ha, String.eqb_refl.
  - destruct (String.eqb (ag_id b) id); [discriminate|]. by apply IH.
Qed.

Lemma tick_snoc id l a :
  find_by_id id l = None -> ag_id a = id ->
  tick id (l ++ [a])%list = (l ++ [set_pending a (Nat.pred (ag_pending a))])%list.
Proof.
  unfold find_by_id, tick. intros Hl Ha. rewrite map_app. cbn. rewrite Ha, String.eqb_refl.
  f_equal.
  - induction l as [|b l IH]; [done|]. cbn in Hl |- *.
    destruct (String.eqb (ag_id b) id); [discriminate|]. by rewrite IH.
  - by rewrite <- Ha.
Qed.

Lemma fresh_id_nonempty n : fresh_id n <> "".
Proof. unfold fresh_id. cbn. discriminate. Qed.

Lemma cp_poll_request g s id a :
  talks_to g s -> gateway_id g = PyStr id -> id <> "" -> find_by_id id (cp_gateways s) = Some a ->
  cp_handle s (poll_request g) = (tick_state id s, answer 200 (ag_json a)).
Proof.
  intros Hs Hid Hne Hf. unfold poll_request, api_request. rewrite Hid, truthy_PyStr by done.
  by apply cp_get.
Qed.

Lemma cp_polls g id a p :
  forall s, talks_to g s -> gateway_id g = PyStr id -> id <> "" -> ag_id a = id ->
  find_by_id id (cp_gateways s) = Some (set_pending a p) ->
  polls g p s (Nat.iter (S p) (tick_state id) s) (ag_json (set_pending a 0)) (PyStr (domain_of id)).
Proof.
  induction p as [|p IH]; intros s Hs Hid Hne Ha Hf.
  - eapply polls_active; [by apply (cp_poll_request g s id) | |].
    + exists (PyStr "ACTIVE"). unfold poll_value, api_value. rewrite Hid, truthy_PyStr by done.
      done.
    + cbn. by rewrite Ha.
  - eapply polls_pending; [by apply (cp_poll_request g s id) | |].
    + exists (ag_json (set_pending a (S p))), (PyStr "CREATING").
      unfold poll_value, api_value. rewrite Hid, truthy_PyStr by done. done.
    + rewrite Nat.iter_succ_r. apply IH; [by destruct Hs | done | done | done |].
      unfold tick_state. cbn [cp_gateways with_gateways].
      rewrite (find_by_id_tick _ _ _ Hf). by destruct a.
Qed.

Lemma opened_state g s :
  find_by_id (fresh_id (cp_next s)) (cp_gateways s) = None ->
  forall k, k <= cp_delay s ->
  Nat.iter k (tick_state (fresh_id (cp_next s))) (after_create g s) =
    mk_cp (cp_token s) (cp_gateways s ++ [set_pending (created g s) (cp_delay s - k)])
          (S (cp_next s)) (cp_delay s).
Proof.
  intros Hf k. induction k as [|k IH]; intros Hk.
  - cbn. rewrite Nat.sub_0_r. by rewrite set_pending_id.
  - rewrite Nat.iter_succ, IH by lia. unfold tick_state, with_gateways. cbn [cp_gateways cp_token cp_next cp_delay].
    rewrite tick_snoc by done. do 3 f_equal. unfold set_pending. cbn. f_equal. lia.
Qed.

Lemma opened_eq g s :
  find_by_id (fresh_id (cp_next s)) (cp_gateways s) = None ->
  opened g s = mk_cp (cp_token s) (cp_gateways s ++ [set_pending (created g s) 0])
                     (S (cp_next s)) (cp_delay s).
Proof.
  intros Hf. unfold opened. rewrite Nat.iter_succ, opened_state by done.
  rewrite Nat.sub_diag. unfold tick_state, with_gateways. cbn [cp_gateways cp_token cp_next cp_delay].
  by rewrite tick_snoc.
Qed.

Lemma listing_in_folder g l :
  existsb (fun a => String.eqb (ag_folder a) (folder_id g) && String.eqb (ag_name a) (gateway_name g)) l
    = false ->
  sum_bind (listing_value (answer 200 (list_answer (folder_id g) l))) iter
    = inr (map ag_json (filter (fun a => ag_folder a = folder_id g) l)) /\
  Forall (name_differs g) (map ag_json (filter (fun a => ag_folder a = folder_id g) l)).
Proof.
  intros Hn. split.
  - unfold listing_value, list_answer.
    by destruct (filter (fun a => ag_folder a = folder_id g) l).
  - induction l as [|a l IH]; [constructor|]. cbn in Hn.
    apply orb_false_elim in Hn as [Ha Hl]. rewrite filter_cons.
    case_decide as Hf; [|by apply IH]. constructor; [|by apply IH].
    exists (PyStr (ag_name a)). split; [done|]. cbn.
    rewrite Hf, String.eqb_refl in Ha. exact Ha.
Qed.

Lemma cp_open_run fuel g s tr :
  talks_to g s -> name_free g s ->
  find_by_id (fresh_id (cp_next s)) (cp_gateways s) = None -> cp_delay s < fuel ->
  init_gateway fuel (mk_machine g s tr) =
    (mk_machine (activated (set_gateway_id (PyStr (fresh_id (cp_next s))) g)
                           (PyStr (domain_of (fresh_id (cp_next s)))))
       (opened g s)
       (tr ++ [EvHttp (list_request g); EvHttp (create_request g (spec_of g))]
           ++ poll_trace (set_gateway_id (PyStr (fresh_id (cp_next s))) g) (S (cp_delay s))),
     Ret (ag_json (set_pending (created g s) 0))).
Proof.
  intros Hs Hn Hf Hd. destruct (listing_in_folder g (cp_gateways s) Hn) as [Hl Hnames].
  rewrite (@init_gateway_listing _ cp_backend fuel g s tr s _ _ (cp_list g s Hs) Hl).
  erewrite st_bind_step by (apply find_gateway_none; exact Hnames). cbv iota beta.
  rewrite (@create_gateway_run _ cp_backend fuel g s _ (after_create g s) _ (PyStr (fresh_id (cp_next s)))
             (cp_create_request g s Hs Hn)) by reflexivity.
  rewrite (@poll_completes _ cp_backend _ (cp_delay s) (after_create g s) (opened g s)
             (ag_json (set_pending (created g s) 0)) (PyStr (domain_of (fresh_id (cp_next s)))))
    by (done || (apply cp_polls; [by destruct Hs | done | apply fresh_id_nonempty | done |];
                 cbn [after_create cp_gateways]; rewrite find_by_id_snoc by done;
                 by rewrite set_pending_id)).
  by rewrite <- !app_assoc.
Qed.

Lemma creations_app a b : creations (a ++ b) = creations a + creations b.
Proof. unfold creations. by rewrite List.filter_app, length_app. Qed.

Lemma creations_poll_trace g n : creations (poll_trace g n) = 0.
Proof.
  unfold poll_trace, poll_request, api_request.
  induction n as [|n IH]; [done|]. cbn [replicate List.concat].
  rewrite creations_app, IH. by destruct (truthy (gateway_id g)).
Qed.

Lemma filter_other_ids id l :
  find_by_id id l = None -> List.filter (fun a => negb (String.eqb (ag_id a) id)) l = l.
Proof.
  unfold find_by_id. induction l as [|a l IH]; [done|]. cbn.
  destruct (String.eqb (ag_id a) id); [discriminate|]. intros H. cbn. by rewrite IH.
Qed.

Lemma talks_to_new t f base g s :
  new_gateway t f base = inr g -> t = cp_token s -> talks_to g s.
Proof.
  unfold new_gateway. destruct (host_of (set_base_url base)); [discriminate|].
  intros [= <-] ->. by split.
Qed.

(** ** End-to-end runs against the simulated control plane *)

(** C2. [open()] on a folder where the name is free issues exactly one
    creation request and returns once the gateway is active: the instance
    is active with the public URL of the new gateway, and the control
    plane holds one more gateway, active, carrying [spec_of g]. *)
Theorem open_creates_one_gateway fuel t f base g s :
  new_gateway t f base = inr g -> t = cp_token s -> name_free g s ->
  find_by_id (fresh_id (cp_next s)) (cp_gateways s) = None -> cp_delay s < fuel ->
  exists m', init_gateway fuel (mk_machine g s []) = (m', Ret (ag_json (set_pending (created g s) 0))) /\
    gateway_is_active (m_gw m') = true /\
    gateway_url (m_gw m') = PyStr ("https://" ++ domain_of (fresh_id (cp_next s))) /\
    cp_gateways (m_world m') = (cp_gateways s ++ [set_pending (created g s) 0])%list /\
    creations (m_trace m') = 1.
Proof.
  intros Hg Ht Hn Hf Hd. pose proof (talks_to_new _ _ _ _ _ Hg Ht) as Hs.
  eexists. rewrite (cp_open_run fuel g s [] Hs Hn Hf Hd). split; [reflexivity|].
  cbn [m_gw m_world m_trace activated set_gateway_url set_gateway_is_active gateway_is_active gateway_url].
  split; [done|]. split; [done|]. rewrite opened_eq by done. split; [done|].
  rewrite !creations_app, creations_poll_trace. reflexivity.
Qed.

Lemma replace_app a b u v : replace a b (u ++ v) = replace a b u ++ replace a b v.
Proof. induction u as [|c u IH]; cbn; [done|]. by rewrite IH. Qed.

(** [__init__] on a bare host and on an [https://] URL of a host. *)
Lemma new_gateway_bare t f h g :
  hostlike h -> new_gateway t f h = inr g ->
  g = mk_gateway SERVICE_URL t f ("https://" ++ h) h (gateway_name_of h) PyNone PyNone false.
Proof.
  intros Hh. pose proof Hh as (_ & Hc & _). unfold new_gateway.
  pose proof (set_base_url_bare h 0 Hh) as E. cbn [slashes] in E. rewrite str_app_nil_r in E.
  rewrite E. change ("https://" ++ h) with ("https" ++ "://" ++ h).
  rewrite host_of_authority by (done || (exists "h"%char, "ttps"; done)). by intros [= <-].
Qed.

Lemma new_gateway_https t f h g :
  hostlike h -> new_gateway t f ("https://" ++ h) = inr g ->
  g = mk_gateway SERVICE_URL t f ("https://" ++ h) h (gateway_name_of h) PyNone PyNone false.
Proof.
  intros Hh. pose proof Hh as (_ & Hc & _). unfold new_gateway.
  pose proof (set_base_url_scheme "https" h 0 Hh) as E. cbn [slashes] in E. rewrite str_app_nil_r in E.
  change ("https://" ++ h) with ("https" ++ "://" ++ h). rewrite E.
  rewrite host_of_authority by (done || (exists "h"%char, "ttps"; done)). by intros [= <-].
Qed.

(** A second manager with the same folder and name, after an [open()]. *)
Lemma reopen_run fuel fuel' g g' s :
  talks_to g s -> name_free g s ->
  find_by_id (fresh_id (cp_next s)) (cp_gateways s) = None -> cp_delay s < fuel ->
  talks_to g' s -> folder_id g' = folder_id g -> gateway_name g' = gateway_name g ->
  init_gateway fuel' (mk_machine g' (m_world (init_gateway fuel (mk_machine g s [])).1) []) =
    (mk_machine (found_gw g' (PyStr (fresh_id (cp_next s))) (PyStr (domain_of (fresh_id (cp_next s)))))
       (opened g s) [EvHttp (list_request g')],
     Ret (ag_json (set_pending (created g s) 0))).
Proof.
  intros Hs Hn Hf Hd [Hu' Ht'] Hfo Hna.
  rewrite (cp_open_run fuel g s [] Hs Hn Hf Hd). cbn [fst m_world].
  rewrite opened_eq by done.
  set (l := filter (fun a => ag_folder a = folder_id g) (cp_gateways s)).
  assert (Hn' : name_free g' s) by (unfold name_free in *; rewrite Hfo, Hna; exact Hn).
  destruct (listing_in_folder g' (cp_gateways s) Hn') as [_ Hnames]. rewrite Hfo in Hnames.
  assert (Hl : sum_bind (listing_value (answer 200 (list_answer (folder_id g')
                 (cp_gateways s ++ [set_pending (created g s) 0])%list))) iter
               = inr (map ag_json l ++ [ag_json (set_pending (created g s) 0)])%list).
  { unfold list_answer. rewrite Hfo, filter_app, filter_cons_True by done.
    fold l. rewrite filter_nil. clearbody l. destruct l; cbn; by rewrite ?map_app. }
  rewrite (@init_gateway_listing _ cp_backend fuel' g' _ [] _ _ _
             (cp_list g' (mk_cp (cp_token s) (cp_gateways s ++ [set_pending (created g s) 0])%list
                                (S (cp_next s)) (cp_delay s)) (conj Hu' Ht')) Hl).
  erewrite st_bind_step.
  2:{ apply find_gateway_first; [exact Hnames|].
      exists (PyStr (gateway_name g)). cbn. rewrite Hna, String.eqb_refl. done. }
  done.
Qed.

(** C6. Reopening is idempotent: after an [open()], a second manager for
    the same folder and name (the same base URL) finds the gateway in the
    listing and adopts it; it sends the listing and nothing else. *)
Theorem reopen_adopts_without_creation fuel fuel' g g' s :
  talks_to g s -> name_free g s ->
  find_by_id (fresh_id (cp_next s)) (cp_gateways s) = None -> cp_delay s < fuel ->
  talks_to g' s -> folder_id g' = folder_id g -> gateway_name g' = gateway_name g ->
  init_gateway fuel' (mk_machine g' (m_world (init_gateway fuel (mk_machine g s [])).1) []) =
    (mk_machine (found_gw g' (PyStr (fresh_id (cp_next s))) (PyStr (domain_of (fresh_id (cp_next s)))))
       (opened g s) [EvHttp (list_request g')],
     Ret (ag_json (set_pending (created g s) 0))).
Proof. apply reopen_run. Qed.

(** C9. With a token the service refuses, [open()] never returns: the
    listing's 401 reads as an empty folder, the creation's 401 as a
    missing id, and the poll then lists the folder forever, each 401
    answer read as a gateway whose status is not ["ACTIVE"]. *)
Theorem bad_token_hangs g s tr :
  service_url g = SERVICE_URL -> authorized s (list_request g) = false ->
  forall fuel, (init_gateway fuel (mk_machine g s tr)).2 = OutOfFuel.
Proof.
  intros Hu Ha fuel.
  assert (Ht : iam_token g <> cp_token s) by (intros Ht; unfold list_request in Ha; by rewrite authorized_mgmt in Ha).
  assert (Hl : sum_bind (listing_value (error_answer 401 "UNAUTHENTICATED")) iter = inr [])
    by reflexivity.
  rewrite (@init_gateway_listing _ cp_backend fuel g s tr s _ _ (cp_unauthorized g s _ _ _ Ht) Hl).
  erewrite st_bind_step by (apply find_gateway_none; constructor). cbv iota beta.
  rewrite (@create_gateway_run _ cp_backend fuel g s _ s _ PyNone (cp_unauthorized g s _ _ _ Ht))
    by reflexivity.
  apply (@poll_loops _ cp_backend _ (fun w => w = s)); [|done].
  intros w ->. exists s, (error_answer 401 "UNAUTHENTICATED"). split; [by apply cp_unauthorized|].
  split; [|done]. eexists _, _. split; [|split]; reflexivity.
Qed.

(** C7. Used as a context manager on a folder where the name is free,
    the manager leaves the control plane with the gateways it had: the
    gateway created on entry is deleted on exit, whether the body returns
    or raises, and the body's outcome is the outcome of the [with]. *)
Theorem with_gateway_no_leak {A} fuel g s tr (x : py_exc + A) :
  talks_to g s -> name_free g s ->
  find_by_id (fresh_id (cp_next s)) (cp_gateways s) = None -> cp_delay s < fuel ->
  exists m', with_gateway fuel (st_lift x) (mk_machine g s tr) = (m', of_sum x) /\
             cp_gateways (m_world m') = cp_gateways s.
Proof.
  intros Hs Hn Hf Hd. unfold with_gateway.
  erewrite st_bind_step by (apply cp_open_run; done). unfold st_try.
  set (id := fresh_id (cp_next s)).
  set (g1 := activated (set_gateway_id (PyStr id) g) (PyStr (domain_of id))).
  assert (Hdel : cp_handle (opened g s) (delete_request g1) =
                   (with_gateways (opened g s) (cp_gateways s), answer 200 (PyDict [("done", PyBool false)]))).
  { rewrite (cp_delete_request g1 (opened g s) id (set_pending (created g s) 0)).
    - rewrite opened_eq by done. cbn. rewrite List.filter_app, filter_other_ids by done.
      cbn. rewrite String.eqb_refl. cbn. by rewrite app_nil_r.
    - rewrite opened_eq by done. destruct Hs. by split.
    - done.
    - rewrite opened_eq by done. cbn [cp_gateways]. by rewrite find_by_id_snoc. }
  destruct x as [e|a]; cbn [st_lift st_raise st_ret];
    (erewrite st_bind_step; [| apply (@shutdown_gateway_run _ cp_backend g1 (opened g s));
                               [apply truthy_PyStr, fresh_id_nonempty | exact Hdel]]);
    cbn; eexists; (split; [reflexivity|]); done.
Qed.

(** C5. The name derived from the host is not injective, and the
    find-or-create trusts it: for any hosts [x-y] and [x.y] (for instance
    [a-b.com] and [a.b.com]), a manager for [https://x.y] opened after one
    for [x-y] adopts the gateway the first one created, although their
    base URLs differ: it sends the listing and no creation, and the
    gateway it returns is the first manager's, whose OpenAPI document
    ([spec_of] of the first) forwards to [https://x-y]. *)
Theorem name_collision_adopts_foreign_gateway fuel fuel' t f x y gA gB s :
  hostlike (x ++ "-" ++ y) -> hostlike (x ++ "." ++ y) ->
  new_gateway t f (x ++ "-" ++ y) = inr gA ->
  new_gateway t f ("https://" ++ x ++ "." ++ y) = inr gB ->
  t = cp_token s -> name_free gA s ->
  find_by_id (fresh_id (cp_next s)) (cp_gateways s) = None -> cp_delay s < fuel ->
  base_url gB <> base_url gA /\
  init_gateway fuel' (mk_machine gB (m_world (init_gateway fuel (mk_machine gA s [])).1) []) =
    (mk_machine (found_gw gB (PyStr (fresh_id (cp_next s))) (PyStr (domain_of (fresh_id (cp_next s)))))
       (opened gA s) [EvHttp (list_request gB)],
     Ret (ag_json (set_pending (created gA s) 0))).
Proof.
  intros HA HB Ha Hb -> Hn Hf Hd.
  pose proof (new_gateway_bare _ _ _ _ HA Ha) as ->.
  pose proof (new_gateway_https _ _ _ _ HB Hb) as ->.
  split.
  - cbn [base_url]. intros E. apply (str_app_inv_l "https://"), str_app_inv_l in E. discriminate E.
  - apply reopen_run; try done.
    cbn [gateway_name]. unfold gateway_name_of. by rewrite !replace_app.
Qed.

Lemma open_creates_one_gateway_witness :
  exists m', init_gateway 5 (mk_machine demo_gw cp_demo []) =
             (m', Ret (ag_json (set_pending (created demo_gw cp_demo) 0))) /\
    gateway_is_active (m_gw m') = true /\
    gateway_url (m_gw m') = PyStr ("https://" ++ domain_of (fresh_id (cp_next cp_demo))) /\
    cp_gateways (m_world m') = (cp_gateways cp_demo ++ [set_pending (created demo_gw cp_demo) 0])%list /\
    creations (m_trace m') = 1.
Proof.
  apply (open_creates_one_gateway 5 "t0ken" "b1gfolder" "api.example.com");
    [reflexivity | reflexivity | reflexivity | reflexivity | cbn; lia].
Defined.

Lemma reopen_adopts_without_creation_witness :
  init_gateway 3 (mk_machine demo_gw (m_world (init_gateway 5 (mk_machine demo_gw cp_demo [])).1) []) =
    (mk_machine (found_gw demo_gw (PyStr (fresh_id (cp_next cp_demo)))
                          (PyStr (domain_of (fresh_id (cp_next cp_demo)))))
       (opened demo_gw cp_demo) [EvHttp (list_request demo_gw)],
     Ret (ag_json (set_pending (created demo_gw cp_demo) 0))).
Proof.
  apply (reopen_adopts_without_creation 5 3 demo_gw demo_gw cp_demo);
    [split; reflexivity | reflexivity | reflexivity | cbn; lia | split; reflexivity
    | reflexivity | reflexivity].
Defined.

Lemma bad_token_hangs_witness :
  (init_gateway 100 (mk_machine demo_gw (mk_cp "other-token" [] 1 2) [])).2 = OutOfFuel.
Proof. apply bad_token_hangs; reflexivity. Defined.

Lemma with_gateway_no_leak_witness :
  exists m', with_gateway 5 (st_lift (@inl py_exc unit ConnectionError)) (mk_machine demo_gw cp_demo []) =
               (m', of_sum (@inl py_exc unit ConnectionError)) /\
             cp_gateways (m_world m') = cp_gateways cp_demo.
Proof.
  apply with_gateway_no_leak; [split; reflexivity | reflexivity | reflexivity | cbn; lia].
Defined.

Lemma name_collision_adopts_foreign_gateway_witness :
  base_url gw_ab_dot <> base_url gw_ab_dash /\
  init_gateway 3 (mk_machine gw_ab_dot (m_world (init_gateway 5 (mk_machine gw_ab_dash cp_demo [])).1) []) =
    (mk_machine (found_gw gw_ab_dot (PyStr (fresh_id (cp_next cp_demo)))
                          (PyStr (domain_of (fresh_id (cp_next cp_demo)))))
       (opened gw_ab_dash cp_demo) [EvHttp (list_request gw_ab_dot)],
     Ret (ag_json (set_pending (created gw_ab_dash cp_demo) 0))).
Proof.
  apply (name_collision_adopts_foreign_gateway 5 3 "t0ken" "b1gfolder" "a" "b.com");
    try reflexivity.
  - split; [discriminate | split; [reflexivity | discriminate]].
  - split; [discriminate | split; [reflexivity | discriminate]].
  - cbn. lia.
Defined.

End ControlPlane.
