(* ===== verification/Retry.v ===== *)
(** * The retrying transport of [src/main.py]

    [src/main.py] configures a [requests] adapter, [CustomHTTPAdapter]
    (lines 18-38), from the module constants of lines 8-15, builds one
    (line 41), mounts it on a [requests.Session] for both schemes and sends
    one GET through it; the session (lines 42-46) is in [Main.v].  This
    file holds the constants, the constructor and the policy it sets, and
    [HTTPAdapter]'s default policy [base_retry] under which
    [YandexApiGateway] sends.  The constructor is translated from the source;
    the retry policy it hands to the connection pool, urllib3's [Retry],
    is library code and is modelled from the specification (§3, §4.1):
    a failed attempt consumes a unit of [total] and of the counter of its
    class, the policy gives up when a counter drops below zero, and the
    [n]-th wait is [backoff_factor * 2 ^ n].
    The retry loop is written with fuel; [retry_send] gives it
    [total + 1] units, which the theorems show is always enough. *)

From stdpp Require Import base list.
From Stdlib Require Import ZArith QArith String Ascii Lia.
From S2P Require Import Prelude PyValue Url Http.

Open Scope string_scope.

Module Retry.
Import Py Url Http.

(** ** Module constants (lines 8-15) *)

Definition TIMEOUT_CONNECT : Z := 5.
Definition TIMEOUT_READ : Z := 10.
Definition TOTAL_RETRIES : Z := 5.
Definition CONNECT_RETRIES : Z := 3.
Definition READ_RETRIES : Z := 2.
Definition BACKOFF_FACTOR : Q := 1 # 2.
Definition STATUS_FORCELIST : list Z := [500; 502; 503; 504]%Z.
Definition PROXIES : option (list (string * string)) := None.

(** ** The policy: urllib3's [Retry(total, connect, read, backoff_factor,
    status_forcelist)].  [total] is [Union[int, None, bool]] as the
    constructor's annotation says. *)
Record retry := mk_retry {
  total : pyval;
  connect : Z;
  read : Z;
  backoff_factor : Q;
  status_forcelist : option (list Z) }.

(** The retries [total] allows: an [int] as it is, [True] as one, [None]
    and [False] disable retrying (§3). *)
Definition total_limit (t : pyval) : Z :=
  match t with
  | PyInt z => z
  | PyBool true => 1
  | _ => 0
  end.

(** The methods a read failure may be retried for (§4.1). *)
Definition RETRY_METHODS : list string := ["GET"; "HEAD"; "OPTIONS"].

(** ** [CustomHTTPAdapter.__init__] (lines 18-38)

    The constructor never calls [HTTPAdapter.__init__]: the pool settings
    that constructor records ([_pool_connections], [_pool_maxsize],
    [_pool_block], all set together) stay unset, and the pool manager is a
    bare [PoolManager()], whose pools hold one connection each where
    [HTTPAdapter] would have asked for ten. *)
Record pool_manager := mk_pool_manager {
  num_pools : Z;
  maxsize : Z;
  block : bool }.

(** [urllib3.PoolManager()]: ten pools of [HTTPConnectionPool]'s default
    size, one connection, not blocking. *)
Definition PoolManager : pool_manager := mk_pool_manager 10 1 false.

(** What [HTTPAdapter.__init__] would have passed to [init_poolmanager]. *)
Definition DEFAULT_POOLSIZE : Z := 10.

Record adapter := mk_adapter {
  retry_attr : retry;
  proxies : option (list (string * string));
  poolmanager : pool_manager;
  max_retries : retry;
  pool_settings : option (Z * Z * bool) }.

Definition CustomHTTPAdapter (total_retries : pyval) (connect_retries read_retries : Z)
    (backoff_factor : Q) (status_forcelist : option (list Z))
    (proxies : option (list (string * string))) : adapter :=
  let r := mk_retry total_retries connect_retries read_retries backoff_factor status_forcelist in
  mk_adapter r proxies PoolManager r None.

(** [CustomHTTPAdapter()] with the defaults of lines 21-26. *)
Definition default_adapter : adapter :=
  CustomHTTPAdapter (PyInt TOTAL_RETRIES) CONNECT_RETRIES READ_RETRIES BACKOFF_FACTOR
    (Some STATUS_FORCELIST) PROXIES.

(** ** One exchange under the policy (§4.1) *)

(** What a run of the transport shows: attempts and waits, in order. *)
Inductive rstep : Type :=
| Try (r : request)
| Backoff (secs : Q).

Inductive failure : Type :=
| FConnect
| FRead
| FStatus (r : response).

(** The outcome of an attempt: final, or a failure the policy may retry. *)
Inductive verdict : Type :=
| Final (a : py_exc + response)
| Retryable (f : failure).

Definition forced (rt : retry) (code : Z) : bool :=
  match status_forcelist rt with
  | Some l => existsb (Z.eqb code) l
  | None => false
  end.

Definition classify (rt : retry) (req : request) (a : py_exc + response) : verdict :=
  match a with
  | inl ConnectionError => Retryable FConnect
  | inl ReadTimeout =>
      if existsb (String.eqb (rq_method req)) RETRY_METHODS then Retryable FRead else Final a
  | inl _ => Final a
  | inr resp => if forced rt (rs_status resp) then Retryable (FStatus resp) else Final a
  end.

Record counters := mk_counters {
  c_total : Z;
  c_connect : Z;
  c_read : Z }.

Definition init_counters (rt : retry) : counters :=
  mk_counters (total_limit (total rt)) (connect rt) (read rt).

Definition consume (f : failure) (c : counters) : counters :=
  match f with
  | FConnect => mk_counters (c_total c - 1) (c_connect c - 1) (c_read c)
  | FRead => mk_counters (c_total c - 1) (c_connect c) (c_read c - 1)
  | FStatus _ => mk_counters (c_total c - 1) (c_connect c) (c_read c)
  end.

Definition exhausted (c : counters) : bool :=
  Z.ltb (c_total c) 0 || Z.ltb (c_connect c) 0 || Z.ltb (c_read c) 0.

(** The last failure, surfaced to the caller. *)
Definition surface (f : failure) : py_exc + response :=
  match f with
  | FConnect => inl ConnectionError
  | FRead => inl ReadTimeout
  | FStatus r => inr r
  end.

(** The wait before retry [n] (counted from zero). *)
Definition delay (rt : retry) (n : nat) : Q :=
  backoff_factor rt * inject_Z (2 ^ Z.of_nat n).

Section Transport.
Context `{Backend W}.

Local Open Scope gw_scope.

Definition T : Type := (W * list rstep)%type.

Definition attempt (req : request) : st T py_exc (py_exc + response) :=
  fun '(w, tr) => let '(w', a) := backend_call w req in ((w', tr ++ [Try req])%list, Ret a).

Definition backoff (rt : retry) (n : nat) : st T py_exc unit :=
  fun '(w, tr) => ((w, tr ++ [Backoff (delay rt n)])%list, Ret tt).

Fixpoint retry_loop (fuel : nat) (rt : retry) (req : request) (c : counters) (n : nat)
    : st T py_exc response :=
  match fuel with
  | O => st_diverge
  | S fuel =>
      a <- attempt req ;;
      match classify rt req a with
      | Final a => st_lift a
      | Retryable f =>
          let c' := consume f c in
          if exhausted c' then st_lift (surface f)
          else backoff rt n ;;; retry_loop fuel rt req c' (S n)
      end
  end.

Definition retry_send (rt : retry) (req : request) : st T py_exc response :=
  retry_loop (S (Z.to_nat (total_limit (total rt)))) rt req (init_counters rt) 0.

(** [HTTPAdapter.send]: the pool is asked with [retries=self.max_retries]. *)
Definition adapter_send (a : adapter) (req : request) : st T py_exc response :=
  retry_send (max_retries a) req.
End Transport.

(** [HTTPAdapter()]'s policy, [Retry(0, read=False)]: no retry at all. *)
Definition base_retry : retry := mk_retry (PyInt 0) 0 0 0 None.


(** ** What a run shows *)

(** [k] retries from wait [n] on: attempts and waits alternate, an
    attempt last. *)
Definition trace_from (rt : retry) (req : request) (n k : nat) : list rstep :=
  (List.concat (map (fun i => [Try req; Backoff (delay rt i)]) (seq n k)) ++ [Try req])%list.

Definition retry_trace (rt : retry) (req : request) (k : nat) : list rstep :=
  trace_from rt req 0 k.

Definition total_sleep (tr : list rstep) : Q :=
  fold_right (fun s acc => match s with Backoff q => q + acc | Try _ => acc end) 0 tr.

Definition tries (tr : list rstep) : nat :=
  List.length (List.filter (fun s => match s with Try _ => true | Backoff _ => false end) tr).

Definition consume_all (fs : list failure) (c : counters) : counters :=
  fold_left (fun c f => consume f c) fs c.

(** The failures a script may answer with, as the policy sees them. *)
Definition retryable (rt : retry) (req : request) (f : failure) : Prop :=
  classify rt req (surface f) = Retryable f.

(** A request the examples send. *)
Definition probe : request :=
  mk_request "GET" "https://httpbin.org/headers" [] NoBody.

Definition ok_200 : py_exc + response := inr (mk_response 200 None "").
Definition unavailable : failure := FStatus (mk_response 503 None "").

(** ** The policy as a relation on the answers (§4.1)

    [policy_outcome c answers res k]: against [answers], in order, with
    counters [c], the policy ends with [res] after [k] retries: a final
    answer is returned, a failure that drives a counter below zero is
    surfaced, any other failure is retried with the counters it leaves. *)
Inductive policy_outcome (rt : retry) (req : request)
  : counters -> list (py_exc + response) -> py_exc + response -> nat -> Prop :=
| po_final c a rest :
    classify rt req a = Final a -> policy_outcome rt req c (a :: rest) a 0
| po_give_up c a f rest :
    classify rt req a = Retryable f -> exhausted (consume f c) = true ->
    policy_outcome rt req c (a :: rest) (surface f) 0
| po_retry c a f rest res k :
    classify rt req a = Retryable f -> exhausted (consume f c) = false ->
    policy_outcome rt req (consume f c) rest res k ->
    policy_outcome rt req c (a :: rest) res (S k).

(** ** Counters *)

Lemma consume_total f c : c_total (consume f c) = (c_total c - 1)%Z.
Proof. by destruct f. Qed.

Lemma not_exhausted c :
  exhausted c = false -> (0 <= c_total c /\ 0 <= c_connect c /\ 0 <= c_read c)%Z.
Proof. unfold exhausted. intros [[?%Z.ltb_ge ?%Z.ltb_ge]%orb_false_elim ?%Z.ltb_ge]%orb_false_elim. lia. Qed.

Lemma exhausted_consume f c : exhausted c = true -> exhausted (consume f c) = true.
Proof.
  unfold exhausted. intros Hc. destruct f; cbn;
    repeat match goal with
      | H : (_ || _) = true |- _ => apply orb_true_iff in H as [H|H]
      | H : Z.ltb _ _ = true |- _ => apply Z.ltb_lt in H
      end; rewrite ?orb_true_iff, ?Z.ltb_lt; lia.
Qed.

Lemma exhausted_consume_all fs c : exhausted c = true -> exhausted (consume_all fs c) = true.
Proof.
  revert c. induction fs as [|f fs IH]; intros c Hc; [done|]. cbn. by apply IH, exhausted_consume.
Qed.

Lemma consume_all_total fs c :
  c_total (consume_all fs c) = (c_total c - Z.of_nat (List.length fs))%Z.
Proof.
  revert c. induction fs as [|f fs IH]; intros c; cbn [consume_all fold_left List.length].
  - lia.
  - change (fold_left _ fs (consume f c)) with (consume_all fs (consume f c)).
    rewrite IH, consume_total. lia.
Qed.

(** ** Traces *)

Lemma trace_from_S rt req n k :
  trace_from rt req n (S k) = Try req :: Backoff (delay rt n) :: trace_from rt req (S n) k.
Proof. reflexivity. Qed.

Lemma tries_trace_from rt req n k : tries (trace_from rt req n k) = S k.
Proof. revert n. induction k as [|k IH]; intros n; [done|]. rewrite trace_from_S. exact (f_equal S (IH (S n))). Qed.

Lemma inject_Z_2pow_S n : inject_Z (2 ^ Z.of_nat (S n)) == 2 * inject_Z (2 ^ Z.of_nat n).
Proof. rewrite Nat2Z.inj_succ, Z.pow_succ_r by lia. by rewrite inject_Z_mult. Qed.

Lemma total_sleep_trace_from rt req n k :
  total_sleep (trace_from rt req n k)
  == backoff_factor rt * (inject_Z (2 ^ Z.of_nat (n + k)) - inject_Z (2 ^ Z.of_nat n)).
Proof.
  revert n. induction k as [|k IH]; intros n.
  - rewrite Nat.add_0_r. cbn. ring.
  - rewrite trace_from_S. cbn [total_sleep fold_right].
    change (fold_right _ 0 (trace_from rt req (S n) k)) with (total_sleep (trace_from rt req (S n) k)).
    rewrite IH, Nat.add_succ_r, <- Nat.add_succ_l, inject_Z_2pow_S. unfold delay. ring.
Qed.

#[export] Hint Rewrite trace_from_S tries_trace_from consume_total : gw_rw.

Section Runs.
Context `{Backend W}.

Lemma attempt_run req w tr :
  attempt req (w, tr) = ((backend_call w req).1, (tr ++ [Try req])%list, Ret (backend_call w req).2).
Proof. unfold attempt. by destruct (backend_call w req). Qed.

(** The shape of every run of the loop: with more fuel than the total
    counter, it finishes, after [k] retries no more than the counter. *)
Lemma retry_loop_shape rt req fuel c n w tr :
  (Z.to_nat (c_total c) < fuel)%nat ->
  let '((w', tr'), o) := retry_loop fuel rt req c n (w, tr) in
  o <> OutOfFuel /\
  exists k, (k <= Z.to_nat (c_total c))%nat /\ tr' = (tr ++ trace_from rt req n k)%list.
Proof.
  revert c n w tr. induction fuel as [|fuel IH]; intros c n w tr Hf; [lia|].
  cbn [retry_loop]. erewrite st_bind_step by apply attempt_run. cbv iota beta.
  set (w1 := (backend_call w req).1). set (a := (backend_call w req).2).
  destruct (classify rt req a) as [a'|f].
  - destruct a'; cbn [st_lift st_raise st_ret];
      (split; [done|]); exists 0%nat; (split; [lia | reflexivity]).
  - destruct (exhausted (consume f c)) eqn:X.
    + destruct (surface f); cbn [st_lift st_raise st_ret];
        (split; [done|]); exists 0%nat; (split; [lia | reflexivity]).
    + pose proof (not_exhausted _ X) as Hc. rewrite consume_total in Hc.
      unfold st_bind at 1; cbn [backoff].
      specialize (IH (consume f c) (S n) w1 ((tr ++ [Try req]) ++ [Backoff (delay rt n)])%list).
      rewrite consume_total in IH.
      destruct (retry_loop fuel rt req (consume f c) (S n) _) as [[w' tr'] o].
      destruct IH as [Ho [k [Hk ->]]]; [lia|].
      split; [done|]. exists (S k). split; [lia|].
      rewrite trace_from_S, <- !app_assoc. reflexivity.
Qed.
End Runs.

Section Script.
#[local] Existing Instance script_backend.

(** A run through failures the counters absorb: each is attempted, waited
    for, and the loop continues with the counters and wait index moved on. *)
Lemma retry_loop_through rt req fs fuel c n rest tr :
  Forall (retryable rt req) fs -> exhausted (consume_all fs c) = false ->
  (List.length fs < fuel)%nat ->
  retry_loop fuel rt req c n ((map surface fs ++ rest)%list, tr)
  = retry_loop (fuel - List.length fs) rt req (consume_all fs c) (n + List.length fs)
      (rest, (tr ++ List.concat (map (fun i => [Try req; Backoff (delay rt i)])
                                     (seq n (List.length fs))))%list).
Proof.
  revert fuel c n tr. induction fs as [|f fs IH]; intros fuel c n tr Hfs Hx Hf.
  - cbn. by rewrite Nat.sub_0_r, Nat.add_0_r, app_nil_r.
  - inversion Hfs as [|? ? Hr Hrest]; subst. destruct fuel as [|fuel]; [cbn in Hf; lia|].
    cbn [retry_loop]. erewrite st_bind_step by apply attempt_run. cbv iota beta. cbn [fst snd].
    unfold retryable in Hr. cbn [map List.app backend_call script_backend]. cbn [fst snd]. rewrite Hr.
    destruct (exhausted (consume f c)) eqn:X.
    { change (consume_all (f :: fs) c) with (consume_all fs (consume f c)) in Hx. by rewrite (exhausted_consume_all fs _ X) in Hx. }
    unfold st_bind at 1; cbn [backoff]. rewrite IH by (done || cbn in Hf; lia).
    cbn [List.length seq map List.concat]. rewrite <- !app_assoc, Nat.add_succ_r. reflexivity.
Qed.

Lemma through_fuel rt fs :
  exhausted (consume_all fs (init_counters rt)) = false ->
  (List.length fs < S (Z.to_nat (total_limit (total rt))))%nat.
Proof.
  intros Hx. apply not_exhausted in Hx. rewrite consume_all_total in Hx. cbn in Hx. lia.
Qed.

Lemma retry_send_through rt req fs rest :
  Forall (retryable rt req) fs -> exhausted (consume_all fs (init_counters rt)) = false ->
  exists fuel,
  retry_send rt req ((map surface fs ++ rest)%list, [])
  = retry_loop (S fuel) rt req (consume_all fs (init_counters rt)) (List.length fs)
      (rest, List.concat (map (fun i => [Try req; Backoff (delay rt i)]) (seq 0 (List.length fs)))).
Proof.
  intros Hfs Hx. pose proof (through_fuel rt fs Hx) as Hf.
  exists (Z.to_nat (total_limit (total rt)) - List.length fs)%nat. unfold retry_send.
  rewrite retry_loop_through by done. f_equal. lia.
Qed.
(** The loop runs the policy: [k] retries end where the relation says. *)
Lemma retry_loop_policy rt req c answers res k :
  policy_outcome rt req c answers res k ->
  forall fuel n tr, (k < fuel)%nat ->
  retry_loop fuel rt req c n (answers, tr)
  = st_lift res (drop (S k) answers, (tr ++ trace_from rt req n k)%list).
Proof.
  induction 1 as [c a rest Ha|c a f rest Ha Hx|c a f rest res k Ha Hx _ IH];
    intros [|fuel] n tr Hk; try lia;
    cbn [retry_loop]; erewrite st_bind_step by apply attempt_run; cbn; rewrite Ha; try done.
  - by rewrite Hx.
  - rewrite Hx. unfold st_bind at 1; cbn [backoff]. rewrite IH by lia.
    by rewrite <- !app_assoc.
Qed.

Lemma policy_outcome_retries rt req c answers res k :
  policy_outcome rt req c answers res k -> (k <= Z.to_nat (c_total c))%nat.
Proof.
  induction 1 as [| |c a f rest res k _ Hx _ IH]; [lia|lia|].
  apply not_exhausted in Hx as [Ht _]. rewrite consume_total in IH, Ht. lia.
Qed.

End Script.

(** ** The policy's guarantees *)

(** C17. Termination and the bound on attempts: whatever the network
    answers, an exchange under any policy finishes (the fuel [total + 1]
    given to the loop is never exhausted), its attempts and waits
    alternate, and it retries at most [total] times, so it makes at most
    [total + 1] attempts. *)
Theorem retry_send_terminates `{Backend W} rt req w :
  let '((w', tr), o) := retry_send rt req (w, []) in
  o <> OutOfFuel /\
  exists k, (k <= Z.to_nat (total_limit (total rt)))%nat /\ tr = retry_trace rt req k.
Proof.
  unfold retry_send. pose proof (retry_loop_shape rt req (S (Z.to_nat (total_limit (total rt))))
                                  (init_counters rt) 0 w []) as Hs.
  destruct (retry_loop _ _ _ _ _ _) as [[w' tr] o]. apply Hs. cbn. lia.
Qed.

(** C19. Recovery: when the network fails with failures the counters absorb
    (each retryable, no counter driven below zero) and then gives a final
    answer, the exchange returns that answer, after one attempt per
    failure and the waits [backoff_factor * 2 ^ i] between them. *)
Theorem retry_send_recovers rt req fs a rest :
  Forall (retryable rt req) fs -> exhausted (consume_all fs (init_counters rt)) = false ->
  classify rt req a = Final a ->
  @retry_send _ script_backend rt req ((map surface fs ++ a :: rest)%list, [])
  = st_lift a (rest, retry_trace rt req (List.length fs)).
Proof.
  intros Hfs Hx Ha. destruct (retry_send_through rt req fs (a :: rest) Hfs Hx) as [fuel ->].
  cbn [retry_loop]. erewrite st_bind_step by apply attempt_run. cbn. rewrite Ha.
  reflexivity.
Qed.

(** C20. Giving up: when the network fails with absorbed failures and then
    with one that drives a counter below zero, the exchange surfaces that
    last failure (the exception, or the last forced response) after one
    attempt per failure, and never reads the answers that follow. *)
Theorem retry_send_gives_up rt req fs f rest :
  Forall (retryable rt req) fs -> retryable rt req f ->
  exhausted (consume_all fs (init_counters rt)) = false ->
  exhausted (consume f (consume_all fs (init_counters rt))) = true ->
  @retry_send _ script_backend rt req ((map surface fs ++ surface f :: rest)%list, [])
  = st_lift (surface f) (rest, retry_trace rt req (List.length fs)).
Proof.
  intros Hfs Hf Hx Hy. destruct (retry_send_through rt req fs (surface f :: rest) Hfs Hx) as [fuel ->].
  cbn [retry_loop]. erewrite st_bind_step by apply attempt_run. cbn. rewrite Hf, Hy.
  reflexivity.
Qed.



(** C22. With the defaults of [src/main.py], whatever the network does, an
    exchange makes at most six attempts and sleeps at most
    [0.5 * (1 + 2 + 4 + 8 + 16) = 15.5] seconds in total. *)
Theorem default_sleep_bound `{Backend W} req w :
  let '((w', tr), o) := adapter_send default_adapter req (w, []) in
  (total_sleep tr <= 31 # 2)%Q /\ (tries tr <= 6)%nat.
Proof.
  unfold adapter_send, retry_send.
  pose proof (retry_loop_shape (max_retries default_adapter) req 6
                (init_counters (max_retries default_adapter)) 0 w []) as Hs.
  destruct (retry_loop _ _ _ _ _ _) as [[w' tr] o].
  destruct Hs as [_ [k [Hk ->]]]; [vm_compute; lia|]. vm_compute in Hk. rewrite app_nil_l.
  rewrite tries_trace_from, total_sleep_trace_from. split; [|lia].
  do 6 (destruct k as [|k]; [vm_compute; discriminate|]). lia.
Qed.


(** C18. Refinement of the policy: against a network answering [answers]
    in order, whenever the policy of §4.1 ends with [res] after [k]
    retries, the transport returns (or raises) [res], has used the first
    [k + 1] answers, and has alternated [k + 1] attempts with the [k]
    waits [backoff_factor * 2 ^ i]. *)
Theorem retry_send_refines rt req answers res k :
  policy_outcome rt req (init_counters rt) answers res k ->
  @retry_send _ script_backend rt req (answers, [])
  = st_lift res (drop (S k) answers, retry_trace rt req k).
Proof.
  intros Hp. unfold retry_send. rewrite (retry_loop_policy _ _ _ _ _ _ Hp); [done|].
  apply policy_outcome_retries in Hp. cbn in Hp. lia.
Qed.

(** [YandexApiGateway.__init__] calls [HTTPAdapter.__init__] without
    [max_retries] (line 34), so the [super().send] of its [send] runs
    under [Retry(0, read=False)]: exactly one attempt, whose answer, a
    response of any status or an exception, is returned as it is.  This is
    the single network call [Gateway.send] is written with. *)
Lemma base_retry_single_attempt `{Backend W} req w tr :
  retry_send base_retry req (w, tr)
  = st_lift (backend_call w req).2 ((backend_call w req).1, (tr ++ [Try req])%list).
Proof.
  unfold retry_send. cbn [total_limit total base_retry Z.to_nat retry_loop].
  erewrite st_bind_step by apply attempt_run. cbv iota beta.
  destruct (backend_call w req).2 as [[]|resp]; cbn; try reflexivity.
  by destruct (_ || _).
Qed.

Lemma retry_send_recovers_witness :
  @retry_send _ script_backend (max_retries default_adapter) probe
     ((map surface (repeat unavailable 5) ++ ok_200 :: [])%list, [])
  = st_lift ok_200 ([], retry_trace (max_retries default_adapter) probe 5).
Proof.
  apply (retry_send_recovers (max_retries default_adapter) probe (repeat unavailable 5) ok_200 []);
    [repeat constructor | reflexivity | reflexivity].
Defined.

Lemma retry_send_gives_up_witness :
  @retry_send _ script_backend (max_retries default_adapter) probe
     ((map surface (repeat FConnect 3) ++ surface FConnect :: [ok_200])%list, [])
  = st_lift (surface FConnect) ([ok_200], retry_trace (max_retries default_adapter) probe 3).
Proof.
  apply (retry_send_gives_up (max_retries default_adapter) probe (repeat FConnect 3) FConnect [ok_200]);
    [repeat constructor | reflexivity | reflexivity | reflexivity].
Defined.

Lemma retry_send_refines_witness :
  @retry_send _ script_backend (max_retries default_adapter) probe
     ([surface unavailable; inl ConnectionError; ok_200; ok_200], [])
  = st_lift ok_200 ([ok_200], retry_trace (max_retries default_adapter) probe 2).
Proof.
  change [ok_200] with (drop 3 [surface unavailable; inl ConnectionError; ok_200; ok_200]).
  apply (retry_send_refines _ _ _ ok_200 2).
  apply po_retry with unavailable; [reflexivity | reflexivity |].
  apply po_retry with FConnect; [reflexivity | reflexivity |].
  apply po_final. reflexivity.
Defined.

End Retry.
