(* ===== verification/Lifecycle.v ===== *)
(** * Invariants of the manager over its whole life

    [Gateway.v] gives one theorem per method and per network behaviour.
    This file looks at a manager across any sequence of method calls
    ([init_gateway], [shutdown_gateway], [send], and [request] and
    [get_api_gateways] called directly) interleaved with any
    change of the network made by other clients, as a step relation
    [mstep] on machines and its reflexive-transitive closure.  A property
    of the instance a method keeps is a [keeps R] fact, proved for every
    method once from the way the methods are composed (binds, attribute
    assignments, calls) with the hint database [keeps]; the invariants
    over reachable machines then follow by rule induction.  The spec's
    lifecycle (§4.2) only moves forward, to a deletion of the gateway the
    manager holds; the last theorem shows that, for any network, an
    active manager whose second [init_gateway] has its creation refused
    forgets the id of the gateway it held. *)

From stdpp Require Import base list relations.
From Stdlib Require Import ZArith String Ascii Lia.
From S2P Require Import Prelude PyValue Url Http Gateway.

Open Scope string_scope.

Module Lifecycle.
Import Py Url Http Gateway.

Local Open Scope gw_scope.

(** [m] keeps [R]: from any machine, whatever the network answers and
    however the run ends (a value, an exception, a run out of fuel), the
    instance after it is related to the instance before. *)
Definition keeps {W A} (R : relation gateway) (m : M W A) : Prop :=
  forall s, R (m_gw s) (m_gw (m s).1).

(** The attributes a run of the manager never assigns. *)
Definition same_config (g g' : gateway) : Prop :=
  service_url g' = service_url g /\ iam_token g' = iam_token g /\
  folder_id g' = folder_id g /\ base_url g' = base_url g /\
  host g' = host g /\ gateway_name g' = gateway_name g.

(** [gateway_url] is [None] or an [https://] URL. *)
Definition url_ok (g : gateway) : Prop :=
  gateway_url g = PyNone \/ exists d, gateway_url g = PyStr ("https://" ++ d).

Definition active_stays (g g' : gateway) : Prop :=
  gateway_is_active g = true -> gateway_is_active g' = true.

Definition url_stays (g g' : gateway) : Prop := url_ok g -> url_ok g'.

#[export] Instance same_config_preorder : PreOrder same_config.
Proof.
  split; [intros g; repeat split|].
  intros g1 g2 g3 (?&?&?&?&?&?) (?&?&?&?&?&?). repeat split; congruence.
Qed.

#[export] Instance active_stays_preorder : PreOrder active_stays.
Proof. split; [by intros g ?|]. intros g1 g2 g3 H12 H23 ?. auto. Qed.

#[export] Instance url_stays_preorder : PreOrder url_stays.
Proof. split; [by intros g ?|]. intros g1 g2 g3 H12 H23 ?. auto. Qed.

(** One step of a manager's life: a call of one of its methods
    ([init_gateway], [shutdown_gateway], [send], and [request] or
    [get_api_gateways] called directly), or the network changed by
    someone else. *)
Inductive mstep {W} `{Backend W} : relation (machine W) :=
| step_init fuel m : mstep m (init_gateway fuel m).1
| step_shutdown m : mstep m (shutdown_gateway m).1
| step_send r m : mstep m (send r m).1
| step_request mth u h b m : mstep m (request mth u h b m).1
| step_get_api_gateways v m : mstep m (get_api_gateways v m).1
| step_world w m : mstep m (mk_machine (m_gw m) w (m_trace m)).

(** The machines a manager built by [YandexApiGateway(t, f, b)] can be in. *)
Definition reachable {W} `{Backend W} (t f b : string) (m : machine W) : Prop :=
  exists g w, new_gateway t f b = inr g /\ rtc mstep (mk_machine g w []) m.

(** ** A run in which the manager forgets its gateway *)

Definition leak_gw : gateway :=
  mk_gateway SERVICE_URL "t0ken" "b1gfolder" "https://api.example.com" "api.example.com"
    "api-example-com-proxy" PyNone PyNone false.

Definition operation_json : pyval :=
  PyDict [("metadata", PyDict [("apiGatewayId", PyStr "d5d1")])].

Definition active_gw_json : pyval :=
  PyDict [("id", PyStr "d5d1"); ("status", PyStr "ACTIVE"); ("domain", PyStr "d5d1.apigw.yandexcloud.net")].

Definition server_error : py_exc + response := inr (mk_response 500 None "").

(** The first [open()]: an empty folder, the creation, an active poll;
    the second: the listing and the creation fail with 500, and the
    poll, with no id, lists the folder. *)
Definition leak_script : list (py_exc + response) :=
  [ok_json (PyDict []); ok_json operation_json; ok_json active_gw_json;
   server_error; server_error; ok_json (PyDict [("apiGateways", PyList [active_gw_json])])].

Section Keeps.
Context {W : Type} `{Backend W}.
Context (R : relation gateway) `{!PreOrder R}.

Lemma keeps_ret {A} (a : A) : keeps (W:=W) R (st_ret a).
Proof. intros s. reflexivity. Qed.

Lemma keeps_raise {A} e : keeps (W:=W) (A:=A) R (st_raise e).
Proof. intros s. reflexivity. Qed.

Lemma keeps_diverge {A} : keeps (W:=W) (A:=A) R st_diverge.
Proof. intros s. reflexivity. Qed.

Lemma keeps_lift {A} (x : py_exc + A) : keeps (W:=W) R (st_lift x).
Proof. destruct x; intros s; reflexivity. Qed.

Lemma keeps_get : keeps (W:=W) R get_gw.
Proof. intros s. reflexivity. Qed.

Lemma keeps_http r : keeps (W:=W) R (http_call r).
Proof. intros s. unfold http_call. destruct (backend_call _ _). reflexivity. Qed.

Lemma keeps_sleep ms : keeps (W:=W) R (sleep ms).
Proof. intros s. reflexivity. Qed.

Lemma keeps_update f : (forall g, R g (f g)) -> keeps (W:=W) R (update_gw f).
Proof. intros Hf s. apply Hf. Qed.

Lemma keeps_bind {A B} (m : M W A) (k : A -> M W B) :
  keeps R m -> (forall a, keeps R (k a)) -> keeps R (st_bind m k).
Proof.
  intros Hm Hk s. unfold st_bind. specialize (Hm s).
  destruct (m s) as [s' [a| |]]; cbn in *; [etrans; [exact Hm | apply Hk] | done | done].
Qed.

Lemma keeps_try {A B} (m : M W A) (k : py_exc + A -> M W B) :
  keeps R m -> (forall r, keeps R (k r)) -> keeps R (st_try m k).
Proof.
  intros Hm Hk s. unfold st_try. specialize (Hm s).
  destruct (m s) as [s' [a|e|]]; cbn in *; [etrans; [exact Hm | apply Hk] .. | done].
Qed.
End Keeps.

Create HintDb keeps discriminated.
#[export] Hint Resolve keeps_ret keeps_raise keeps_diverge keeps_lift keeps_get
  keeps_http keeps_sleep : keeps.

(** Take a method apart into the steps [keeps] lemmas cover. *)
Ltac keeps_step :=
  match goal with
  | |- keeps _ (st_bind _ _) => apply keeps_bind; [typeclasses eauto | | intros ?]
  | |- keeps _ (st_try _ _) => apply keeps_try; [typeclasses eauto | | intros ?]
  | |- keeps _ (update_gw _) => apply keeps_update; intros ?
  | |- keeps _ (if ?b then _ else _) => destruct b
  | |- keeps _ (match ?x with _ => _ end) => destruct x
  end.

Ltac solve_keeps := repeat (keeps_step || eauto with keeps typeclass_instances).

Section Methods.
Context {W : Type} `{Backend W}.
Context (R : relation gateway) `{!PreOrder R}.
Hypothesis set_id_R : forall v g, R g (set_gateway_id v g).
Hypothesis set_url_R : forall d g, R g (set_gateway_url (PyStr ("https://" ++ d)) g).
Hypothesis set_active_R : forall g, R g (set_gateway_is_active true g).
#[local] Hint Resolve set_id_R set_url_R set_active_R : keeps.

Lemma keeps_request mth u h b : keeps (W:=W) R (request mth u h b).
Proof. unfold request. solve_keeps. Qed.
#[local] Hint Resolve keeps_request : keeps.

Lemma keeps_get_api_gateways v : keeps (W:=W) R (get_api_gateways v).
Proof. unfold get_api_gateways. solve_keeps. Qed.
#[local] Hint Resolve keeps_get_api_gateways : keeps.

Lemma keeps_find_gateway gws : keeps (W:=W) R (find_gateway gws).
Proof. induction gws as [|gw gws IH]; cbn [find_gateway]; solve_keeps. Qed.
#[local] Hint Resolve keeps_find_gateway : keeps.

Lemma keeps_poll fuel : keeps (W:=W) R (poll fuel).
Proof. induction fuel as [|fuel IH]; cbn [poll]; solve_keeps. Qed.
#[local] Hint Resolve keeps_poll : keeps.

Lemma keeps_init_gateway fuel : keeps (W:=W) R (init_gateway fuel).
Proof. unfold init_gateway, create_gateway. solve_keeps. Qed.

Lemma keeps_shutdown_gateway : keeps (W:=W) R shutdown_gateway.
Proof. unfold shutdown_gateway. solve_keeps. Qed.

Lemma keeps_send r : keeps (W:=W) R (send r).
Proof. unfold send. solve_keeps. Qed.

(** Every step of a manager's life keeps [R]. *)
Lemma mstep_keeps m m' : mstep m m' -> R (m_gw m) (m_gw m').
Proof.
  destruct 1.
  - apply keeps_init_gateway.
  - apply keeps_shutdown_gateway.
  - apply keeps_send.
  - apply keeps_request.
  - apply keeps_get_api_gateways.
  - reflexivity.
Qed.

Lemma rtc_mstep_keeps m m' : rtc mstep m m' -> R (m_gw m) (m_gw m').
Proof.
  induction 1 as [|m1 m2 m3 H12 _ IH]; [reflexivity|].
  etrans; [apply mstep_keeps, H12 | exact IH].
Qed.
End Methods.

Lemma new_gateway_fresh t f b g :
  new_gateway t f b = inr g ->
  gateway_id g = PyNone /\ gateway_url g = PyNone /\ gateway_is_active g = false.
Proof. unfold new_gateway. destruct (host_of _); cbn; by intros [= <-]. Qed.

(** ** Invariants of every reachable machine *)

(** C12. The configuration [__init__] computes is never changed: in every
    machine a manager can reach (any calls, in any order, whatever the
    network does, a call that raised or is still polling included), the
    service URL, token, folder, base URL, host and gateway name are those
    of the constructor, and [gateway_url] is [None] or an [https://] URL. *)
Theorem reachable_config `{Backend W} t f b m :
  reachable t f b m ->
  exists g0, new_gateway t f b = inr g0 /\ same_config g0 (m_gw m) /\ url_ok (m_gw m).
Proof.
  intros (g & w & Hg & Hr). exists g. split; [done|]. split.
  - apply (rtc_mstep_keeps same_config) in Hr; [exact Hr | by intros [] ..].
  - apply (rtc_mstep_keeps url_stays) in Hr; cbn in Hr.
    + apply Hr. left. apply (new_gateway_fresh _ _ _ _ Hg).
    + intros v [] ?; done.
    + intros d [] ?; right; by exists d.
    + intros [] ?; done.
Qed.

(** C13. Once active, always active: no call and no change of the network
    ever sets [gateway_is_active] back to [False], not even a later
    [init_gateway] or [shutdown_gateway]. *)
Theorem active_forever `{Backend W} m m' :
  rtc mstep m m' -> gateway_is_active (m_gw m) = true -> gateway_is_active (m_gw m') = true.
Proof.
  intros Hr Ha. apply (rtc_mstep_keeps active_stays) in Hr; [exact (Hr Ha) | intros *; unfold active_stays; cbn; auto ..].
Qed.

(** C11. An active manager can forget the gateway it holds: when
    [init_gateway] is called again on an active instance with an id, and
    the listing does not show its gateway (a failed listing reads as an
    empty folder) while the creation is refused (status of 400 or more),
    the refused creation sets [gateway_id] to [None]; the poll then lists
    the folder and raises [AttributeError], the instance still reads as
    active, and [shutdown_gateway] no longer deletes anything: the
    gateway held before is left behind. *)
Theorem reopen_forgets_gateway `{Backend W} fuel g w tr w1 r1 gws w2 resp w3 r3 xs :
  gateway_is_active g = true -> truthy (gateway_id g) = true ->
  backend_call w (list_request g) = (w1, r1) ->
  sum_bind (listing_value r1) iter = inr gws -> Forall (name_differs g) gws ->
  backend_call w1 (create_request g (spec_of g)) = (w2, inr resp) -> (400 <= rs_status resp)%Z ->
  backend_call w2 (list_request g) = (w3, r3) -> listing_value r3 = inr (PyList xs) ->
  let r := init_gateway (S fuel) (mk_machine g w tr) in
  r.2 = Exc (AttributeError "'list' object has no attribute 'get'") /\
  gateway_id (m_gw r.1) = PyNone /\ gateway_is_active (m_gw r.1) = true /\
  shutdown_gateway r.1 = (r.1, Ret (PyDict [])).
Proof.
  intros Ha _ Hl Hg Hd Hc Hs Hl3 Hx r. unfold r.
  rewrite (failed_creation_run fuel g w tr w1 r1 gws w2 resp w3 r3 xs Hl Hg Hd Hc Hs Hl3 Hx).
  cbn [fst snd m_gw gateway_id gateway_is_active set_gateway_id]. split; [done|]. split; [done|].
  split; [exact Ha|]. reflexivity.
Qed.

Lemma reachable_config_witness :
  exists g0, new_gateway "t0ken" "b1gfolder" "api.example.com" = inr g0 /\
    same_config g0 (m_gw (@init_gateway _ script_backend 3 (mk_machine leak_gw leak_script [])).1) /\
    url_ok (m_gw (@init_gateway _ script_backend 3 (mk_machine leak_gw leak_script [])).1).
Proof.
  apply (@reachable_config _ script_backend).
  exists leak_gw, leak_script. split; [reflexivity|]. apply rtc_once. constructor.
Defined.

Lemma active_forever_witness :
  gateway_is_active (m_gw (@init_gateway _ script_backend 3
    (@init_gateway _ script_backend 3 (mk_machine leak_gw leak_script [])).1).1) = true.
Proof.
  apply (@active_forever _ script_backend
           (@init_gateway _ script_backend 3 (mk_machine leak_gw leak_script [])).1).
  - apply rtc_once. constructor.
  - vm_compute. reflexivity.
Defined.

Lemma reopen_forgets_gateway_witness :
  let r := @init_gateway _ script_backend 3
             (mk_machine active_gw [server_error; server_error;
                                    ok_json (PyDict [("apiGateways", PyList [])])] []) in
  r.2 = Exc (AttributeError "'list' object has no attribute 'get'") /\
  gateway_id (m_gw r.1) = PyNone /\ gateway_is_active (m_gw r.1) = true /\
  @shutdown_gateway _ script_backend r.1 = (r.1, Ret (PyDict [])).
Proof.
  apply (@reopen_forgets_gateway _ script_backend 2 active_gw
           [server_error; server_error; ok_json (PyDict [("apiGateways", PyList [])])] []
           [server_error; ok_json (PyDict [("apiGateways", PyList [])])] server_error []
           [ok_json (PyDict [("apiGateways", PyList [])])] (mk_response 500 None "") [] (ok_json (PyDict [("apiGateways", PyList [])])) []);
    (reflexivity || constructor || (cbn; lia)).
Defined.

End Lifecycle.
