(* ===== verification/Fuel.v ===== *)
(** * The fuel of the model is only a bound

    The [while True] poll of [init_gateway] (lines 106-112 of
    [src/src/api-gateway-proxy.py]) has no bound, so [poll], [init_gateway]
    and [with_gateway] take fuel and end in [OutOfFuel] when it runs out.
    This file shows that the fuel changes nothing else: a run is
    monotone in its fuel for the order [<<=] on finished runs (a run out
    of fuel is below every run, a finished run only below itself), so a
    run that finishes with some fuel finishes the same way, in the same
    state and with the same trace, with any larger fuel.  The order, its
    compatibility with the monad's combinators and the hint database
    [lessdef] follow the bounded interpreter of the compilation course
    ([cinterp_mono]); the methods are then monotone by their structure. *)

From stdpp Require Import base list.
From Stdlib Require Import ZArith String Ascii Lia.
From S2P Require Import Prelude PyValue Url Http Gateway.

Open Scope string_scope.

Module Fuel.
Import Py Url Http Gateway.

Local Open Scope gw_scope.

(** A run below another: out of fuel, or the same finished run. *)
Inductive lessdef {S E A} : S * outcome E A -> S * outcome E A -> Prop :=
| lessdef_oof s r : lessdef (s, OutOfFuel) r
| lessdef_refl r : lessdef r r.

Declare Scope fuel_scope.
Notation "x <<= y" := (lessdef x y) (at level 70, no associativity) : fuel_scope.
Local Open Scope fuel_scope.

(** A computation below another, from every state. *)
Definition mono {S E A} (m m' : st S E A) : Prop := forall s, m s <<= m' s.

Section Mono.
Context {S E : Type}.

Lemma mono_refl {A} (m : st S E A) : mono m m.
Proof. intros s. apply lessdef_refl. Qed.

Lemma mono_diverge {A} (m : st S E A) : mono st_diverge m.
Proof. intros s. apply lessdef_oof. Qed.

Lemma mono_bind {A B} (m m' : st S E A) (k k' : A -> st S E B) :
  mono m m' -> (forall a, mono (k a) (k' a)) -> mono (st_bind m k) (st_bind m' k').
Proof.
  intros Hm Hk s. unfold st_bind. destruct (Hm s) as [s' r|[s' []]].
  - apply lessdef_oof.
  - apply Hk.
  - apply lessdef_refl.
  - apply lessdef_refl.
Qed.

Lemma mono_try {A B} (m m' : st S E A) (k k' : E + A -> st S E B) :
  mono m m' -> (forall r, mono (k r) (k' r)) -> mono (st_try m k) (st_try m' k').
Proof.
  intros Hm Hk s. unfold st_try. destruct (Hm s) as [s' r|[s' []]].
  - apply lessdef_oof.
  - apply Hk.
  - apply Hk.
  - apply lessdef_refl.
Qed.

(** Below a finished run is only that run. *)
Lemma lessdef_finished {A} (r r' : S * outcome E A) :
  r <<= r' -> r.2 <> OutOfFuel -> r' = r.
Proof. by destruct 1. Qed.
End Mono.

Create HintDb lessdef discriminated.
#[export] Hint Resolve mono_refl mono_diverge : lessdef.

(** Take two runs of the same method apart, step by step. *)
Ltac mono_step :=
  match goal with
  | |- mono (st_bind _ _) (st_bind _ _) => apply mono_bind; [|intros ?]
  | |- mono (st_try _ _) (st_try _ _) => apply mono_try; [|intros ?]
  | |- mono (if ?b then _ else _) (if ?b then _ else _) => destruct b
  | |- mono (match ?x with _ => _ end) (match ?x with _ => _ end) => destruct x
  end.

Ltac solve_mono := repeat (mono_step || eauto with lessdef).

Section Methods.
Context {W : Type} `{Backend W}.

Lemma poll_mono i j : i <= j -> mono (poll (W:=W) i) (poll j).
Proof.
  revert j. induction i as [|i IH]; intros j Hij; [apply mono_diverge|].
  destruct j as [|j]; [lia|]. cbn [poll].
  assert (Hr : mono (poll (W:=W) i) (poll j)) by (apply IH; lia).
  solve_mono.
Qed.

Lemma init_gateway_mono i j : i <= j -> mono (init_gateway (W:=W) i) (init_gateway j).
Proof.
  intros Hij. pose proof (poll_mono i j Hij).
  unfold init_gateway, create_gateway. solve_mono.
Qed.

Lemma with_gateway_mono {A} i j (body : M W A) :
  i <= j -> mono (with_gateway i body) (with_gateway j body).
Proof.
  intros Hij. pose proof (init_gateway_mono i j Hij). unfold with_gateway. solve_mono.
Qed.
End Methods.

(** Model adequacy: the fuel bounds the poll and nothing else: a call of
    [init_gateway] that finishes with some fuel (with the gateway or an
    exception) finishes with every larger fuel in the same machine, the
    same world, the same trace and the same outcome. *)
Lemma init_gateway_fuel_irrelevant {W} `{Backend W} i j (m : machine W) :
  i <= j -> (init_gateway i m).2 <> OutOfFuel -> init_gateway j m = init_gateway i m.
Proof. intros Hij. apply lessdef_finished, init_gateway_mono, Hij. Qed.

End Fuel.
