(* ===== verification/Protocol.v ===== *)
(** * The requests [init_gateway] sends, in order

    Whatever the network answers, and however the run ends (the gateway
    returned, an exception, the fuel spent in the poll), [init_gateway]
    (lines 88-114 of [src/src/api-gateway-proxy.py]) talks to the control
    plane in one order: the listing of the folder (line 89); then, only
    when no listed gateway has its name, one creation (line 103); then
    poll iterations (lines 106-112), each a sleep followed by the request
    for the id the creation answered.  The shape of a run's trace is
    [open_trace]; [poll_shape], [create_gateway_shape] and
    [find_gateway_frame] give the shape of each part, following the
    trace-shape induction of execution traces. *)

From stdpp Require Import base list.
From Stdlib Require Import ZArith String Ascii Lia.
From S2P Require Import Prelude PyValue Url Http Gateway.

Open Scope string_scope.

Module Protocol.
Import Py Url Http Gateway.

Local Open Scope gw_scope.




(** Case on a lifted [py_exc + A]: the error ends the run, the value
    [a] goes on. *)
Tactic Notation "lift_case" constr(x) ident(a) :=
  let e := fresh "e" in
  destruct x as [e|a]; rewrite ?st_bind_lift_inl, ?st_bind_lift_inr in *.

Section Shapes.
Context {W : Type} `{Backend W}.
Implicit Types (m : machine W) (w : W).



End Shapes.


(** C33. Closing after an [open()] that failed once the gateway was
    created is not a no-op: when the first poll of a created gateway
    raises (here the network error [e] of [get_api_gateways]),
    [init_gateway] raises [e] with the new id kept, after the listing,
    the creation, one sleep and one poll; and the [shutdown_gateway] run
    on that outcome (a [try]/[except] around [open()] that closes) sends
    the DELETE for the new id, whose answer it returns. *)
Theorem failed_open_close_deletes `{Backend W} fuel g w tr w1 r1 gws w2 r2 gid w3 e w4 r4 :
  backend_call w (list_request g) = (w1, r1) ->
  sum_bind (listing_value r1) iter = inr gws ->
  Forall (name_differs g) gws ->
  backend_call w1 (create_request g (spec_of g)) = (w2, r2) ->
  creation_id r2 = inr gid -> truthy gid = true ->
  backend_call w2 (poll_request (set_gateway_id gid g)) = (w3, inl e) ->
  backend_call w3 (delete_request (set_gateway_id gid g)) = (w4, r4) ->
  init_gateway (S fuel) (mk_machine g w tr) =
    (mk_machine (set_gateway_id gid g) w3
       (tr ++ [EvHttp (list_request g); EvHttp (create_request g (spec_of g));
               EvSleep 500; EvHttp (poll_request (set_gateway_id gid g))]), Exc e) /\
  st_try (init_gateway (S fuel)) (fun _ => shutdown_gateway) (mk_machine g w tr) =
    (mk_machine (set_gateway_id gid g) w4
       (tr ++ [EvHttp (list_request g); EvHttp (create_request g (spec_of g));
               EvSleep 500; EvHttp (poll_request (set_gateway_id gid g));
               EvHttp (delete_request (set_gateway_id gid g))]),
     of_sum (sum_bind r4 response_value)).
Proof.
  intros Hl Hg Hd Hc Hid Ht Hp Hdel.
  assert (Hi : init_gateway (S fuel) (mk_machine g w tr) =
    (mk_machine (set_gateway_id gid g) w3
       (tr ++ [EvHttp (list_request g); EvHttp (create_request g (spec_of g));
               EvSleep 500; EvHttp (poll_request (set_gateway_id gid g))]), Exc e)).
  { rewrite (init_gateway_listing _ _ _ _ _ _ _ Hl Hg).
    erewrite st_bind_step by (apply find_gateway_none; exact Hd). cbv iota beta.
    rewrite (create_gateway_run _ _ _ _ _ _ _ Hc Hid), (poll_step _ _ _ _ _ _ Hp).
    unfold poll_value, api_value. cbn [gateway_id set_gateway_id]. rewrite Ht.
    cbn [sum_bind]. rewrite st_bind_lift_inl. by rewrite <- !app_assoc. }
  split; [exact Hi|]. unfold st_try. rewrite Hi.
  rewrite (shutdown_gateway_run (set_gateway_id gid g) _ _ _ _ Ht Hdel). by rewrite <- !app_assoc.
Qed.

Lemma failed_open_close_deletes_witness :
  let m0 := mk_machine demo_gw
       [ok_json (PyDict [("apiGateways", PyList [other_gw])]); created_answer;
        inl ReadTimeout; ok_json (PyDict [])] [] in
  init_gateway 3 m0 =
    (mk_machine (set_gateway_id (PyStr "d5d2") demo_gw) [ok_json (PyDict [])]
       ([] ++ [EvHttp (list_request demo_gw); EvHttp (create_request demo_gw (spec_of demo_gw));
               EvSleep 500; EvHttp (poll_request (set_gateway_id (PyStr "d5d2") demo_gw))]),
     Exc ReadTimeout) /\
  st_try (init_gateway 3) (fun _ => shutdown_gateway) m0 =
    (mk_machine (set_gateway_id (PyStr "d5d2") demo_gw) []
       ([] ++ [EvHttp (list_request demo_gw); EvHttp (create_request demo_gw (spec_of demo_gw));
               EvSleep 500; EvHttp (poll_request (set_gateway_id (PyStr "d5d2") demo_gw));
               EvHttp (delete_request (set_gateway_id (PyStr "d5d2") demo_gw))]),
     of_sum (sum_bind (ok_json (PyDict [])) response_value)).
Proof.
  apply (failed_open_close_deletes 2 demo_gw _ []
           [created_answer; inl ReadTimeout; ok_json (PyDict [])]
           (ok_json (PyDict [("apiGateways", PyList [other_gw])])) [other_gw]
           [inl ReadTimeout; ok_json (PyDict [])] created_answer (PyStr "d5d2")
           [ok_json (PyDict [])] ReadTimeout [] (ok_json (PyDict [])));
    [reflexivity | reflexivity | | reflexivity .. ].
  constructor; [|constructor]. eexists. split; reflexivity.
Defined.

End Protocol.
