(* ===== verification/Main.v ===== *)
(** * The script of [src/main.py]

    After configuring [CustomHTTPAdapter] ([Retry.v]), [src/main.py]
    builds one adapter (line 41), opens a [requests.Session] (line 42),
    mounts the adapter for both schemes (lines 43-44) and sends a GET
    through the session (line 46); it then prints the body (line 47,
    with the imports of lines 1-5 in [Script.v]) and declares two
    classes whose constructors do nothing (lines 50-57).  The session's adapter table is requests'
    [Session.mount] and [Session.get_adapter]: [mount] inserts a prefix
    before the shorter ones it holds, and [get_adapter] returns the first
    prefix that starts the lower-cased URL. *)

From stdpp Require Import base list.
From Stdlib Require Import ZArith String Ascii Lia.
From S2P Require Import Prelude PyValue Url Http Prepare Retry.

Open Scope string_scope.

Module Main.
Import Py Url Http Prepare Retry.

(** ** The session's adapter table (lines 42-44)

    [Session.mount(prefix, adapter)] sets the key and moves every shorter
    prefix after it, so that [get_adapter] tries longer prefixes first;
    [get_adapter] returns the first adapter whose prefix starts the
    lower-cased URL, and raises [InvalidSchema] when none does. *)
Definition mount {A} (prefix : string) (a : A) (d : list (string * A)) : list (string * A) :=
  let d := dict_set prefix a d in
  let shorter := fun kv : string * A => Nat.ltb (String.length kv.1) (String.length prefix) in
  (List.filter (fun kv => negb (shorter kv)) d ++ List.filter shorter d)%list.

(** [url.lower().startswith(prefix.lower())]. *)
Definition prefix_matches {A} (url : string) (kv : string * A) : bool :=
  startswith (lower url) (lower kv.1).

Definition get_adapter {A} (url : string) (d : list (string * A)) : py_exc + A :=
  match List.find (prefix_matches url) d with
  | Some (_, a) => inr a
  | None => inl (InvalidSchema url)
  end.

(** The adapters a session may hold here. *)
Inductive mounted : Type :=
| BaseHTTPAdapter
| Custom (a : adapter).

(** [requests.Session()]: the default adapters for both schemes. *)
Definition Session : list (string * mounted) :=
  mount "http://" BaseHTTPAdapter (mount "https://" BaseHTTPAdapter []).

(** Lines 41-44. *)
Definition main_session : list (string * mounted) :=
  mount "http://" (Custom default_adapter) (mount "https://" (Custom default_adapter) Session).

Definition mounted_retry (m : mounted) : retry :=
  match m with BaseHTTPAdapter => base_retry | Custom a => max_retries a end.

(** The headers of a fresh [Session] ([requests.utils.default_headers]). *)
Definition default_headers : list (string * string) :=
  [("User-Agent", "python-requests/2.32.3"); ("Accept-Encoding", "gzip, deflate");
   ("Accept", "*/*"); ("Connection", "keep-alive")].

Section Session.
Context `{Backend W}.
Local Open Scope gw_scope.

(** [session.get(url)]: prepare the request ([Prepare.prepare]), pick the adapter for the prepared URL, send. *)
Definition session_get (d : list (string * mounted)) (url : string) : st (T (W:=W)) py_exc response :=
  r <- st_lift (prepare (mk_request "GET" url default_headers NoBody)) ;;
  m <- st_lift (get_adapter (rq_url r) d) ;;
  retry_send (mounted_retry m) r.

(** The request line 46 sends. *)
Definition get_headers : request :=
  mk_request "GET" "https://httpbin.org/headers" default_headers NoBody.

(** Line 46. *)
Definition main_get : st (T (W:=W)) py_exc response :=
  session_get main_session "https://httpbin.org/headers".
End Session.

(** ** The stub classes (lines 50-57)

    [YandexApiGatewayManager()] and [YandexApiGateway(base_url,
    authorization=None, authorization_type=None)]: the constructors only
    [pass], so an instance carries no attribute. *)
Record YandexApiGatewayManager := mk_YandexApiGatewayManager {}.
Record YandexApiGatewayStub := mk_YandexApiGatewayStub {}.

Definition new_manager_stub : YandexApiGatewayManager := mk_YandexApiGatewayManager.

Definition new_gateway_stub (base_url : string) (authorization authorization_type : option string)
  : YandexApiGatewayStub := mk_YandexApiGatewayStub.

(** C31. The session of lines 41-44 sends every [https://] and [http://]
    URL, in any letter case, through the custom adapter (the defaults
    [Session()] mounted are replaced in place), and refuses any other URL
    with [InvalidSchema]. *)
Theorem main_session_routes url :
  get_adapter url main_session
  = if startswith (lower url) "https://" || startswith (lower url) "http://"
    then inr (Custom default_adapter) else inl (InvalidSchema url).
Proof.
  unfold get_adapter. replace main_session with
    [("https://", Custom default_adapter); ("http://", Custom default_adapter)] by reflexivity.
  cbn [List.find fst]. unfold prefix_matches; cbn [fst]. change (lower "https://") with "https://". change (lower "http://") with "http://".
  by destruct (startswith (lower url) "https://"), (startswith (lower url) "http://").
Qed.

(** The GET of line 46 goes through the custom adapter: the session
    prepares [https://httpbin.org/headers] with its default headers and
    [get_adapter] picks the adapter mounted for [https://]. *)
Lemma main_get_adapter_send `{Backend W} t :
  main_get t = adapter_send default_adapter get_headers t.
Proof. reflexivity. Qed.

End Main.
