(* ===== verification/Script.v ===== *)
(** * Running the two modules

    Importing [src/src/api-gateway-proxy.py] or running [src/main.py]
    executes their top-level statements in order.  Both start with import
    statements (lines 1-5 of each file), which consult the installed
    modules and raise [ModuleNotFoundError] or [ImportError] before
    anything else runs; the rest of [api-gateway-proxy.py] only defines
    [OPENAPI_SPEC] and a class, while [main.py] goes on to build its
    adapter and session, send its GET (line 46) and print the body of the
    answer (line 47).  The installed modules are an association list from
    dotted module names to the names they define; the script's state is
    the transport's (network world and attempts) with the text written to
    standard output, after the writer effects of IO developments. *)

From stdpp Require Import base list.
From Stdlib Require Import ZArith String Ascii Lia.
From S2P Require Import Prelude PyValue Url Http Retry Main.

Open Scope string_scope.

Module Script.
Import Py Url Http Retry Main.

(** ** Import statements *)

Inductive import_stmt : Type :=
| Import (m : string)                          (* [import m] *)
| ImportFrom (m : string) (names : list string). (* [from m import a, b] *)

(** The installed modules: a dotted name and the names it defines. *)
Definition modules : Type := list (string * list string).

(** The packages [import a.b.c] loads, parents first: [a], [a.b], [a.b.c]. *)
Fixpoint dotted_prefixes (acc s : string) : list string :=
  match s with
  | EmptyString => [acc]
  | String c r =>
      if Ascii.eqb c "." then acc :: dotted_prefixes (acc ++ ".") r
      else dotted_prefixes (acc ++ String c EmptyString) r
  end.

Definition packages (m : string) : list string := dotted_prefixes "" m.

Definition installed (env : modules) (p : string) : bool :=
  match dict_lookup p env with Some _ => true | None => false end.

(** Loading [m]: the first package of its path that is not installed
    raises [ModuleNotFoundError]; otherwise the names [m] defines. *)
Definition import_module (env : modules) (m : string) : py_exc + list string :=
  match List.find (fun p => negb (installed env p)) (packages m) with
  | Some p => inl (ModuleNotFoundError p)
  | None => match dict_lookup m env with Some ns => inr ns | None => inl (ModuleNotFoundError m) end
  end.

(** [from m import a, b]: the names are bound in order, and the first
    that [m] does not define raises [ImportError] (a submodule of that
    name would be tried first; none of the files imports one). *)
Fixpoint import_names (m : string) (defined names : list string) : py_exc + unit :=
  match names with
  | [] => inr tt
  | n :: rest =>
      if existsb (String.eqb n) defined then import_names m defined rest
      else inl (ImportError n m)
  end.

Definition run_import (env : modules) (s : import_stmt) : py_exc + unit :=
  match s with
  | Import m => sum_bind (import_module env m) (fun _ => inr tt)
  | ImportFrom m names => sum_bind (import_module env m) (fun ns => import_names m ns names)
  end.

(** The statements run in order; the first that raises stops the module. *)
Fixpoint run_imports (env : modules) (ss : list import_stmt) : py_exc + unit :=
  match ss with
  | [] => inr tt
  | s :: rest => sum_bind (run_import env s) (fun _ => run_imports env rest)
  end.

(** Lines 1-5 of [src/src/api-gateway-proxy.py]. *)
Definition GATEWAY_IMPORTS : list import_stmt :=
  [Import "requests"; ImportFrom "time" ["sleep"];
   ImportFrom "requests.adapters" ["HTTPAdapter"]; ImportFrom "urllib.parse" ["urlparse"]].

(** Lines 1-5 of [src/main.py]. *)
Definition MAIN_IMPORTS : list import_stmt :=
  [Import "requests"; ImportFrom "requests.adapters" ["HTTPAdapter"; "Retry"; "PoolManager"];
   ImportFrom "fake_useragent" ["UserAgent"]; ImportFrom "pprint" ["pprint"];
   ImportFrom "typing" ["Union"; "Optional"]].

(** Importing [api-gateway-proxy.py]: past the imports, the module only
    binds [OPENAPI_SPEC] and the class. *)
Definition gateway_module (env : modules) : py_exc + unit := run_imports env GATEWAY_IMPORTS.

(** ** Running [main.py] *)

Definition nl : string := String "010" EmptyString.

Section Main.
Context `{Backend W}.
Local Open Scope gw_scope.

(** The script's state: the transport's, and standard output. *)
Definition script_state : Type := (T (W:=W) * string)%type.

(** A transport computation run inside the script. *)
Definition on_net {A} (m : st (T (W:=W)) py_exc A) : st script_state py_exc A :=
  fun '(t, out) => let '(t', o) := m t in ((t', out), o).

(** [print(s)] for a [str]: the text, then the default [end="\n"]. *)
Definition print (s : string) : st script_state py_exc unit :=
  fun '(t, out) => ((t, out ++ s ++ nl), Ret tt).

(** The module body: the imports (lines 1-5); the constants, the class,
    the adapter and the session (lines 8-44) bind values and make no
    call; the GET (line 46); [print(r.text)] (line 47); the two stub
    classes (lines 50-57) are only defined. *)
Definition main_py (env : modules) : st script_state py_exc unit :=
  st_lift (run_imports env MAIN_IMPORTS) ;;;
  r <- on_net main_get ;;
  print (rs_text r).
End Main.

(** ** Environments *)

(** The modules the two files use as Python 3.12 and requests 2.32 define
    them (the names the files import), without [fake_useragent]. *)
Definition std_env : modules :=
  [("requests", ["Session"; "request"; "Request"; "adapters"]);
   ("requests.adapters", ["HTTPAdapter"; "Retry"; "PoolManager"]);
   ("time", ["sleep"]); ("urllib", ["parse"]); ("urllib.parse", ["urlparse"; "urlsplit"]);
   ("pprint", ["pprint"]); ("typing", ["Union"; "Optional"])].


(** What httpbin answers to the GET of line 46. *)
Definition httpbin_json : pyval :=
  PyDict [("headers", PyDict [("Accept", PyStr "*/*"); ("Accept-Encoding", PyStr "gzip, deflate");
                              ("Host", PyStr "httpbin.org");
                              ("User-Agent", PyStr "python-requests/2.32.3")])].

(** ** Lemmas *)

Lemma run_imports_app env l1 l2 :
  run_imports env (l1 ++ l2) = sum_bind (run_imports env l1) (fun _ => run_imports env l2).
Proof.
  induction l1 as [|s l1 IH]; cbn; [done|].
  destruct (run_import env s); cbn; [done|exact IH].
Qed.

(** A top-level module (no dot in its name) that is not installed. *)
Lemma import_module_missing env m :
  packages m = [m] -> dict_lookup m env = None ->
  import_module env m = inl (ModuleNotFoundError m).
Proof. intros Hp Hm. unfold import_module, installed. rewrite Hp. cbn. by rewrite Hm. Qed.

(** The manager's module needs nothing [main.py] lacks: it imports where
    [fake_useragent] is missing. *)
Lemma gateway_module_std : gateway_module std_env = inr tt.
Proof. reflexivity. Qed.

Section Runs.
Context `{Backend W}.

Lemma main_py_imports_fail env e s :
  run_imports env MAIN_IMPORTS = inl e -> main_py (W:=W) env s = (s, Exc e).
Proof. intros He. unfold main_py. by rewrite He, st_bind_lift_inl. Qed.

End Runs.



(** C35. [main.py] imports [fake_useragent] (line 3) and never uses it:
    where it is not installed, running the script raises
    [ModuleNotFoundError] at line 3, before any request is sent and with
    nothing printed, although the two imports before it succeed. *)
Theorem main_py_without_fake_useragent `{Backend W} env s :
  run_imports env (take 2 MAIN_IMPORTS) = inr tt ->
  dict_lookup "fake_useragent" env = None ->
  main_py env s = (s, Exc (ModuleNotFoundError "fake_useragent")).
Proof.
  intros H2 Hf. apply main_py_imports_fail.
  change MAIN_IMPORTS with (take 2 MAIN_IMPORTS ++ drop 2 MAIN_IMPORTS)%list.
  rewrite run_imports_app, H2. cbn [sum_bind drop MAIN_IMPORTS run_imports run_import].
  by rewrite (import_module_missing env "fake_useragent").
Qed.

Lemma main_py_without_fake_useragent_witness :
  run_imports std_env (take 2 MAIN_IMPORTS) = inr tt /\
  dict_lookup "fake_useragent" std_env = None /\
  @main_py _ script_backend std_env (([ok_json httpbin_json], []), "") =
    ((([ok_json httpbin_json], []), ""), Exc (ModuleNotFoundError "fake_useragent")).
Proof.
  split; [reflexivity|]. split; [reflexivity|].
  apply main_py_without_fake_useragent; reflexivity.
Defined.

End Script.
